(** * ArXivTweetBot2: the paper pipeline, its batch coordinator and the
      multi-search orchestrator, embedded from the Python sources

    The development follows the five source files that carry the pipeline:
    - [ai_summarizer.py]        -> [Module Summarizer]
    - [twitter_poster.py]       -> [Module Twitter]
    - [pdf_processor.py]        -> [Module Pdf]
    - [arxiv_downloader.py]     -> [Module Downloader]
    - [run_multiple_searches.py]-> [Module Orchestrator]

    Local file writes (summaries, logs, markers, id lists) are taken to
    succeed; [os.path.exists] follows symbolic links and is false for a
    link whose target is gone, [os.path.islink] does not follow them.
    The id lists written with ['\n'.join] and read back with
    [splitlines] are modelled by their lines (ids are non-empty and hold
    no line break).

    Python values are modelled as follows.  A [str] is the list of its code
    points, so that [length] is Python's [len]; a [dict] used as a map and a
    directory of files are [gmap]s, a [set] is a [gset].  Everything outside
    the process (arXiv, the PDF bytes, OpenAI, Twitter, the clock, the
    archive generator) is an oracle of the environment [env]; every oracle
    reads the history of events so far, so two calls may answer differently.
    The functions thread a [state] (the files on disk and the event trace). *)

From Stdlib Require Import ZArith Lia Ascii DecimalString.
From stdpp Require Import gmap strings list fin_maps.

Local Open Scope Z_scope.

(** ** Python strings *)

Abbreviation str := (list N).

Fixpoint of_ascii (s : string) : str :=
  match s with
  | EmptyString => []
  | String c s' => Ascii.N_of_ascii c :: of_ascii s'
  end.

(** [s.endswith(suffix)] *)
Definition endswith (s suffix : str) : bool :=
  bool_decide (drop (length s - length suffix)%nat s = suffix).

(** [s.startswith(p)] *)
Fixpoint startswith (s p : str) : bool :=
  match p, s with
  | [], _ => true
  | _ :: _, [] => false
  | a :: p', b :: s' => if bool_decide (a = b) then startswith s' p' else false
  end.

(** [needle in s] *)
Fixpoint contains (s needle : str) : bool :=
  startswith s needle ||
  match s with
  | [] => false
  | _ :: s' => contains s' needle
  end.

(** [s.replace(old, new)] for a non-empty [old]: non-overlapping
    occurrences, left to right.  [skip] counts the characters of a match
    still to be dropped. *)
Fixpoint replace_from (old new : str) (skip : nat) (s : str) : str :=
  match s with
  | [] => []
  | c :: s' =>
      match skip with
      | S k => replace_from old new k s'
      | O =>
          if startswith s old
          then new ++ replace_from old new (length old - 1)%nat s'
          else c :: replace_from old new O s'
      end
  end.

Definition replace (s old new : str) : str := replace_from old new O s.

(** Code points for which [str.isspace] holds; [str.strip] removes them at
    both ends. *)
Definition isspace (c : N) : bool :=
  ((9 <=? c) && (c <=? 13) || (28 <=? c) && (c <=? 32)
   || (c =? 133) || (c =? 160) || (c =? 5760)
   || (8192 <=? c) && (c <=? 8202) || (c =? 8232) || (c =? 8233)
   || (c =? 8239) || (c =? 8287) || (c =? 12288))%N.

Fixpoint lstrip (s : str) : str :=
  match s with
  | c :: s' => if isspace c then lstrip s' else s
  | [] => []
  end.

Definition strip (s : str) : str := rev (lstrip (rev (lstrip s))).

(** Lexicographic [a > b] on code points, Python's string comparison. *)
Fixpoint str_gtb (a b : str) : bool :=
  match a, b with
  | [], _ => false
  | _ :: _, [] => true
  | x :: a', y :: b' =>
      if (y <? x)%N then true
      else if (x <? y)%N then false
      else str_gtb a' b'
  end.

(** ** Records written to disk *)

(** The dictionary built by [generate_summary]; [post_text] and [arxiv_id]
    are the keys whose presence the callers test. *)
Record summary := {
  s_title : str;
  s_timestamp : Z;
  s_summary : str;
  s_post_text : option str;
  s_arxiv_id : option str
}.

(** One posted unit of a publish log. *)
Record tweet := {
  tw_type : str;
  tw_id : Z;
  tw_text : str
}.

(** A publish log, [<id>_twitter_log.json]: the keys [post_text],
    [arxiv_id] and [error] are optional. *)
Record log_record := {
  l_title : str;
  l_timestamp : Z;
  l_summary : str;
  l_post_text : option str;
  l_arxiv_id : option str;
  l_error : option str;
  l_tweets : list tweet
}.

(** A processed marker, [processed/<id>.json]. *)
Record marker := {
  m_arxiv_id : str;
  m_title : str;
  m_processed_at : Z
}.

(** An entry of [last_run_timestamp.json]. *)
Record watermark := {
  wm_timestamp : Z;
  wm_last_paper_id : option str
}.

(** What the search returns for one paper: the title and the last path
    segment of [pdf_url] (the part after the last [/]). *)
Record paper := {
  p_title : str;
  p_pdf_name : str
}.

(** ** Events, environment and state *)

(** The observable steps of a run, in the order they happen. *)
Inductive event :=
| EvSleep (seconds : Z)                          (* time.sleep *)
| EvSearch                                       (* client.results(search) *)
| EvCopy (name : str) (ok : bool)                (* shutil.copy2 *)
| EvFetch (name : str) (ok : bool)               (* requests.get, raise_for_status *)
| EvLedgerQuery (arxiv_id : str) (found : bool)  (* os.path.exists of the marker *)
| EvExtract (name : str) (ok : bool)             (* PyPDF2 reading the PDF *)
| EvApiCall (attempt : Z) (ok : bool)            (* client.chat.completions.create *)
| EvWarnRateLimit (backoff retry_count : Z)      (* logging.warning, status 429 *)
| EvWarnApiError (msg : str) (backoff retry_count : Z)  (* logging.warning, other errors *)
| EvTweet (text : str) (result : str + Z)        (* client.create_tweet: error or tweet id *)
| EvSetSkipped (i : nat)                         (* logging.warning, set without keywords or output *)
| EvSetStart (i : nat)                           (* logging.info, search set started *)
| EvSetFailed (i : nat)                          (* logging.warning, the set returned failure *)
| EvSetError (i : nat) (msg : str)               (* logging.error, the set raised *)
| EvWebGenerator (output_dir : str) (returncode : Z)  (* subprocess web_generator.py *)
| EvSaveIds (ids : gset str)                     (* save_processed_ids *)
| EvSaveTimestamps (ts : gmap str watermark).    (* save_timestamps *)

(** What [client.chat.completions.create] does: a response whose first
    choice has the given content ([None]: no usable content, reading it
    raises), or an exception with an optional [status_code]. *)
Inductive api_result :=
| ApiOk (content : option str)
| ApiError (status_code : option Z) (msg : str).

(** The outside world.  Each oracle is given the trace so far. *)
Record env := {
  env_clock : list event -> Z;
  env_search : list event -> list str -> Z -> bool -> option Z -> str + list paper;
  env_copy : list event -> str -> bool;
  env_fetch : list event -> paper -> option str;
  env_extract : list event -> str -> option str;
  env_api : list event -> str -> api_result;
  env_tweet : list event -> str -> str + Z;
  env_web : list event -> str -> str -> Z;
  (* open(path, 'w') of a file of paper ids: the message of the OSError it
     raises (the directory of the path is missing, say), if it raises *)
  env_open : list event -> str -> option str
}.

(** What lives at [./dl]. *)
Inductive dl_node :=
| DlLink (target : str)           (* a symbolic link to ./pdf/<target> *)
| DlDir (files : gmap str str)    (* a real directory and its files *)
| DlFile.                         (* a regular file *)

(** The files of the working directory and the trace.  [st_pdf] maps the
    name of each directory under [./pdf] to its files; [st_logs] is keyed
    by (log directory, file name); [st_id_files] holds the files that list
    paper ids, one id per line, by path. *)
Record state := {
  st_pdf : gmap str (gmap str str);
  st_dl : option dl_node;
  st_text : gmap str str;
  st_summary : gmap str summary;
  st_processed : gmap str marker;
  st_logs : gmap (str * str) log_record;
  st_id_files : gmap str (list str);
  st_timestamps_file : option (gmap str watermark);
  st_trace : list event
}.

Definition emit (ev : event) (st : state) : state :=
  {| st_pdf := st_pdf st; st_dl := st_dl st; st_text := st_text st;
     st_summary := st_summary st; st_processed := st_processed st;
     st_logs := st_logs st; st_id_files := st_id_files st;
     st_timestamps_file := st_timestamps_file st;
     st_trace := st_trace st ++ [ev] |}.

Definition set_pdf (v : gmap str (gmap str str)) (st : state) : state :=
  {| st_pdf := v; st_dl := st_dl st; st_text := st_text st;
     st_summary := st_summary st; st_processed := st_processed st;
     st_logs := st_logs st; st_id_files := st_id_files st;
     st_timestamps_file := st_timestamps_file st; st_trace := st_trace st |}.

Definition set_dl (v : option dl_node) (st : state) : state :=
  {| st_pdf := st_pdf st; st_dl := v; st_text := st_text st;
     st_summary := st_summary st; st_processed := st_processed st;
     st_logs := st_logs st; st_id_files := st_id_files st;
     st_timestamps_file := st_timestamps_file st; st_trace := st_trace st |}.

Definition set_text (v : gmap str str) (st : state) : state :=
  {| st_pdf := st_pdf st; st_dl := st_dl st; st_text := v;
     st_summary := st_summary st; st_processed := st_processed st;
     st_logs := st_logs st; st_id_files := st_id_files st;
     st_timestamps_file := st_timestamps_file st; st_trace := st_trace st |}.

Definition set_summary (v : gmap str summary) (st : state) : state :=
  {| st_pdf := st_pdf st; st_dl := st_dl st; st_text := st_text st;
     st_summary := v; st_processed := st_processed st;
     st_logs := st_logs st; st_id_files := st_id_files st;
     st_timestamps_file := st_timestamps_file st; st_trace := st_trace st |}.

Definition set_processed (v : gmap str marker) (st : state) : state :=
  {| st_pdf := st_pdf st; st_dl := st_dl st; st_text := st_text st;
     st_summary := st_summary st; st_processed := v;
     st_logs := st_logs st; st_id_files := st_id_files st;
     st_timestamps_file := st_timestamps_file st; st_trace := st_trace st |}.

Definition set_logs (v : gmap (str * str) log_record) (st : state) : state :=
  {| st_pdf := st_pdf st; st_dl := st_dl st; st_text := st_text st;
     st_summary := st_summary st; st_processed := st_processed st;
     st_logs := v; st_id_files := st_id_files st;
     st_timestamps_file := st_timestamps_file st; st_trace := st_trace st |}.

Definition set_id_files (v : gmap str (list str)) (st : state) : state :=
  {| st_pdf := st_pdf st; st_dl := st_dl st; st_text := st_text st;
     st_summary := st_summary st; st_processed := st_processed st;
     st_logs := st_logs st; st_id_files := v;
     st_timestamps_file := st_timestamps_file st; st_trace := st_trace st |}.

Definition set_timestamps_file (v : option (gmap str watermark)) (st : state) : state :=
  {| st_pdf := st_pdf st; st_dl := st_dl st; st_text := st_text st;
     st_summary := st_summary st; st_processed := st_processed st;
     st_logs := st_logs st; st_id_files := st_id_files st;
     st_timestamps_file := v; st_trace := st_trace st |}.

(** Python truthiness of an optional string: [None] and the empty string are false. *)
Definition truthy (o : option str) : bool :=
  match o with
  | Some (_ :: _) => true
  | _ => false
  end.

(** ** ai_summarizer.py *)

Module Summarizer.

(** "C(・ω・ )つ みんなー！", 14 code points *)
Definition greeting : str :=
  [67; 40; 12539; 969; 12539; 32; 41; 12388; 32; 12415; 12435; 12394; 12540; 65281]%N.

(** The placeholder of the prompt template, "{論文テキスト}" *)
Definition placeholder : str :=
  [123; 35542; 25991; 12486; 12461; 12473; 12488; 125]%N.

Definition max_retries : Z := 3.

(** How the [while retry_count < max_retries] loop ends. *)
Inductive loop_result :=
| Response (content : option str)   (* [break] with a response *)
| Raised (msg : str)                (* [raise] after the last attempt *)
| NoResponse                        (* condition false, nothing assigned *)
| OutOfFuel.

(** The retry loop of [generate_summary]; one unit of [fuel] per
    evaluation of the loop condition. *)
Fixpoint call_with_retry (fuel : nat) (e : env) (prompt : str)
    (retry_count backoff_time : Z) (st : state) : loop_result * state :=
  match fuel with
  | O => (OutOfFuel, st)
  | S fuel' =>
      if retry_count <? max_retries then
        match env_api e (st_trace st) prompt with
        | ApiOk content =>
            (Response content, emit (EvApiCall (retry_count + 1) true) st)
        | ApiError status_code msg =>
            let st1 := emit (EvApiCall (retry_count + 1) false) st in
            let retry_count := retry_count + 1 in
            if retry_count >=? max_retries then (Raised msg, st1)
            else
              let st2 :=
                if bool_decide (status_code = Some 429)
                then emit (EvWarnRateLimit backoff_time retry_count) st1
                else emit (EvWarnApiError msg backoff_time retry_count) st1 in
              let st3 := emit (EvSleep backoff_time) st2 in
              call_with_retry fuel' e prompt retry_count (backoff_time * 2) st3
        end
      else (NoResponse, st)
  end.

(** The post text built from the stripped answer: the greeting is put in
    front, and a text above the threshold is cut and given an ellipsis. *)
Definition post_text_of (summary_text : str) : str :=
  let post_text := greeting ++ summary_text in
  let original_length := length post_text in
  if (130 <? original_length)%nat
  then take 277 post_text ++ of_ascii "..."
  else post_text.

(** [generate_summary(client, text, prompt_template, output_dir,
    paper_title, arxiv_id)]; [None] is the [return None] of the outer
    [except].  Writing the result file is taken to succeed. *)
Definition generate_summary (e : env) (text prompt_template paper_title : str)
    (arxiv_id : option str) (st : state) : option summary * state :=
  let output_name :=
    if truthy arxiv_id
    then default [] arxiv_id ++ of_ascii "_summary.json"
    else take 50 (replace (replace paper_title (of_ascii " ") (of_ascii "_"))
                    (of_ascii "/") (of_ascii "_")) ++ of_ascii ".json" in
  let prompt := replace prompt_template placeholder text in
  match call_with_retry (Z.to_nat max_retries) e prompt 0 2 st with
  | (Response (Some content), st1) =>
      let summary_text := strip content in
      let post_text := post_text_of summary_text in
      let result :=
        {| s_title := paper_title;
           s_timestamp := env_clock e (st_trace st1);
           s_summary := summary_text;
           s_post_text := Some post_text;
           s_arxiv_id := arxiv_id |} in
      (Some result, set_summary (<[output_name := result]> (st_summary st1)) st1)
  | (_, st1) => (None, st1)
  end.

End Summarizer.

(** ** twitter_poster.py *)

Module Twitter.

Definition arxiv_url (arxiv_id : str) : str :=
  of_ascii "https://arxiv.org/abs/" ++ arxiv_id.

(** "\n\n" *)
Definition blank_line : str := [10; 10]%N.

(** The name of the log file inside [log_dir]. *)
Definition log_name (sm : summary) : str :=
  if truthy (s_arxiv_id sm)
  then default [] (s_arxiv_id sm) ++ of_ascii "_twitter_log.json"
  else take 30 (replace (s_title sm) (of_ascii " ") (of_ascii "_"))
         ++ of_ascii "_twitter_log.json".

(** The text handed to [create_tweet]: the URL is appended when it fits. *)
Definition final_text (post_text : str) (arxiv_id : option str) : str :=
  if truthy arxiv_id then
    let url := arxiv_url (default [] arxiv_id) in
    if (length post_text + length url + 2 <=? 280)%nat
    then post_text ++ blank_line ++ url
    else post_text
  else post_text.

Definition error_log (e : env) (sm : summary) (err : str) (st : state) : log_record :=
  {| l_title := s_title sm;
     l_timestamp := env_clock e (st_trace st);
     l_summary := s_summary sm;
     l_post_text := None;
     l_arxiv_id := s_arxiv_id sm;
     l_error := Some err;
     l_tweets := [] |}.

(** [post_thread(config, summary, log_dir)].  The credentials are taken to
    be present in [config]; the log file is taken to be writable.  A
    summary without [post_text] raises [KeyError] inside the [try]. *)
Definition post_thread (e : env) (sm : summary) (log_dir : str) (st : state)
    : bool * state :=
  let log_path := (log_dir, log_name sm) in
  match s_post_text sm with
  | Some post_text =>
      let arxiv_id := s_arxiv_id sm in
      let post_text := final_text post_text arxiv_id in
      match env_tweet e (st_trace st) post_text with
      | inr tweet_id =>
          let st1 := emit (EvTweet post_text (inr tweet_id)) st in
          let tweets :=
            [ {| tw_type := of_ascii "post"; tw_id := tweet_id; tw_text := post_text |} ] in
          let log_data :=
            {| l_title := s_title sm;
               l_timestamp := env_clock e (st_trace st1);
               l_summary := s_summary sm;
               l_post_text := None;
               l_arxiv_id := if truthy arxiv_id then arxiv_id else None;
               l_error := None;
               l_tweets := tweets |} in
          (true, set_logs (<[log_path := log_data]> (st_logs st1)) st1)
      | inl err =>
          let st1 := emit (EvTweet post_text (inl err)) st in
          (false, set_logs (<[log_path := error_log e sm err st1]> (st_logs st1)) st1)
      end
  | None =>
      (false, set_logs (<[log_path := error_log e sm (of_ascii "'post_text'") st]>
                          (st_logs st)) st)
  end.

End Twitter.

(** ** pdf_processor.py *)

Module Pdf.

(** Index of the last occurrence of [c] in [s], counting from [i]. *)
Fixpoint rfind (c : N) (s : str) (i : nat) (acc : option nat) : option nat :=
  match s with
  | [] => acc
  | x :: s' => rfind c s' (S i) (if (x =? c)%N then Some i else acc)
  end.

(** [os.path.splitext(name)[0]] for a name without a separator: the part
    before the last dot, unless only dots precede it. *)
Definition splitext_root (name : str) : str :=
  match rfind 46%N name O None with
  | Some dot_index =>
      if existsb (fun c => negb (c =? 46)%N) (take dot_index name)
      then take dot_index name
      else name
  | None => name
  end.

(** The files of the directory [./dl] resolves to, if it is one. *)
Definition dl_files (st : state) : option (gmap str str) :=
  match st_dl st with
  | Some (DlLink target) => st_pdf st !! target
  | Some (DlDir files) => Some files
  | Some DlFile | None => None
  end.

(** [extract_text_from_pdf(pdf_path, output_dir)], [pdf_path] being a file
    of the download directory; returns the name of the text file. *)
Definition extract_text_from_pdf (e : env) (pdf_name : str) (st : state)
    : option str * state :=
  let filename_without_ext := splitext_root pdf_name in
  let output_path := filename_without_ext ++ of_ascii ".txt" in
  match dl_files st ≫= (.!! pdf_name) with
  | Some content =>
      match env_extract e (st_trace st) content with
      | Some text =>
          let st1 := emit (EvExtract pdf_name true) st in
          (Some output_path, set_text (<[output_path := text]> (st_text st1)) st1)
      | None => (None, emit (EvExtract pdf_name false) st)
      end
  | None => (None, emit (EvExtract pdf_name false) st)
  end.

End Pdf.

(** ** arxiv_downloader.py *)

Module Downloader.

Import Pdf.

(** [os.makedirs(base_dir/dl, exist_ok=True)] of [setup_directories]:
    [None] when it raises. *)
Definition setup_directories (st : state) : option state :=
  match st_dl st with
  | None => Some (set_dl (Some (DlDir ∅)) st)
  | Some (DlDir _) => Some st
  | Some (DlLink target) => if bool_decide (is_Some (st_pdf st !! target)) then Some st else None
  | Some DlFile => None
  end.

(** [is_processed(arxiv_id, processed_dir, processed_ids)] *)
Definition is_processed (arxiv_id : str) (processed_ids : option (gset str))
    (st : state) : bool * state :=
  if match processed_ids with
     | Some ids => bool_decide (ids ≠ ∅) && bool_decide (arxiv_id ∈ ids)
     | None => false
     end
  then (true, st)
  else
    let found := bool_decide (is_Some (st_processed st !! arxiv_id)) in
    (found, emit (EvLedgerQuery arxiv_id found) st).

(** [mark_as_processed(arxiv_id, paper_title, processed_dir)] *)
Definition mark_as_processed (e : env) (arxiv_id paper_title : str) (st : state) : state :=
  let data :=
    {| m_arxiv_id := arxiv_id; m_title := paper_title;
       m_processed_at := env_clock e (st_trace st) |} in
  set_processed (<[arxiv_id := data]> (st_processed st)) st.

(** [extract_arxiv_id(paper)] *)
Definition extract_arxiv_id (p : paper) : str :=
  let arxiv_id := p_pdf_name p in
  if endswith arxiv_id (of_ascii ".pdf")
  then take (length arxiv_id - 4) arxiv_id
  else arxiv_id.

(** [os.path.exists(dl/<name>)] *)
Definition dl_exists (name : str) (st : state) : bool :=
  bool_decide (is_Some (dl_files st ≫= (.!! name))).

(** [open(dl/<name>, 'wb').write(content)]; [None] when the directory does
    not resolve and [open] raises. *)
Definition dl_write (name content : str) (st : state) : option state :=
  match st_dl st with
  | Some (DlLink target) =>
      match st_pdf st !! target with
      | Some files => Some (set_pdf (<[target := <[name := content]> files]> (st_pdf st)) st)
      | None => None
      end
  | Some (DlDir files) => Some (set_dl (Some (DlDir (<[name := content]> files))) st)
  | Some DlFile | None => None
  end.

(** [download_pdf(paper, download_dir, force_download)]: success, the name
    of the file in the download directory, the id without extension. *)
Definition download_pdf (e : env) (p : paper) (force_download : bool) (st : state)
    : (bool * option str * str) * state :=
  let arxiv_id := p_pdf_name p in
  let arxiv_id :=
    if negb (endswith arxiv_id (of_ascii ".pdf"))
    then arxiv_id ++ of_ascii ".pdf" else arxiv_id in
  let arxiv_id_without_ext := splitext_root arxiv_id in
  if dl_exists arxiv_id st && negb force_download
  then ((true, Some arxiv_id, arxiv_id_without_ext), st)
  else
    let st1 := emit (EvSleep 5) st in
    match env_fetch e (st_trace st1) p with
    | Some content =>
        let st2 := emit (EvFetch arxiv_id true) st1 in
        match dl_write arxiv_id content st2 with
        | Some st3 =>
            ((true, Some arxiv_id, arxiv_id_without_ext), emit (EvSleep 2) st3)
        | None => ((false, None, arxiv_id_without_ext), st2)
        end
    | None =>
        ((false, None, arxiv_id_without_ext), emit (EvFetch arxiv_id false) st1)
    end.

(** The log written when the Twitter post is skipped. *)
Definition skip_log (e : env) (p : paper) (sm : summary) (arxiv_id : str)
    (st : state) : log_record :=
  {| l_title := p_title p;
     l_timestamp := env_clock e (st_trace st);
     l_summary := s_summary sm;
     l_post_text := s_post_text sm;
     l_arxiv_id := Some arxiv_id;
     l_error := None;
     l_tweets := [] |}.

(** [process_paper(paper, dirs, openai_client, config, force_process,
    skip_twitter)]; [prompt_template] is [config['prompt']['template']] and
    [log_dir] is [dirs['logs']]. *)
Definition process_paper (e : env) (prompt_template log_dir : str) (p : paper)
    (force_process skip_twitter : bool) (st : state) : bool * state :=
  (* 1. download *)
  let '((success, pdf_path, arxiv_id), st) := download_pdf e p false st in
  if negb success then (false, st) else
  (* 2. already processed? *)
  let '(processed, st) := is_processed arxiv_id None st in
  if processed && negb force_process then (true, st) else
  (* 3. text extraction *)
  match extract_text_from_pdf e (default [] pdf_path) st with
  | (None, st) => (false, st)
  | (Some text_path, st) =>
      (* 4. read the text *)
      let paper_text := default [] (st_text st !! text_path) in
      (* 5. summary *)
      match Summarizer.generate_summary e paper_text prompt_template
              (p_title p) (Some arxiv_id) st with
      | (None, st) => (false, st)
      | (Some sm, st) =>
          let sm :=
            {| s_title := s_title sm; s_timestamp := s_timestamp sm;
               s_summary := s_summary sm; s_post_text := s_post_text sm;
               s_arxiv_id := Some arxiv_id |} in
          let sm :=
            match s_post_text sm with
            | Some _ => sm
            | None =>
                let post_text := s_summary sm in
                let post_text :=
                  if truthy (Some arxiv_id) then
                    let url := Twitter.arxiv_url arxiv_id in
                    if (length post_text + length url + 2 <=? 280)%nat
                    then post_text ++ Twitter.blank_line ++ url
                    else post_text
                  else post_text in
                {| s_title := s_title sm; s_timestamp := s_timestamp sm;
                   s_summary := s_summary sm; s_post_text := Some post_text;
                   s_arxiv_id := s_arxiv_id sm |}
            end in
          (* 6. Twitter, unless skipped *)
          if negb skip_twitter then
            let '(success, st) := Twitter.post_thread e sm log_dir st in
            if negb success then (false, st)
            else (true, mark_as_processed e arxiv_id (p_title p) st)
          else
            let log_path := (log_dir, arxiv_id ++ of_ascii "_twitter_log.json") in
            let st := set_logs (<[log_path := skip_log e p sm arxiv_id st]> (st_logs st)) st in
            (* 7. mark as processed *)
            (true, mark_as_processed e arxiv_id (p_title p) st)
      end
  end.

(** The loop of [copy_pdf_if_exists] over the directories of [./pdf]. *)
Fixpoint copy_from (e : env) (pdf_filename : str)
    (pdf_dirs : list (str * gmap str str)) (st : state) : bool * state :=
  match pdf_dirs with
  | [] => (false, st)
  | (_, files) :: rest =>
      match files !! pdf_filename with
      | Some content =>
          if dl_exists pdf_filename st then (true, st)
          else if env_copy e (st_trace st) pdf_filename then
            match dl_write pdf_filename content st with
            | Some st1 => (true, emit (EvCopy pdf_filename true) st1)
            | None => (false, emit (EvCopy pdf_filename false) st)
            end
          else (false, emit (EvCopy pdf_filename false) st)
      | None => copy_from e pdf_filename rest st
      end
  end.

(** The names [glob('./pdf/*')] yields are those of the entries of
    [./pdf] itself: no name with a separator, and none that starts with a
    dot. *)
Definition glob_visible (name : str) : bool :=
  match name with
  | [] => false
  | c :: _ => negb (c =? 46)%N && negb (existsb (λ x, (x =? 47)%N) name)
  end.

(** [copy_pdf_if_exists(arxiv_id, target_dir)]; [glob('./pdf/*')] lists the
    visible directories in the order of [map_to_list].  The names of the
    directories are taken as written: two names are two directories. *)
Definition copy_pdf_if_exists (e : env) (arxiv_id : str) (st : state) : bool * state :=
  copy_from e (arxiv_id ++ of_ascii ".pdf")
    (filter (λ d, glob_visible d.1 = true) (map_to_list (st_pdf st))) st.

(** [search_arxiv]: the query goes to the client; the id filter is applied
    to what it returns.  [inl] is an exception of the client. *)
Definition search_arxiv (e : env) (keywords : list str) (max_results : Z)
    (use_or : bool) (since_timestamp : option Z) (last_paper_id : option str)
    (st : state) : (str + list paper) * state :=
  let st1 := emit EvSearch st in
  match env_search e (st_trace st) keywords max_results use_or since_timestamp with
  | inl err => (inl err, st1)
  | inr results =>
      if truthy last_paper_id then
        (inr (filter (λ p, str_gtb (extract_arxiv_id p) (default [] last_paper_id) = true)
                results), st1)
      else (inr results, st1)
  end.

(** The command line of [arxiv_downloader.py]. *)
Record args := {
  a_keywords : list str;
  a_max_results : Z;
  a_use_or : bool;
  a_force_download : bool;
  a_force_process : bool;
  a_test_mode : bool;
  a_skip_twitter : bool;
  a_max_process : Z;
  a_log_dir : option str;
  a_since_timestamp : option Z;
  a_last_paper_id : option str;
  a_processed_ids_file : option str;
  a_output_processed_ids : option str
}.

(** The selection loop of [main]: the running values of [processed_count],
    [papers_to_process] and [newly_processed_ids]. *)
Fixpoint select_papers (e : env) (a : args) (processed_ids : gset str)
    (max_process_count : Z) (papers : list paper) (processed_count : Z)
    (papers_to_process : list paper) (newly_processed_ids : gset str)
    (st : state) : (Z * list paper * gset str) * state :=
  match papers with
  | [] => ((processed_count, papers_to_process, newly_processed_ids), st)
  | p :: rest =>
      if processed_count >=? max_process_count
      then ((processed_count, papers_to_process, newly_processed_ids), st)
      else
        let arxiv_id := extract_arxiv_id p in
        let '(processed, st) := is_processed arxiv_id (Some processed_ids) st in
        if negb processed || a_force_process a then
          let '(copied, st) := copy_pdf_if_exists e arxiv_id st in
          if negb copied then
            let '((success, _, _), st) := download_pdf e p false st in
            if negb success then
              select_papers e a processed_ids max_process_count rest processed_count
                papers_to_process newly_processed_ids st
            else
              select_papers e a processed_ids max_process_count rest (processed_count + 1)
                (papers_to_process ++ [p]) ({[arxiv_id]} ∪ newly_processed_ids) st
          else
            select_papers e a processed_ids max_process_count rest (processed_count + 1)
              (papers_to_process ++ [p]) ({[arxiv_id]} ∪ newly_processed_ids) st
        else
          select_papers e a processed_ids max_process_count rest processed_count
            papers_to_process newly_processed_ids st
  end.

(** The processing loop of [main] from index [i] on, [len] being
    [len(papers_to_process)]; returns the values of [success] in order. *)
Fixpoint process_papers (e : env) (prompt_template log_dir : str) (a : args)
    (len : Z) (i : Z) (papers : list paper) (st : state) : list bool * state :=
  match papers with
  | [] => ([], st)
  | p :: rest =>
      let is_last_paper := i =? len - 1 in
      let current_skip_twitter := a_skip_twitter a || negb is_last_paper in
      let '(success, st) :=
        process_paper e prompt_template log_dir p (a_force_process a)
          current_skip_twitter st in
      let st := emit (EvSleep 5) st in
      let '(successes, st) :=
        process_papers e prompt_template log_dir a len (i + 1) rest st in
      (success :: successes, st)
  end.

(** The loop that sets [twitter_posted]. *)
Fixpoint twitter_posted_from (a : args) (len : Z) (i : Z) (papers : list paper) : bool :=
  match papers with
  | [] => false
  | _ :: rest =>
      let is_last_paper := i =? len - 1 in
      if negb (a_skip_twitter a) && is_last_paper then true
      else twitter_posted_from a len (i + 1) rest
  end.

(** How [main] ends: [sys.exit] or an uncaught exception, or the end of the
    function after logging [processed_count] and [twitter_posted]. *)
Inductive main_result :=
| Exit (code : Z)
| Completed (processed_count : Z) (twitter_posted : bool) (successes : list bool).

Definition returncode (r : main_result) : Z :=
  match r with
  | Exit code => code
  | Completed _ _ _ => 0
  end.

(** The log directory of a run: [--log-dir] when given and not empty. *)
Definition logs_dir (a : args) : str :=
  if truthy (a_log_dir a) then default [] (a_log_dir a) else of_ascii "logs".

(** The ids [main] reads from [--processed-ids-file], when the option is
    given and the file exists. *)
Definition read_processed_ids (a : args) (st : state) : gset str :=
  match (if truthy (a_processed_ids_file a) then a_processed_ids_file a else None)
          ≫= (λ f, st_id_files st !! f) with
  | Some lines => list_to_set lines
  | None => ∅
  end.

Definition max_process_count (a : args) : Z :=
  if a_test_mode a then 1 else a_max_process a.

(** [main()] for the parsed arguments [a].  [config] is what
    [load_config()] gives, reduced to [config['prompt']['template']]:
    [None] when it raises ([config.yaml] is missing or does not parse) or
    the client cannot be built from it; a configuration that loads is
    taken to hold the keys the run reads.  Creating the log directory and
    the log file and reading the file of [--processed-ids-file] are taken
    to succeed; opening the file of [--output-processed-ids] is the
    oracle [env_open].  [successes] lists the values the local [success]
    took.  An exception nothing catches ends the process with status 1. *)
Definition main (e : env) (config : option str) (a : args) (st : state)
    : main_result * state :=
  match setup_directories st with
  | None => (Exit 1, st)
  | Some st =>
      let log_dir := logs_dir a in
      match config with
      | None => (Exit 1, st)
      | Some prompt_template =>
          let processed_ids := read_processed_ids a st in
          match search_arxiv e (a_keywords a) (a_max_results a) (a_use_or a)
                  (a_since_timestamp a) (a_last_paper_id a) st with
          | (inl _, st) => (Exit 1, st)
          | (inr [], st) => (Exit 0, st)
          | (inr papers, st) =>
              let '((processed_count, papers_to_process, newly_processed_ids), st) :=
                select_papers e a processed_ids (max_process_count a) papers 0 [] ∅ st in
              match papers_to_process with
              | [] => (Exit 0, st)
              | _ :: _ =>
                  let len := Z.of_nat (length papers_to_process) in
                  let '(successes, st) :=
                    process_papers e prompt_template log_dir a len 0
                      papers_to_process st in
                  let twitter_posted := twitter_posted_from a len 0 papers_to_process in
                  if truthy (a_output_processed_ids a)
                     && bool_decide (newly_processed_ids ≠ ∅)
                  then
                    let f := default [] (a_output_processed_ids a) in
                    match env_open e (st_trace st) f with
                    | None =>
                        (Completed processed_count twitter_posted successes,
                         set_id_files
                           (<[f := elements newly_processed_ids]> (st_id_files st)) st)
                    | Some _ => (Exit 1, st)
                    end
                  else (Completed processed_count twitter_posted successes, st)
              end
          end
      end
  end.

End Downloader.

(** ** run_multiple_searches.py *)

Module Orchestrator.

(** [sep.join(parts)] *)
Fixpoint join (sep : str) (parts : list str) : str :=
  match parts with
  | [] => []
  | [x] => x
  | x :: rest => x ++ sep ++ join sep rest
  end.

(** One entry of [search_sets] in [config.yaml], defaults filled in. *)
Record search_set := {
  ss_keywords : list str;
  ss_output_dir : str;
  ss_max_results : Z;
  ss_tweet_enabled : bool
}.

(** [config.yaml] as both scripts read it. *)
Record config := {
  c_search_sets : list search_set;
  c_wait_between_sets : Z;
  c_prompt_template : str
}.

(** [generate_pdf_dir_name(keywords)], without the leading "./pdf/". *)
Definition generate_pdf_dir_name (e : env) (keywords : list str) (st : state) : str :=
  match keywords with
  | _ :: _ => join (of_ascii "_") keywords
  | [] => of_ascii "search_"
            ++ of_ascii (NilZero.string_of_int (Z.to_int (env_clock e (st_trace st))))
  end.

(** [os.path.exists("./dl")]: a symbolic link is followed. *)
Definition dl_path_exists (st : state) : bool :=
  match st_dl st with
  | Some (DlLink target) => bool_decide (is_Some (st_pdf st !! target))
  | Some (DlDir _) | Some DlFile => true
  | None => false
  end.

(** [os.path.islink("./dl")] *)
Definition dl_islink (st : state) : bool :=
  match st_dl st with
  | Some (DlLink _) => true
  | _ => false
  end.

(** [setup_pdf_directory(keywords)]: [inl] is the exception raised by
    [shutil.rmtree] or [os.symlink], [inr] the directory returned. *)
Definition setup_pdf_directory (e : env) (keywords : list str) (st : state)
    : (str + str) * state :=
  let pdf_dir := generate_pdf_dir_name e keywords st in
  (* os.makedirs(pdf_dir, exist_ok=True) *)
  let st :=
    match st_pdf st !! pdf_dir with
    | Some _ => st
    | None => set_pdf (<[pdf_dir := ∅]> (st_pdf st)) st
    end in
  let removed : str + state :=
    if dl_path_exists st then
      if dl_islink st then inr (set_dl None st)           (* os.unlink *)
      else
        match st_dl st with                               (* shutil.rmtree *)
        | Some DlFile => inl (of_ascii "NotADirectoryError")
        | _ => inr (set_dl None st)
        end
    else inr st in
  match removed with
  | inl err => (inl err, st)
  | inr st =>
      (* os.symlink(pdf_dir, dl_dir) *)
      match st_dl st with
      | None => (inr pdf_dir, set_dl (Some (DlLink pdf_dir)) st)
      | Some _ => (inl (of_ascii "FileExistsError"), st)
      end
  end.

(** [load_timestamps()] *)
Definition load_timestamps (st : state) : gmap str watermark :=
  default ∅ (st_timestamps_file st).

Definition processed_ids_path : str := of_ascii "processed_paper_ids.txt".

(** [load_processed_ids()] *)
Definition load_processed_ids (st : state) : gset str :=
  match st_id_files st !! processed_ids_path with
  | Some lines => list_to_set lines
  | None => ∅
  end.

(** [save_processed_ids(processed_ids)] *)
Definition save_processed_ids (processed_ids : gset str) (st : state) : state :=
  emit (EvSaveIds processed_ids)
    (set_id_files (<[processed_ids_path := elements processed_ids]> (st_id_files st)) st).

(** [save_timestamps(timestamps)] *)
Definition save_timestamps (timestamps : gmap str watermark) (st : state) : state :=
  emit (EvSaveTimestamps timestamps) (set_timestamps_file (Some timestamps) st).

(** [re.sub(r'[^a-zA-Z0-9]', '_', kw)] *)
Definition safe_keyword (kw : str) : str :=
  map (λ c : N,
         if ((48 <=? c) && (c <=? 57) || (65 <=? c) && (c <=? 90)
             || (97 <=? c) && (c <=? 122))%N
         then c else 95%N) kw.

(** How a call of [run_search_set] ends. *)
Inductive run_result :=
| Raise (msg : str)
| Return (success : bool) (new_processed_ids : gset str).

(** The block of [run_search_set] that writes the processed ids to a
    temporary file: the value of [processed_ids_file], or the message of
    the exception [open] raises. *)
Definition write_processed_ids_file (e : env) (processed_ids : gset str)
    (search_set_id : str) (st : state) : str + (option str * state) :=
  let temp_file := of_ascii "./temp_processed_ids_" ++ search_set_id ++ of_ascii ".txt" in
  if bool_decide (processed_ids ≠ ∅) then
    match env_open e (st_trace st) temp_file with
    | None =>
        inr (Some temp_file,
             set_id_files (<[temp_file := elements processed_ids]> (st_id_files st)) st)
    | Some msg => inl msg
    end
  else inr (None, st).

(** The command line [cmd] of [run_search_set], as [arxiv_downloader.py]
    parses it. *)
Definition cmd (keywords : list str) (max_results : Z) (tweet_enabled : bool)
    (timestamps : gmap str watermark) (search_set_id : str)
    (processed_ids_file : option str) : Downloader.args :=
  let log_dir := of_ascii "./logs/" ++ join (of_ascii "_") (map safe_keyword keywords) in
  let since_timestamp := wm_timestamp <$> timestamps !! search_set_id in
  let last_paper_id := timestamps !! search_set_id ≫= wm_last_paper_id in
  let new_processed_ids_file :=
    of_ascii "./new_processed_ids_" ++ search_set_id ++ of_ascii ".txt" in
  {| Downloader.a_keywords := keywords;
     Downloader.a_max_results := max_results;
     Downloader.a_use_or := false;
     Downloader.a_force_download := false;
     Downloader.a_force_process := false;
     Downloader.a_test_mode := false;
     Downloader.a_skip_twitter := negb tweet_enabled;
     Downloader.a_max_process := 9999;
     Downloader.a_log_dir := Some log_dir;
     Downloader.a_since_timestamp := since_timestamp;
     Downloader.a_last_paper_id :=
       if truthy last_paper_id then last_paper_id else None;
     Downloader.a_processed_ids_file := processed_ids_file;
     Downloader.a_output_processed_ids := Some new_processed_ids_file |}.

(** [run_search_set(keywords, output_dir, max_results, tweet_enabled,
    timestamps, processed_ids, search_set_id)].  The dictionary
    [timestamps] is shared with the caller, so the updated map is returned
    next to the result.  The first subprocess is [Downloader.main], which
    reads the [config.yaml] the orchestrator has loaded. *)
Definition run_search_set (e : env) (cfg : config) (keywords : list str)
    (output_dir : str) (max_results : Z) (tweet_enabled : bool)
    (timestamps : gmap str watermark) (processed_ids : gset str)
    (search_set_id : str) (st : state)
    : run_result * gmap str watermark * state :=
  match setup_pdf_directory e keywords st with
  | (inl err, st) => (Raise err, timestamps, st)
  | (inr pdf_dir, st) =>
      let log_dir := of_ascii "./logs/" ++ join (of_ascii "_") (map safe_keyword keywords) in
      let current_timestamp := env_clock e (st_trace st) in
      match write_processed_ids_file e processed_ids search_set_id st with
      | inl err => (Raise err, timestamps, st)
      | inr (processed_ids_file, st) =>
          let new_processed_ids_file :=
            of_ascii "./new_processed_ids_" ++ search_set_id ++ of_ascii ".txt" in
          let '(result, st) :=
            Downloader.main e (Some (c_prompt_template cfg))
              (cmd keywords max_results tweet_enabled timestamps search_set_id
                 processed_ids_file) st in
          let st :=
            match processed_ids_file with
            | Some f => set_id_files (delete f (st_id_files st)) st
            | None => st
            end in
          if negb (Downloader.returncode result =? 0)
          then (Return false ∅, timestamps, st)
          else
            let '(new_processed_ids, st) :=
              match st_id_files st !! new_processed_ids_file with
              | Some lines =>
                  (list_to_set lines,
                   set_id_files (delete new_processed_ids_file (st_id_files st)) st)
              | None => (∅, st)
              end in
            let timestamps :=
              <[search_set_id := {| wm_timestamp := current_timestamp;
                                    wm_last_paper_id := None |}]> timestamps in
            let web_returncode := env_web e (st_trace st) log_dir output_dir in
            let st := emit (EvWebGenerator output_dir web_returncode) st in
            if negb (web_returncode =? 0)
            then (Return false new_processed_ids, timestamps, st)
            else (Return true new_processed_ids, timestamps, st)
      end
  end.

(** The loop of [main] over the search sets from index [i] on; [len] is
    [len(search_sets)].  The wait between two sets is outside the [try]:
    [time.sleep] raises [ValueError] for a negative [wait_between_sets],
    and the result is then [None]. *)
Fixpoint run_sets (e : env) (cfg : config) (len : Z) (i : nat)
    (search_sets : list search_set) (timestamps : gmap str watermark)
    (processed_ids all_new_processed_ids : gset str) (st : state)
    : option (gmap str watermark * gset str) * state :=
  match search_sets with
  | [] => (Some (timestamps, all_new_processed_ids), st)
  | ss :: rest =>
      let keywords := ss_keywords ss in
      let output_dir := ss_output_dir ss in
      if bool_decide (keywords = []) || bool_decide (output_dir = []) then
        run_sets e cfg len (S i) rest timestamps processed_ids all_new_processed_ids
          (emit (EvSetSkipped i) st)
      else
        let search_set_id := join (of_ascii "_") keywords in
        let st := emit (EvSetStart i) st in
        let '(r, timestamps, st) :=
          run_search_set e cfg keywords output_dir (ss_max_results ss)
            (ss_tweet_enabled ss) timestamps processed_ids search_set_id st in
        let '(all_new_processed_ids, st) :=
          match r with
          | Return success new_processed_ids =>
              (all_new_processed_ids ∪ new_processed_ids,
               if success then st else emit (EvSetFailed i) st)
          | Raise msg => (all_new_processed_ids, emit (EvSetError i msg) st)
          end in
        if Z.of_nat i <? len - 1 then
          if c_wait_between_sets cfg <? 0 then (None, st)
          else
            run_sets e cfg len (S i) rest timestamps processed_ids all_new_processed_ids
              (emit (EvSleep (c_wait_between_sets cfg)) st)
        else
          run_sets e cfg len (S i) rest timestamps processed_ids all_new_processed_ids st
  end.

(** [main()]: [cfg] is what [load_config()] returned.  An exception of the
    loop ends the process before anything is saved. *)
Definition main (e : env) (cfg : option config) (st : state) : state :=
  match cfg with
  | None => st
  | Some cfg =>
      let timestamps := load_timestamps st in
      let processed_ids := load_processed_ids st in
      match c_search_sets cfg with
      | [] => st
      | search_sets =>
          match run_sets e cfg (Z.of_nat (length search_sets)) 0 search_sets
                  timestamps processed_ids ∅ st with
          | (Some (timestamps, all_new_processed_ids), st) =>
              let processed_ids := processed_ids ∪ all_new_processed_ids in
              let st := save_processed_ids processed_ids st in
              save_timestamps timestamps st
          | (None, st) => st
          end
      end
  end.

End Orchestrator.

(** ** Concrete worlds

    Small environments and states on which the statements below are
    evaluated. *)

Module Scenario.

Definition paper1 : paper :=
  {| p_title := of_ascii "Quantum key exchange"; p_pdf_name := of_ascii "2401.12345v1" |}.

Definition paper2 : paper :=
  {| p_title := of_ascii "Lattice signatures"; p_pdf_name := of_ascii "2401.12346v2.pdf" |}.

Definition answer : str := of_ascii "  Qubits share a secret.  ".

(** A world with one paper to find, where the summarizer always answers
    [api] and Twitter always answers [tweet]. *)
Definition world (api : api_result) (tweet : str + Z) : env :=
  {| env_clock := λ h, Z.of_nat (length h);
     env_search := λ _ _ _ _ _, inr [paper1];
     env_copy := λ _ _, true;
     env_fetch := λ _ _, Some (of_ascii "%PDF-1.5");
     env_extract := λ _ _, Some (of_ascii "We study qubits.");
     env_api := λ _ _, api;
     env_tweet := λ _ _, tweet;
     env_web := λ _ _ _, 0;
     env_open := λ _ _, None |}.

Definition env_ok : env := world (ApiOk (Some answer)) (inr 1001).

Definition env_api_down : env :=
  world (ApiError (Some 429) (of_ascii "rate limit reached")) (inr 1001).

Definition env_tweet_down : env :=
  world (ApiOk (Some answer)) (inl (of_ascii "403 Forbidden")).

(** A paper with a ten-character id, and a world whose summarizer answers
    with 232 characters: with the greeting, 246. *)
Definition paper_short_id : paper :=
  {| p_title := of_ascii "Short id"; p_pdf_name := of_ascii "2401.12345" |}.

Definition long_answer : str := replicate 232 97%N.

Definition env_long : env := world (ApiOk (Some long_answer)) (inr 1001).

Definition template : str := of_ascii "Summarize: " ++ Summarizer.placeholder.

Definition logs : str := of_ascii "logs".

(** The command line [arxiv_downloader.py quantum], with or without
    [--skip-twitter]. *)
Definition cli (skip_twitter : bool) : Downloader.args :=
  {| Downloader.a_keywords := [of_ascii "quantum"];
     Downloader.a_max_results := 200;
     Downloader.a_use_or := false;
     Downloader.a_force_download := false;
     Downloader.a_force_process := false;
     Downloader.a_test_mode := false;
     Downloader.a_skip_twitter := skip_twitter;
     Downloader.a_max_process := 9999;
     Downloader.a_log_dir := None;
     Downloader.a_since_timestamp := None;
     Downloader.a_last_paper_id := None;
     Downloader.a_processed_ids_file := None;
     Downloader.a_output_processed_ids := None |}.

(** The same with [--output-processed-ids new_ids.txt]. *)
Definition cli_out (skip_twitter : bool) : Downloader.args :=
  {| Downloader.a_keywords := [of_ascii "quantum"];
     Downloader.a_max_results := 200;
     Downloader.a_use_or := false;
     Downloader.a_force_download := false;
     Downloader.a_force_process := false;
     Downloader.a_test_mode := false;
     Downloader.a_skip_twitter := skip_twitter;
     Downloader.a_max_process := 9999;
     Downloader.a_log_dir := None;
     Downloader.a_since_timestamp := None;
     Downloader.a_last_paper_id := None;
     Downloader.a_processed_ids_file := None;
     Downloader.a_output_processed_ids := Some (of_ascii "new_ids.txt") |}.

Definition set_quantum : Orchestrator.search_set :=
  {| Orchestrator.ss_keywords := [of_ascii "quantum"];
     Orchestrator.ss_output_dir := of_ascii "www/quantum";
     Orchestrator.ss_max_results := 5;
     Orchestrator.ss_tweet_enabled := true |}.

Definition set_lattice : Orchestrator.search_set :=
  {| Orchestrator.ss_keywords := [of_ascii "lattice"; of_ascii "crypto"];
     Orchestrator.ss_output_dir := of_ascii "www/lattice";
     Orchestrator.ss_max_results := 5;
     Orchestrator.ss_tweet_enabled := false |}.

(** [config.yaml] with one search set, and with two. *)
Definition config1 : Orchestrator.config :=
  {| Orchestrator.c_search_sets := [set_quantum];
     Orchestrator.c_wait_between_sets := 10;
     Orchestrator.c_prompt_template := template |}.


(** The same two sets with a wait of -1 second between them. *)
Definition config_negative_wait : Orchestrator.config :=
  {| Orchestrator.c_search_sets := [set_quantum; set_lattice];
     Orchestrator.c_wait_between_sets := -1;
     Orchestrator.c_prompt_template := template |}.


(** A fresh working directory. *)
Definition st_fresh : state :=
  {| st_pdf := ∅; st_dl := None; st_text := ∅; st_summary := ∅;
     st_processed := ∅; st_logs := ∅; st_id_files := ∅;
     st_timestamps_file := None; st_trace := [] |}.

(** A working directory where [./dl] is a link to a directory of [./pdf]
    that is gone. *)
Definition st_dangling : state := set_dl (Some (DlLink (of_ascii "old_topic"))) st_fresh.

(** The same after [setup_directories]. *)
Definition st_ready : state := set_dl (Some (DlDir ∅)) st_fresh.

End Scenario.

(** * Vocabulary of the statements

    Projections of traces, the shapes the stages leave in a trace and the
    frame conditions used to state and prove the properties. *)

Section Vocabulary.
Import Pdf Downloader Orchestrator Summarizer.

(** [grows st st' evs]: from [st] to [st'] exactly the events [evs] happened. *)
Definition grows (st st' : state) (evs : list event) : Prop :=
  st_trace st' = st_trace st ++ evs.

(** The events that happened between [st] and a later state [st']. *)
Definition new_events (st st' : state) : list event :=
  drop (length (st_trace st)) (st_trace st').

(** The results of the [create_tweet] calls of a trace, in order. *)
Fixpoint tweet_results (evs : list event) : list (str + Z) :=
  match evs with
  | [] => []
  | EvTweet _ r :: evs' => r :: tweet_results evs'
  | _ :: evs' => tweet_results evs'
  end.

(** The texts handed to [create_tweet] in a trace, in order. *)
Fixpoint tweet_texts (evs : list event) : list str :=
  match evs with
  | [] => []
  | EvTweet text _ :: evs' => text :: tweet_texts evs'
  | _ :: evs' => tweet_texts evs'
  end.

(** How many events of a trace satisfy [f]. *)
Definition count_events (f : event → bool) (evs : list event) : nat :=
  length (List.filter f evs).

Definition is_fetch (ev : event) : bool :=
  match ev with EvFetch _ _ => true | _ => false end.
Definition is_extract (ev : event) : bool :=
  match ev with EvExtract _ _ => true | _ => false end.
Definition is_tweet (ev : event) : bool :=
  match ev with EvTweet _ _ => true | _ => false end.
Definition is_api_call (ev : event) : bool :=
  match ev with EvApiCall _ _ => true | _ => false end.
Definition is_ledger_query (ev : event) : bool :=
  match ev with EvLedgerQuery _ _ => true | _ => false end.

(** The warning logged before the sleep of a retry. *)
Definition is_warning (backoff retry_count : Z) (ev : event) : Prop :=
  ev = EvWarnRateLimit backoff retry_count
  ∨ ∃ msg, ev = EvWarnApiError msg backoff retry_count.

(** The four ways the loop can run: success at the first, second or third
    attempt, or three failures. *)
Inductive retry_shape : loop_result → list event → Prop :=
| retry_first content :
    retry_shape (Response content) [EvApiCall 1 true]
| retry_second content w1 :
    is_warning 2 1 w1 →
    retry_shape (Response content)
      [EvApiCall 1 false; w1; EvSleep 2; EvApiCall 2 true]
| retry_third content w1 w2 :
    is_warning 2 1 w1 → is_warning 4 2 w2 →
    retry_shape (Response content)
      [EvApiCall 1 false; w1; EvSleep 2; EvApiCall 2 false; w2; EvSleep 4;
       EvApiCall 3 true]
| retry_exhausted msg w1 w2 :
    is_warning 2 1 w1 → is_warning 4 2 w2 →
    retry_shape (Raised msg)
      [EvApiCall 1 false; w1; EvSleep 2; EvApiCall 2 false; w2; EvSleep 4;
       EvApiCall 3 false].

(** Only the trace changes in a state. *)
Definition same_files (st st' : state) : Prop :=
  st_pdf st' = st_pdf st ∧ st_dl st' = st_dl st ∧ st_text st' = st_text st
  ∧ st_summary st' = st_summary st ∧ st_processed st' = st_processed st
  ∧ st_logs st' = st_logs st ∧ st_id_files st' = st_id_files st
  ∧ st_timestamps_file st' = st_timestamps_file st.

(** The file name and the id [download_pdf] derives for a paper. *)
Definition download_name (p : paper) : str :=
  if negb (endswith (p_pdf_name p) (of_ascii ".pdf"))
  then p_pdf_name p ++ of_ascii ".pdf" else p_pdf_name p.

Definition download_id (p : paper) : str := splitext_root (download_name p).

(** The log file of a paper. *)
Definition log_key (log_dir arxiv_id : str) : str * str :=
  (log_dir, arxiv_id ++ of_ascii "_twitter_log.json").

(** The text handed to Twitter for an answer of the summarizer. *)
Definition final_post_text (summary_text arxiv_id : str) : str :=
  Twitter.final_text (Summarizer.post_text_of summary_text) (Some arxiv_id).

(** What [download_pdf] can leave in the trace. *)
Inductive download_shape (name : str) : bool → list event → Prop :=
| dl_present : download_shape name true []
| dl_fetched : download_shape name true [EvSleep 5; EvFetch name true; EvSleep 2]
| dl_fetch_error : download_shape name false [EvSleep 5; EvFetch name false]
| dl_write_error : download_shape name false [EvSleep 5; EvFetch name true].

(** The stores of the orchestrator (the id lists and the watermark file)
    are as they were. *)
Definition keeps_stores (st st' : state) : Prop :=
  st_id_files st' = st_id_files st
  ∧ st_timestamps_file st' = st_timestamps_file st.

(** A stage leaves the ledger, the publish logs and the stores as they
    were. *)
Definition keeps_records (st st' : state) : Prop :=
  st_processed st' = st_processed st ∧ st_logs st' = st_logs st
  ∧ keeps_stores st st'.

(** The runs of [process_paper] on [p] from [st], by the stage at which
    they end: the result, the final state and the events. *)
Inductive paper_run (e : env) (log_dir : str) (p : paper) (force skip : bool)
    (st : state) : bool → state → list event → Prop :=
| run_fetch_failed st' dl :
    download_shape (download_name p) false dl →
    keeps_records st st' →
    paper_run e log_dir p force skip st false st' dl
| run_skipped st' dl :
    download_shape (download_name p) true dl →
    is_Some (st_processed st !! download_id p) → force = false →
    keeps_records st st' →
    paper_run e log_dir p force skip st true st'
      (dl ++ [EvLedgerQuery (download_id p) true])
| run_extraction_failed st' dl found :
    download_shape (download_name p) true dl →
    found = bool_decide (is_Some (st_processed st !! download_id p)) →
    found && negb force = false →
    keeps_records st st' →
    paper_run e log_dir p force skip st false st'
      (dl ++ [EvLedgerQuery (download_id p) found; EvExtract (download_name p) false])
| run_summarization_failed st' dl found r api :
    download_shape (download_name p) true dl →
    found = bool_decide (is_Some (st_processed st !! download_id p)) →
    found && negb force = false →
    retry_shape r api → (∀ content, r ≠ Summarizer.Response (Some content)) →
    keeps_records st st' →
    paper_run e log_dir p force skip st false st'
      (dl ++ [EvLedgerQuery (download_id p) found; EvExtract (download_name p) true]
          ++ api)
| run_recorded_silently st' dl found content api mark record :
    download_shape (download_name p) true dl →
    found = bool_decide (is_Some (st_processed st !! download_id p)) →
    found && negb force = false →
    retry_shape (Summarizer.Response (Some content)) api →
    skip = true →
    keeps_stores st st' →
    st_processed st' = <[download_id p := mark]> (st_processed st) →
    st_logs st' = <[log_key log_dir (download_id p) := record]> (st_logs st) →
    l_tweets record = [] → l_error record = None →
    paper_run e log_dir p force skip st true st'
      (dl ++ [EvLedgerQuery (download_id p) found; EvExtract (download_name p) true]
          ++ api)
| run_publish_failed st' dl found content api err record :
    download_shape (download_name p) true dl →
    found = bool_decide (is_Some (st_processed st !! download_id p)) →
    found && negb force = false →
    retry_shape (Summarizer.Response (Some content)) api →
    skip = false →
    keeps_stores st st' →
    st_processed st' = st_processed st →
    st_logs st' = <[log_key log_dir (download_id p) := record]> (st_logs st) →
    l_tweets record = [] → l_error record = Some err →
    paper_run e log_dir p force skip st false st'
      (dl ++ [EvLedgerQuery (download_id p) found; EvExtract (download_name p) true]
          ++ api
          ++ [EvTweet (final_post_text (strip content) (download_id p)) (inl err)])
| run_published st' dl found content api tweet_id mark record :
    download_shape (download_name p) true dl →
    found = bool_decide (is_Some (st_processed st !! download_id p)) →
    found && negb force = false →
    retry_shape (Summarizer.Response (Some content)) api →
    skip = false →
    keeps_stores st st' →
    st_processed st' = <[download_id p := mark]> (st_processed st) →
    st_logs st' = <[log_key log_dir (download_id p) := record]> (st_logs st) →
    l_tweets record =
      [ {| tw_type := of_ascii "post"; tw_id := tweet_id;
           tw_text := final_post_text (strip content) (download_id p) |} ] →
    l_error record = None →
    paper_run e log_dir p force skip st true st'
      (dl ++ [EvLedgerQuery (download_id p) found; EvExtract (download_name p) true]
          ++ api
          ++ [EvTweet (final_post_text (strip content) (download_id p)) (inr tweet_id)]).

(** The sleeps of a trace, in order. *)
Fixpoint sleeps_of (evs : list event) : list Z :=
  match evs with
  | [] => []
  | EvSleep n :: evs' => n :: sleeps_of evs'
  | _ :: evs' => sleeps_of evs'
  end.

(** The events of the orchestrator itself. *)
Definition is_mark (ev : event) : bool :=
  match ev with
  | EvSetSkipped _ | EvSetStart _ | EvSetFailed _ | EvSetError _ _
  | EvSaveIds _ | EvSaveTimestamps _ => true
  | _ => false
  end.

Definition marks (evs : list event) : list event := List.filter is_mark evs.

(** A step that emits no event of the orchestrator and keeps its stores. *)
Definition pipeline_step (st st' : state) : Prop :=
  (∃ evs, grows st st' evs ∧ marks evs = []) ∧ keeps_stores st st'.

(** The watermark a run started in [st] writes for its search set. *)
Definition start_watermark (e : env) (st : state) : watermark :=
  {| wm_timestamp := env_clock e (st_trace st); wm_last_paper_id := None |}.

(** The indices of the search sets started in a trace, in order. *)
Fixpoint started (evs : list event) : list nat :=
  match evs with
  | [] => []
  | EvSetStart i :: evs' => i :: started evs'
  | _ :: evs' => started evs'
  end.

Definition is_save (ev : event) : bool :=
  match ev with
  | EvSaveIds _ | EvSaveTimestamps _ => true
  | _ => false
  end.

(** A search set [main] does not skip. *)
Definition valid_set (ss : search_set) : bool :=
  negb (bool_decide (ss_keywords ss = []) || bool_decide (ss_output_dir ss = [])).



(** The step of the loop of [main] for a valid set, from the state [st]:
    the state once the outcome is logged. *)
Definition logged_outcome (i : nat) (r : run_result) (st : state) : state :=
  match r with
  | Return success _ => if success then st else emit (EvSetFailed i) st
  | Raise msg => emit (EvSetError i msg) st
  end.


(** A stretch of the pass that starts the sets [indices], saves nothing
    and leaves the persisted stores alone. *)
Definition pass_step (st st' : state) (indices : list nat) : Prop :=
  (∃ evs, grows st st' evs ∧ started evs = indices
          ∧ count_events is_save evs = 0%nat)
  ∧ st_timestamps_file st' = st_timestamps_file st
  ∧ st_id_files st' !! processed_ids_path = st_id_files st !! processed_ids_path.

(** The download directory and the directories under [./pdf] are as they
    were. *)
Definition same_dl (st st' : state) : Prop :=
  st_pdf st' = st_pdf st ∧ st_dl st' = st_dl st.

(** The events a run of [arxiv_downloader.py] can emit. *)
Definition is_pipeline (ev : event) : bool :=
  match ev with
  | EvSleep _ | EvSearch | EvCopy _ _ | EvFetch _ _ | EvLedgerQuery _ _
  | EvExtract _ _ | EvApiCall _ _ | EvWarnRateLimit _ _ | EvWarnApiError _ _ _
  | EvTweet _ _ => true
  | _ => false
  end.

(** The return codes of the runs of [web_generator.py] in a trace. *)
Fixpoint web_runs (evs : list event) : list Z :=
  match evs with
  | [] => []
  | EvWebGenerator _ returncode :: evs' => returncode :: web_runs evs'
  | _ :: evs' => web_runs evs'
  end.

(** Every marker and every publish log that existed still exists. *)
Definition records_grow (st st' : state) : Prop :=
  dom (st_processed st) ⊆ dom (st_processed st')
  ∧ dom (st_logs st) ⊆ dom (st_logs st').

(** Every file of the download directory is still there. *)
Definition dl_grows (st st' : state) : Prop :=
  ∀ name, dl_exists name st = true → dl_exists name st' = true.

(** The events the selection of [main] can emit. *)
Definition is_selection (ev : event) : bool :=
  match ev with
  | EvSleep _ | EvCopy _ _ | EvFetch _ _ | EvLedgerQuery _ _ => true
  | _ => false
  end.

(** A step of the selection: only waits, copies, fetches and marker
    queries, ledger, logs and stores untouched, no downloaded file lost. *)
Definition selection_step (st st' : state) : Prop :=
  (∃ evs, grows st st' evs ∧ Forall (λ ev, is_selection ev = true) evs)
  ∧ keeps_records st st' ∧ dl_grows st st'.

(** A step of a run of [arxiv_downloader.py]: only pipeline events, no
    marker, log or downloaded file lost, stores untouched. *)
Definition downloader_step (st st' : state) : Prop :=
  (∃ evs, grows st st' evs ∧ Forall (λ ev, is_pipeline ev = true) evs)
  ∧ records_grow st st' ∧ dl_grows st st' ∧ keeps_stores st st'.

(** The arguments with [--force-download] set to [b]. *)
Definition set_force_download (b : bool) (a : args) : args :=
  {| a_keywords := a_keywords a; a_max_results := a_max_results a;
     a_use_or := a_use_or a; a_force_download := b;
     a_force_process := a_force_process a; a_test_mode := a_test_mode a;
     a_skip_twitter := a_skip_twitter a; a_max_process := a_max_process a;
     a_log_dir := a_log_dir a; a_since_timestamp := a_since_timestamp a;
     a_last_paper_id := a_last_paper_id a;
     a_processed_ids_file := a_processed_ids_file a;
     a_output_processed_ids := a_output_processed_ids a |}.

(** What the selection loop has done when it ends, [added] being the
    papers it appended. *)
Definition selection_result (e : env) (a : args) (processed_ids : gset str)
    (max_process_count : Z) (papers : list paper) (processed_count : Z)
    (papers_to_process : list paper) (newly_processed_ids : gset str) (st : state)
    (added : list paper) : Prop :=
  let r :=
    select_papers e a processed_ids max_process_count papers processed_count
      papers_to_process newly_processed_ids st in
  r.1.1.2 = papers_to_process ++ added
  ∧ r.1.1.1 = processed_count + Z.of_nat (length added)
  ∧ r.1.2 = newly_processed_ids ∪ list_to_set (extract_arxiv_id <$> added)
  ∧ added `sublist_of` papers
  ∧ (processed_count ≤ max_process_count → r.1.1.1 ≤ max_process_count)
  ∧ (max_process_count ≤ processed_count → added = [])
  ∧ (a_force_process a = false →
     Forall (λ p, (extract_arxiv_id p ∉ processed_ids)
                  ∧ st_processed st !! extract_arxiv_id p = None) added)
  ∧ Forall (λ p, dl_exists (download_name p) r.2 = true) added.

End Vocabulary.

(** * Properties *)

(** ** Traces *)

Lemma grows_new_events st st' evs : grows st st' evs → new_events st st' = evs.
Proof.
  unfold grows, new_events. intros ->. by rewrite drop_app_length.
Qed.

Lemma grows_refl st : grows st st [].
Proof. unfold grows. by rewrite app_nil_r. Qed.

Lemma grows_trans st1 st2 st3 evs1 evs2 :
  grows st1 st2 evs1 → grows st2 st3 evs2 → grows st1 st3 (evs1 ++ evs2).
Proof. unfold grows. intros H1 ->. rewrite H1. by rewrite app_assoc. Qed.

Lemma grows_emit st ev : grows st (emit ev st) [ev].
Proof. reflexivity. Qed.

Lemma grows_emit_r st st' evs ev :
  grows st st' evs → grows st (emit ev st') (evs ++ [ev]).
Proof. intros H. eapply grows_trans; [exact H | apply grows_emit]. Qed.

Lemma grows_same_trace st st1 st2 evs :
  st_trace st2 = st_trace st1 → grows st st1 evs → grows st st2 evs.
Proof. unfold grows. by intros ->. Qed.

Lemma tweet_results_app evs1 evs2 :
  tweet_results (evs1 ++ evs2) = tweet_results evs1 ++ tweet_results evs2.
Proof.
  induction evs1 as [|ev evs1 IH]; [done|].
  destruct ev; simpl; by rewrite ?IH.
Qed.

Lemma count_events_app f evs1 evs2 :
  count_events f (evs1 ++ evs2) = (count_events f evs1 + count_events f evs2)%nat.
Proof. unfold count_events. by rewrite List.filter_app, length_app. Qed.

(** ** The retry loop *)

Section Retry.
Import Summarizer.

Lemma same_files_refl st : same_files st st.
Proof. by repeat split. Qed.

Lemma same_files_emit st st' ev : same_files st st' → same_files st (emit ev st').
Proof. intros H. exact H. Qed.

Lemma warning_step st status_code msg backoff rc :
  ∃ w, is_warning backoff rc w ∧
    (if bool_decide (status_code = Some 429)
     then emit (EvWarnRateLimit backoff rc) st
     else emit (EvWarnApiError msg backoff rc) st) = emit w st.
Proof.
  case_bool_decide.
  - eexists. split; [by left | done].
  - eexists. split; [right; by eexists | done].
Qed.

(** With the fuel [generate_summary] gives it, the loop always ends in a
    response or in the re-raised third failure. *)
Lemma call_with_retry_run e prompt st r st' :
  call_with_retry 3 e prompt 0 2 st = (r, st') →
  ∃ evs, retry_shape r evs ∧ grows st st' evs ∧ same_files st st'.
Proof.
  cbn [call_with_retry]. change (0 <? max_retries) with true. cbv iota.
  destruct (env_api e (st_trace st) prompt) as [c1|sc1 m1].
  { intros [= <- <-]. eexists. split; [apply retry_first|].
    split; [apply grows_emit | by repeat split]. }
  change (0 + 1 >=? max_retries) with false. change (0 + 1 <? max_retries) with true.
  cbv iota.
  destruct (warning_step (emit (EvApiCall (0 + 1) false) st) sc1 m1 2 (0 + 1))
    as (w1 & Hw1 & ->).
  destruct (env_api e _ prompt) as [c2|sc2 m2].
  { intros [= <- <-]. eexists. split; [by apply (retry_second _ w1)|].
    split; [by unfold grows; simpl; rewrite <- !app_assoc | by repeat split]. }
  change (0 + 1 + 1 >=? max_retries) with false.
  change (0 + 1 + 1 <? max_retries) with true. cbv iota.
  destruct (warning_step (emit (EvApiCall (0 + 1 + 1) false)
              (emit (EvSleep 2) (emit w1 (emit (EvApiCall (0 + 1) false) st))))
              sc2 m2 (2 * 2) (0 + 1 + 1)) as (w2 & Hw2 & ->).
  destruct (env_api e _ prompt) as [c3|sc3 m3].
  { intros [= <- <-]. eexists. split; [by apply (retry_third _ w1 w2)|].
    split; [by unfold grows; simpl; rewrite <- !app_assoc | by repeat split]. }
  change (0 + 1 + 1 + 1 >=? max_retries) with true. cbv iota.
  intros [= <- <-]. eexists. split; [by apply (retry_exhausted _ w1 w2)|].
  split; [by unfold grows; simpl; rewrite <- !app_assoc | by repeat split].
Qed.

End Retry.

(** ** The stages of the pipeline *)

Ltac invert_shape H :=
  inversion H; subst; clear H;
  repeat match goal with
    | Hw : is_warning _ _ _ |- _ => destruct Hw as [->|[? ->]]
    end.

Section Stages.
Import Pdf Downloader.

Lemma download_name_nonempty p : download_name p ≠ [].
Proof.
  unfold download_name, endswith.
  case_bool_decide as H; simpl.
  - intros Hnil. rewrite Hnil in H. discriminate H.
  - by destruct (p_pdf_name p).
Qed.

Lemma download_id_nonempty p : download_id p ≠ [].
Proof.
  unfold download_id, splitext_root.
  pose proof (download_name_nonempty p) as Hne.
  destruct (rfind 46%N (download_name p) 0 None) as [i|]; [|done].
  destruct (existsb _ (take i (download_name p))) eqn:Hex; [|done].
  intros Hnil. rewrite Hnil in Hex. discriminate Hex.
Qed.

Lemma truthy_download_id p : truthy (Some (download_id p)) = true.
Proof.
  pose proof (download_id_nonempty p).
  by destruct (download_id p).
Qed.

Lemma keeps_stores_trans st1 st2 st3 :
  keeps_stores st1 st2 → keeps_stores st2 st3 → keeps_stores st1 st3.
Proof. intros [H1 H2] [H3 H4]. split; congruence. Qed.

Lemma keeps_records_refl st : keeps_records st st.
Proof. by repeat split. Qed.

Lemma keeps_records_trans st1 st2 st3 :
  keeps_records st1 st2 → keeps_records st2 st3 → keeps_records st1 st3.
Proof.
  intros (H1 & H2 & H3) (H4 & H5 & H6).
  split; [congruence|]. split; [congruence|]. by eapply keeps_stores_trans.
Qed.

Lemma same_files_keeps_records st st' : same_files st st' → keeps_records st st'.
Proof. intros (_ & _ & _ & _ & ? & ? & ? & ?). by repeat split. Qed.

Lemma dl_write_inv name content st st' :
  dl_write name content st = Some st' →
  st_trace st' = st_trace st ∧ keeps_records st st'.
Proof.
  unfold dl_write. intros H.
  repeat case_match; simplify_eq; by repeat split.
Qed.

Lemma download_pdf_run e p st ok path arxiv_id st1 :
  download_pdf e p false st = ((ok, path, arxiv_id), st1) →
  arxiv_id = download_id p
  ∧ (ok = true → path = Some (download_name p))
  ∧ keeps_records st st1
  ∧ ∃ evs, grows st st1 evs ∧ download_shape (download_name p) ok evs.
Proof.
  unfold download_pdf, download_id. fold (download_name p). cbv zeta.
  destruct (dl_exists (download_name p) st); simpl.
  { intros [= <- <- <- <-]. repeat split; try done.
    exists []. split; [apply grows_refl | constructor]. }
  destruct (env_fetch e _ p) as [content|].
  - destruct (dl_write _ content _) as [st3|] eqn:Hw.
    + apply dl_write_inv in Hw as [Htr Hk].
      intros [= <- <- <- <-]. repeat split; try done; try apply Hk.
      eexists. split; [|apply dl_fetched].
      unfold grows. simpl. rewrite Htr. simpl. by rewrite <- !app_assoc.
    + intros [= <- <- <- <-]. repeat split; try done.
      eexists. split; [|apply dl_write_error].
      unfold grows. simpl. by rewrite <- !app_assoc.
  - intros [= <- <- <- <-]. repeat split; try done.
    eexists. split; [|apply dl_fetch_error].
    unfold grows. simpl. by rewrite <- !app_assoc.
Qed.

Lemma extract_text_run e name st res st' :
  extract_text_from_pdf e name st = (res, st') →
  grows st st' [EvExtract name (bool_decide (is_Some res))] ∧ keeps_records st st'.
Proof.
  unfold extract_text_from_pdf.
  repeat case_match; intros [= <- <-]; split; try done.
Qed.

Lemma generate_summary_run e text prompt_template title arxiv_id st res st' :
  Summarizer.generate_summary e text prompt_template title arxiv_id st = (res, st') →
  ∃ r evs, retry_shape r evs ∧ grows st st' evs ∧ keeps_records st st'
    ∧ match res with
      | Some sm =>
          ∃ content, r = Summarizer.Response (Some content)
            ∧ s_summary sm = strip content
            ∧ s_post_text sm = Some (Summarizer.post_text_of (strip content))
      | None => ∀ content, r ≠ Summarizer.Response (Some content)
      end.
Proof.
  unfold Summarizer.generate_summary. cbv zeta.
  change (Z.to_nat Summarizer.max_retries) with 3%nat.
  destruct (Summarizer.call_with_retry 3 e _ 0 2 st) as [r st1] eqn:Hloop.
  apply call_with_retry_run in Hloop as (evs & Hshape & Hgrow & Hsame).
  apply same_files_keeps_records in Hsame.
  destruct r as [[content|]| | |]; intros [= <- <-];
    (eexists _, evs; split; [exact Hshape|]; split; [exact Hgrow|];
     split; [exact Hsame|]; eauto).
  all: try done.
Qed.

Lemma post_thread_run e sm log_dir st post_text b st' :
  s_post_text sm = Some post_text →
  Twitter.post_thread e sm log_dir st = (b, st') →
  st_processed st' = st_processed st
  ∧ keeps_stores st st'
  ∧ ∃ result record,
      grows st st' [EvTweet (Twitter.final_text post_text (s_arxiv_id sm)) result]
      ∧ st_logs st' = <[(log_dir, Twitter.log_name sm) := record]> (st_logs st)
      ∧ match result with
        | inr tweet_id =>
            b = true ∧ l_error record = None
            ∧ l_tweets record =
                [ {| tw_type := of_ascii "post"; tw_id := tweet_id;
                     tw_text := Twitter.final_text post_text (s_arxiv_id sm) |} ]
        | inl err => b = false ∧ l_error record = Some err ∧ l_tweets record = []
        end.
Proof.
  unfold Twitter.post_thread. intros ->.
  destruct (env_tweet e (st_trace st) _) as [err|tweet_id]; intros [= <- <-];
    (split; [done|]); (split; [by split|]);
    eexists _, _; (split; [apply grows_emit|]); by split.
Qed.

Lemma log_name_download_id sm p :
  s_arxiv_id sm = Some (download_id p) →
  (∀ log_dir, (log_dir, Twitter.log_name sm) = log_key log_dir (download_id p)).
Proof.
  intros Hid log_dir. unfold Twitter.log_name, log_key.
  rewrite Hid, truthy_download_id. done.
Qed.

(** Every call of [process_paper] is one of the runs of [paper_run]. *)
Lemma process_paper_run e prompt_template log_dir p force skip st b st' :
  process_paper e prompt_template log_dir p force skip st = (b, st') →
  ∃ evs, grows st st' evs ∧ paper_run e log_dir p force skip st b st' evs.
Proof.
  unfold process_paper.
  destruct (download_pdf e p false st) as [[[ok path] arxiv_id] st1] eqn:Hdl.
  apply download_pdf_run in Hdl as (-> & Hpath & Hk1 & dl & Hg1 & Hdl).
  destruct ok; simpl.
  2: { intros [= <- <-]. exists dl. split; [done|]. by apply run_fetch_failed. }
  rewrite (Hpath eq_refl). simpl (default _ _).
  pose proof Hk1 as (Hp1 & Hl1 & Hs1). rewrite Hp1.
  set (found := bool_decide (is_Some (st_processed st !! download_id p))).
  set (st2 := emit (EvLedgerQuery (download_id p) found) st1).
  assert (grows st st2 (dl ++ [EvLedgerQuery (download_id p) found])) as Hg2
    by (by apply grows_emit_r).
  assert (keeps_records st st2) as Hk2 by exact Hk1.
  destruct (found && negb force) eqn:Hskip.
  { intros [= <- <-]. apply andb_true_iff in Hskip as [Hfound Hforce].
    eexists. rewrite Hfound in Hg2. split; [exact Hg2|].
    apply run_skipped; try done.
    - unfold found in Hfound. by apply bool_decide_eq_true in Hfound.
    - by destruct force. }
  destruct (extract_text_from_pdf e (download_name p) st2)
    as [[text_path|] st3] eqn:Hex; apply extract_text_run in Hex as [Hg3 Hk3];
    simpl in Hg3.
  2: { intros [= <- <-]. eexists. split; [eapply grows_trans; [exact Hg2|exact Hg3]|].
       rewrite <- app_assoc. simpl.
       apply run_extraction_failed; try done.
       by eapply keeps_records_trans. }
  destruct (Summarizer.generate_summary e _ prompt_template (p_title p)
              (Some (download_id p)) st3) as [[sm|] st4] eqn:Hsum;
    apply generate_summary_run in Hsum as (r & api & Hshape & Hg4 & Hk4 & Hres).
  2: { intros [= <- <-]. eexists.
       split; [eapply grows_trans; [eapply grows_trans; [exact Hg2|exact Hg3]|exact Hg4]|].
       rewrite <- !app_assoc. simpl.
       eapply run_summarization_failed; try done.
       eapply keeps_records_trans; [|exact Hk4]. by eapply keeps_records_trans. }
  destruct Hres as (content & -> & Hsummary & Hpost).
  assert (grows st st4 (dl ++ [EvLedgerQuery (download_id p) found;
                               EvExtract (download_name p) true] ++ api)) as Hg.
  { replace (dl ++ [EvLedgerQuery (download_id p) found;
                    EvExtract (download_name p) true] ++ api)
      with (((dl ++ [EvLedgerQuery (download_id p) found])
              ++ [EvExtract (download_name p) true]) ++ api)
      by (by rewrite <- !app_assoc).
    eapply grows_trans; [eapply grows_trans; [exact Hg2|exact Hg3]|exact Hg4]. }
  assert (keeps_records st st4) as (Hp4 & Hl4 & Hs4).
  { eapply keeps_records_trans; [|exact Hk4]. by eapply keeps_records_trans. }
  simpl. rewrite Hpost. simpl.
  destruct skip; simpl.
  - intros [= <- <-]. eexists. split; [exact Hg|].
    eapply run_recorded_silently; try done.
    + simpl. by rewrite Hp4.
    + simpl. by rewrite Hl4.
    + done.
    + done.
  - destruct (Twitter.post_thread e _ log_dir st4) as [ok st5] eqn:Hpt.
    eapply post_thread_run in Hpt as (Hp5 & Hs5 & result & record & Hg5 & Hl5 & Hresult);
      [|done].
    pose proof (keeps_stores_trans _ _ _ Hs4 Hs5) as Hs.
    simpl in Hg5, Hresult.
    rewrite (log_name_download_id _ p) in Hl5 by done.
    fold (final_post_text (strip content) (download_id p)) in Hg5, Hresult.
    destruct result as [err|tweet_id].
    + destruct Hresult as (-> & Herr & Htw). simpl. intros [= <- <-].
      eexists. split; [eapply grows_trans; [exact Hg|exact Hg5]|].
      rewrite <- !app_assoc.
      eapply run_publish_failed; try done; congruence.
    + destruct Hresult as (-> & Herr & Htw). simpl. intros [= <- <-].
      eexists. split; [eapply grows_trans; [exact Hg|exact Hg5]|].
      rewrite <- !app_assoc.
      eapply run_published; try done.
      * simpl. rewrite Hp5, Hp4. done.
      * simpl. congruence.
Qed.

Lemma download_shape_facts name ok dl :
  download_shape name ok dl →
  tweet_results dl = []
  ∧ (count_events is_fetch dl ≤ 1)%nat
  ∧ count_events is_extract dl = 0%nat
  ∧ count_events is_api_call dl = 0%nat
  ∧ count_events is_ledger_query dl = 0%nat
  ∧ count_events is_tweet dl = 0%nat.
Proof. intros H. invert_shape H; cbn; repeat split; lia. Qed.

Lemma retry_shape_facts r api :
  retry_shape r api →
  tweet_results api = []
  ∧ count_events is_fetch api = 0%nat
  ∧ count_events is_extract api = 0%nat
  ∧ count_events is_ledger_query api = 0%nat
  ∧ count_events is_tweet api = 0%nat
  ∧ (1 ≤ count_events is_api_call api ≤ 3)%nat
  ∧ sleeps_of api = take (count_events is_api_call api - 1) [2; 4].
Proof. intros H. invert_shape H; cbn; repeat split; lia. Qed.

Lemma retry_shape_exhausted r api :
  retry_shape r api →
  EvApiCall 3 false ∈ api ↔ ∃ msg, r = Summarizer.Raised msg.
Proof.
  intros H. invert_shape H; split;
    try (intros [? [=]]); try (intros _; by eexists);
    rewrite ?elem_of_cons, elem_of_nil; try by intuition discriminate.
  all: intros _; repeat (try (by left); right).
Qed.

(** The publish calls of a run and what the run leaves behind. *)
Lemma paper_run_publish e log_dir p force skip st b st' evs :
  paper_run e log_dir p force skip st b st' evs →
  match tweet_results evs with
  | [] => b = true ∨ keeps_records st st'
  | [inl err] =>
      b = false ∧ skip = false ∧ st_processed st' = st_processed st
      ∧ ∃ record, st_logs st' !! log_key log_dir (download_id p) = Some record
          ∧ l_error record = Some err ∧ l_tweets record = []
  | [inr tweet_id] =>
      b = true ∧ skip = false
      ∧ ∃ record, st_logs st' !! log_key log_dir (download_id p) = Some record
          ∧ l_error record = None
          ∧ ∃ text, l_tweets record =
              [ {| tw_type := of_ascii "post"; tw_id := tweet_id; tw_text := text |} ]
  | _ => False
  end.
Proof.
  intros Hrun. inversion Hrun; subst; clear Hrun;
    repeat match goal with
      | H : download_shape _ _ _ |- _ =>
          apply download_shape_facts in H as (H & _)
      | H : retry_shape _ _ |- _ =>
          apply retry_shape_facts in H as (H & _)
      end;
    rewrite ?tweet_results_app; simpl;
    repeat match goal with H : tweet_results _ = [] |- _ => rewrite H end; simpl;
    auto.
  - repeat split; try done. eexists. split; [|done].
    match goal with H : st_logs _ = _ |- _ => rewrite H end.
    apply lookup_insert_eq.
  - repeat split; try done. eexists. split; [|split; [done|by eexists]].
    match goal with H : st_logs _ = _ |- _ => rewrite H end.
    apply lookup_insert_eq.
Qed.

End Stages.

(** ** The claims about one paper *)

Ltac use_shape_facts :=
  repeat match goal with
    | H : download_shape _ _ _ |- _ =>
        let F := fresh "Hdl" in
        pose proof (download_shape_facts _ _ _ H) as F; revert H
    | H : retry_shape _ _ |- _ =>
        let F := fresh "Hapi" in
        pose proof (retry_shape_facts _ _ H) as F; revert H
    end; intros.

Section PaperClaims.
Import Pdf Downloader.

(** C3.  When the publish call of a paper is made and fails with [err],
    [process_paper] returns [False], the processed markers are what they
    were before the call, and the paper's log file holds a failure record
    with the error text [err] and no posted unit. *)
Theorem publish_failure_aborts_unmarked_with_log
    e prompt_template log_dir p force skip st err :
  let run := process_paper e prompt_template log_dir p force skip st in
  inl err ∈ tweet_results (new_events st run.2) →
  run.1 = false
  ∧ st_processed run.2 = st_processed st
  ∧ ∃ record,
      st_logs run.2 !! log_key log_dir (download_id p) = Some record
      ∧ l_error record = Some err ∧ l_tweets record = [].
Proof.
  intros run. subst run.
  destruct (process_paper e prompt_template log_dir p force skip st) as [b st'] eqn:Hrun.
  apply process_paper_run in Hrun as (evs & Hg & Hrun). simpl.
  rewrite (grows_new_events _ _ _ Hg).
  apply paper_run_publish in Hrun.
  destruct (tweet_results evs) as [|[err'|tweet_id] [|? ?]]; try done.
  - by intros ?%elem_of_nil.
  - intros Hin%list_elem_of_singleton. simplify_eq.
    destruct Hrun as (-> & _ & Hp & record & Hl & He & Ht). eauto 10.
  - intros Hin%list_elem_of_singleton. discriminate.
Qed.

Lemma publish_failure_witness :
  let run := process_paper Scenario.env_tweet_down Scenario.template Scenario.logs
               Scenario.paper1 false false Scenario.st_ready in
  run.1 = false
  ∧ st_processed run.2 = st_processed Scenario.st_ready
  ∧ ∃ record,
      st_logs run.2 !! log_key Scenario.logs (download_id Scenario.paper1) = Some record
      ∧ l_error record = Some (of_ascii "403 Forbidden") ∧ l_tweets record = [].
Proof.
  apply (publish_failure_aborts_unmarked_with_log Scenario.env_tweet_down
           Scenario.template Scenario.logs Scenario.paper1 false false
           Scenario.st_ready (of_ascii "403 Forbidden")).
  vm_compute. constructor.
Defined.

(** C8.  The events of [process_paper] start with those of the download.
    If the download fails the run ends there with [False]: no ledger
    query, no extraction.  If it succeeds, the next event is the query of
    the processed marker; when the marker is found and [force_process] is
    unset the run ends there with [True], otherwise (marker absent, or
    [force_process] set) the extraction follows the query at once; no
    second query, extraction or fetch happens later in the run. *)
Theorem skip_check_between_fetch_and_extraction
    e prompt_template log_dir p force skip st :
  let run := process_paper e prompt_template log_dir p force skip st in
  let found := bool_decide (is_Some (st_processed st !! download_id p)) in
  ∃ fetched dl,
    download_shape (download_name p) fetched dl
    ∧ count_events is_ledger_query dl = 0%nat
    ∧ count_events is_extract dl = 0%nat
    ∧ if fetched then
        if found && negb force
        then run.1 = true
             ∧ new_events st run.2 = dl ++ [EvLedgerQuery (download_id p) found]
        else ∃ extracted rest,
               new_events st run.2 =
                 dl ++ EvLedgerQuery (download_id p) found
                    :: EvExtract (download_name p) extracted :: rest
               ∧ count_events is_ledger_query rest = 0%nat
               ∧ count_events is_extract rest = 0%nat
               ∧ count_events is_fetch rest = 0%nat
      else run.1 = false ∧ new_events st run.2 = dl.
Proof.
  intros run found. subst run found.
  destruct (process_paper e prompt_template log_dir p force skip st) as [b st'] eqn:Hrun.
  apply process_paper_run in Hrun as (evs & Hg & Hrun). simpl.
  rewrite (grows_new_events _ _ _ Hg).
  inversion Hrun; subst; clear Hrun; use_shape_facts;
    match goal with
    | H : download_shape _ ?ok ?dl |- _ => exists ok, dl
    end;
    (split; [done|]); (split; [tauto|]); (split; [tauto|]).
  - done.
  - rewrite bool_decide_eq_true_2 by done. done.
  - match goal with H : _ && _ = false |- _ => rewrite H end.
    exists false, []. by repeat split.
  - match goal with H : _ && _ = false |- _ => rewrite H end.
    exists true, api. repeat split; tauto.
  - match goal with H : _ && _ = false |- _ => rewrite H end.
    exists true, api. repeat split; tauto.
  - match goal with H : _ && _ = false |- _ => rewrite H end.
    eexists true, _. split; [done|].
    rewrite !count_events_app. cbn. repeat split; lia.
  - match goal with H : _ && _ = false |- _ => rewrite H end.
    eexists true, _. split; [done|].
    rewrite !count_events_app. cbn. repeat split; lia.
Qed.

Lemma count_events_zero f evs ev :
  count_events f evs = 0%nat → ev ∈ evs → f ev = false.
Proof.
  unfold count_events. induction evs as [|x evs IH]; simpl.
  - by intros _ ?%elem_of_nil.
  - destruct (f x) eqn:Hx; simpl; [done|].
    intros H0 [->|Hin]%elem_of_cons; auto.
Qed.

Lemma call_with_retry_grows fuel e prompt retry_count backoff_time st :
  ∃ evs, grows st
    (Summarizer.call_with_retry fuel e prompt retry_count backoff_time st).2 evs.
Proof.
  revert retry_count backoff_time st.
  induction fuel as [|fuel IH]; intros retry_count backoff_time st; simpl.
  { exists []. apply grows_refl. }
  destruct (retry_count <? Summarizer.max_retries); [|exists []; apply grows_refl].
  destruct (env_api e (st_trace st) prompt) as [content|status_code msg]; simpl.
  { eexists. apply grows_emit. }
  destruct (retry_count + 1 >=? Summarizer.max_retries); simpl.
  { eexists. apply grows_emit. }
  destruct (warning_step (emit (EvApiCall (retry_count + 1) false) st)
              status_code msg backoff_time (retry_count + 1)) as (w & _ & ->).
  match goal with
  | |- context [Summarizer.call_with_retry fuel e prompt ?rc ?bo ?s] =>
      destruct (IH rc bo s) as [evs Hevs]
  end.
  exists ([EvApiCall (retry_count + 1) false; w; EvSleep backoff_time] ++ evs).
  eapply grows_trans; [|exact Hevs].
  unfold grows. simpl. by rewrite <- !app_assoc.
Qed.

Lemma call_with_retry_failure fuel e prompt retry_count backoff_time st status_code msg :
  env_api e (st_trace st) prompt = ApiError status_code msg →
  (retry_count + 1 <? Summarizer.max_retries) = true →
  (0 <=? retry_count) = true →
  Summarizer.call_with_retry (S fuel) e prompt retry_count backoff_time st =
  Summarizer.call_with_retry fuel e prompt (retry_count + 1) (backoff_time * 2)
    (emit (EvSleep backoff_time)
       (if bool_decide (status_code = Some 429)
        then emit (EvWarnRateLimit backoff_time (retry_count + 1))
               (emit (EvApiCall (retry_count + 1) false) st)
        else emit (EvWarnApiError msg backoff_time (retry_count + 1))
               (emit (EvApiCall (retry_count + 1) false) st))).
Proof.
  intros Hapi Hlt Hge. simpl. rewrite Hapi.
  replace (retry_count <? Summarizer.max_retries) with true by lia.
  replace (retry_count + 1 >=? Summarizer.max_retries) with false by lia.
  done.
Qed.

(** C5.  (1) [generate_summary] calls the API at most three times; the
    run is one of the four of [retry_shape], so it sleeps 2 seconds after
    the first failure and 4 after the second, and after a third failure
    it returns [None].  (2) After a first failure the warning names the
    rate limit when the status is 429 and the error otherwise; the sleep
    that follows is the same.  (3) In one call of [process_paper] the PDF
    is fetched at most once, extracted at most once and published at most
    once, the API is called at most three times, and a third failed API
    call makes the call return [False] with ledger and logs untouched. *)
Theorem summarization_is_the_only_retried_stage :
  (∀ e text prompt_template title arxiv_id st,
      let run := Summarizer.generate_summary e text prompt_template title arxiv_id st in
      ∃ r api,
        retry_shape r api ∧ new_events st run.2 = api
        ∧ (1 ≤ count_events is_api_call api ≤ 3)%nat
        ∧ sleeps_of api = take (count_events is_api_call api - 1) [2; 4]
        ∧ (EvApiCall 3 false ∈ api → run.1 = None))
  ∧ (∀ e prompt st status_code msg,
      env_api e (st_trace st) prompt = ApiError status_code msg →
      ∃ rest,
        new_events st (Summarizer.call_with_retry 3 e prompt 0 2 st).2 =
          EvApiCall 1 false
          :: (if bool_decide (status_code = Some 429)
              then EvWarnRateLimit 2 1 else EvWarnApiError msg 2 1)
          :: EvSleep 2 :: rest)
  ∧ (∀ e prompt_template log_dir p force skip st,
      let run := process_paper e prompt_template log_dir p force skip st in
      let evs := new_events st run.2 in
      (count_events is_fetch evs ≤ 1)%nat
      ∧ (count_events is_extract evs ≤ 1)%nat
      ∧ (count_events is_tweet evs ≤ 1)%nat
      ∧ (count_events is_api_call evs ≤ 3)%nat
      ∧ (EvApiCall 3 false ∈ evs → run.1 = false ∧ keeps_records st run.2)).
Proof.
  split; [|split].
  - intros e text prompt_template title arxiv_id st run. subst run.
    destruct (Summarizer.generate_summary e text prompt_template title arxiv_id st)
      as [res st'] eqn:Hrun.
    apply generate_summary_run in Hrun as (r & api & Hshape & Hg & _ & Hres).
    exists r, api. simpl. rewrite (grows_new_events _ _ _ Hg).
    pose proof (retry_shape_facts _ _ Hshape) as (_ & _ & _ & _ & _ & Hcalls & Hsleeps).
    repeat split; try done; try lia.
    intros [msg ->]%(retry_shape_exhausted _ _ Hshape).
    destruct res as [sm|]; [|done]. by destruct Hres as (content & [=] & _).
  - intros e prompt st status_code msg Hapi.
    rewrite (call_with_retry_failure 2 e prompt 0 2 st status_code msg) by done.
    match goal with
    | |- context [Summarizer.call_with_retry 2 e prompt ?rc ?bo ?s] =>
        destruct (call_with_retry_grows 2 e prompt rc bo s) as [rest Hrest];
        exists rest;
        assert (grows st s [EvApiCall 1 false;
                  if bool_decide (status_code = Some 429)
                  then EvWarnRateLimit 2 1 else EvWarnApiError msg 2 1;
                  EvSleep 2]) as Hpre
    end.
    { unfold grows. case_bool_decide; simpl; by rewrite <- !app_assoc. }
    apply (grows_new_events _ _ ([_; _; _] ++ rest)).
    eapply grows_trans; [exact Hpre|exact Hrest].
  - intros e prompt_template log_dir p force skip st run evs. subst evs run.
    destruct (process_paper e prompt_template log_dir p force skip st)
      as [b st'] eqn:Hrun.
    apply process_paper_run in Hrun as (evs & Hg & Hrun). simpl.
    rewrite (grows_new_events _ _ _ Hg).
    inversion Hrun; subst; clear Hrun; use_shape_facts;
      rewrite ?count_events_app; cbn;
      (split; [lia|]); (split; [lia|]); (split; [lia|]); (split; [lia|]);
      rewrite ?elem_of_app, ?elem_of_cons, ?elem_of_app, ?elem_of_cons, ?elem_of_nil;
      intros Hin; try done;
      repeat match type of Hin with
        | _ ∨ _ => destruct Hin as [Hin|Hin]
        end; try discriminate Hin; try done;
      try match goal with
        | Hd : download_shape _ _ ?d |- _ =>
            match type of Hin with
            | _ ∈ d =>
                pose proof (download_shape_facts _ _ _ Hd) as (_ & _ & _ & Hz & _);
                by apply (count_events_zero _ _ _ Hz) in Hin
            end
        end;
      try match goal with
        | Hs : retry_shape (Summarizer.Response _) ?a |- _ =>
            match type of Hin with
            | _ ∈ a => apply (retry_shape_exhausted _ _ Hs) in Hin as [? [=]]
            end
        end.
Qed.

Lemma summarization_retry_witness :
  (∃ rest,
      new_events Scenario.st_ready
        (Summarizer.call_with_retry 3 Scenario.env_api_down Scenario.template 0 2
           Scenario.st_ready).2 =
      EvApiCall 1 false :: EvWarnRateLimit 2 1 :: EvSleep 2 :: rest)
  ∧ (process_paper Scenario.env_api_down Scenario.template Scenario.logs
       Scenario.paper1 false false Scenario.st_ready).1 = false.
Proof.
  split.
  - apply (proj1 (proj2 summarization_is_the_only_retried_stage)
             Scenario.env_api_down Scenario.template Scenario.st_ready
             (Some 429) (of_ascii "rate limit reached")).
    reflexivity.
  - apply (proj2 (proj2 summarization_is_the_only_retried_stage)
             Scenario.env_api_down Scenario.template Scenario.logs
             Scenario.paper1 false false Scenario.st_ready).
    vm_compute. repeat constructor.
Defined.

End PaperClaims.

(** ** The batch *)

Section Batch.
Import Pdf Downloader.

Lemma process_paper_grows e prompt_template log_dir p force skip st :
  ∃ evs, grows st (process_paper e prompt_template log_dir p force skip st).2 evs.
Proof.
  destruct (process_paper e prompt_template log_dir p force skip st) as [b st'] eqn:Hrun.
  apply process_paper_run in Hrun as (evs & Hg & _). by exists evs.
Qed.

Lemma new_events_split st1 st2 st3 evs1 evs2 :
  grows st1 st2 evs1 → grows st2 st3 evs2 →
  new_events st1 st3 = new_events st1 st2 ++ new_events st2 st3.
Proof.
  intros H1 H2.
  rewrite (grows_new_events _ _ _ H1), (grows_new_events _ _ _ H2).
  apply grows_new_events. by eapply grows_trans.
Qed.

(** One more paper at the end of the list is one more call of
    [process_paper] and one more wait. *)
Lemma process_papers_snoc e prompt_template log_dir a len i papers p st :
  let before := process_papers e prompt_template log_dir a len i papers st in
  let skip := a_skip_twitter a || negb (i + Z.of_nat (length papers) =? len - 1) in
  let run := process_paper e prompt_template log_dir p (a_force_process a) skip before.2 in
  process_papers e prompt_template log_dir a len i (papers ++ [p]) st =
    (before.1 ++ [run.1], emit (EvSleep 5) run.2).
Proof.
  revert i st. induction papers as [|q papers IH]; intros i st; simpl.
  - rewrite Z.add_0_r.
    by destruct (process_paper e prompt_template log_dir p _ _ st).
  - destruct (process_paper e prompt_template log_dir q _ _ st) as [b st1].
    specialize (IH (i + 1) (emit (EvSleep 5) st1)). simpl in IH.
    replace (i + Z.of_nat (S (length papers)))
      with (i + 1 + Z.of_nat (length papers)) by lia.
    rewrite IH.
    by destruct (process_papers e prompt_template log_dir a len (i + 1) papers
                   (emit (EvSleep 5) st1)).
Qed.

Lemma process_papers_grows e prompt_template log_dir a len i papers st :
  ∃ evs, grows st (process_papers e prompt_template log_dir a len i papers st).2 evs.
Proof.
  revert i st. induction papers as [|q papers IH]; intros i st; simpl.
  - exists []. apply grows_refl.
  - destruct (process_paper_grows e prompt_template log_dir q (a_force_process a)
                (a_skip_twitter a || negb (i =? len - 1)) st) as [evs1 H1].
    destruct (process_paper e prompt_template log_dir q _ _ st) as [b st1].
    destruct (IH (i + 1) (emit (EvSleep 5) st1)) as [evs2 H2].
    destruct (process_papers e prompt_template log_dir a len (i + 1) papers
                (emit (EvSleep 5) st1)) as [bs st2].
    simpl in *. eexists.
    eapply grows_trans; [eapply grows_emit_r; exact H1|exact H2].
Qed.

(** A run with the post skipped makes no publish call and, when it goes
    through, leaves a log without posted units. *)
Lemma paper_run_silent e log_dir p force st b st' evs :
  paper_run e log_dir p force true st b st' evs →
  tweet_results evs = []
  ∧ (b = true → force = true ∨ st_processed st !! download_id p = None →
     ∃ record, st_logs st' !! log_key log_dir (download_id p) = Some record
       ∧ l_tweets record = [] ∧ l_error record = None).
Proof.
  intros Hrun. inversion Hrun; subst; clear Hrun; use_shape_facts;
    rewrite ?tweet_results_app; simpl;
    (split; [by repeat match goal with
                   | H : tweet_results _ = [] ∧ _ |- _ =>
                       let E := fresh in destruct H as [E _]; rewrite E
                   end|]);
    try done.
  - intros _ [?|Hnone]; [done|].
    match goal with H : is_Some _ |- _ => rewrite Hnone in H; by destruct H end.
  - intros _ _. eexists. split; [|done].
    match goal with H : st_logs _ = _ |- _ => rewrite H end.
    apply lookup_insert_eq.
Qed.

(** A run with the post requested makes at most one publish call, and
    exactly one, a successful one, when it goes through. *)
Lemma paper_run_posting e log_dir p force st b st' evs :
  paper_run e log_dir p force false st b st' evs →
  (length (tweet_results evs) ≤ 1)%nat
  ∧ (b = true → force = true ∨ st_processed st !! download_id p = None →
     ∃ tweet_id, tweet_results evs = [inr tweet_id]).
Proof.
  intros Hrun. inversion Hrun; subst; clear Hrun; use_shape_facts;
    rewrite ?tweet_results_app; simpl;
    repeat match goal with
      | H : tweet_results _ = [] ∧ _ |- _ =>
          let E := fresh in destruct H as [E _]; rewrite E
      end; simpl; (split; [lia|]); try done.
  - intros _ [?|Hnone]; [done|].
    match goal with H : is_Some _ |- _ => rewrite Hnone in H; by destruct H end.
  - intros _ _. by eexists.
Qed.

Lemma process_paper_silent e prompt_template log_dir p force st :
  let silent := process_paper e prompt_template log_dir p force true st in
  tweet_results (new_events st silent.2) = []
  ∧ (silent.1 = true → force = true ∨ st_processed st !! download_id p = None →
     ∃ record, st_logs silent.2 !! log_key log_dir (download_id p) = Some record
       ∧ l_tweets record = [] ∧ l_error record = None).
Proof.
  intros silent. subst silent.
  destruct (process_paper e prompt_template log_dir p force true st) as [b st'] eqn:Hrun.
  apply process_paper_run in Hrun as (evs & Hg & Hrun). simpl.
  rewrite (grows_new_events _ _ _ Hg). by apply paper_run_silent in Hrun.
Qed.

(** Before the last index every paper is processed with the post skipped. *)
Lemma process_papers_silent e prompt_template log_dir a len i papers st :
  i + Z.of_nat (length papers) ≤ len - 1 →
  tweet_results
    (new_events st (process_papers e prompt_template log_dir a len i papers st).2) = [].
Proof.
  revert i st. induction papers as [|q papers IH]; intros i st Hlen.
  - simpl. by rewrite (grows_new_events _ _ _ (grows_refl st)).
  - simpl in *.
    replace (i =? len - 1) with false by lia. rewrite orb_true_r.
    pose proof (process_paper_silent e prompt_template log_dir q (a_force_process a) st)
      as [Hq _].
    destruct (process_paper_grows e prompt_template log_dir q (a_force_process a) true st)
      as [evs1 H1].
    destruct (process_paper e prompt_template log_dir q _ true st) as [b st1].
    simpl in *.
    specialize (IH (i + 1) (emit (EvSleep 5) st1)).
    destruct (process_papers_grows e prompt_template log_dir a len (i + 1) papers
                (emit (EvSleep 5) st1)) as [evs2 H2].
    destruct (process_papers e prompt_template log_dir a len (i + 1) papers
                (emit (EvSleep 5) st1)) as [bs st2].
    simpl in *.
    rewrite (new_events_split st (emit (EvSleep 5) st1) st2 (evs1 ++ [EvSleep 5]) evs2)
      by (done || by apply grows_emit_r).
    rewrite tweet_results_app, IH by lia.
    rewrite (grows_new_events _ _ _ (grows_emit_r _ _ _ (EvSleep 5) H1)).
    rewrite (grows_new_events _ _ _ H1) in Hq.
    rewrite tweet_results_app, Hq. done.
Qed.

Lemma process_paper_posting e prompt_template log_dir p force st :
  let run := process_paper e prompt_template log_dir p force false st in
  (length (tweet_results (new_events st run.2)) ≤ 1)%nat
  ∧ (run.1 = true → force = true ∨ st_processed st !! download_id p = None →
     ∃ tweet_id, tweet_results (new_events st run.2) = [inr tweet_id]).
Proof.
  intros run. subst run.
  destruct (process_paper e prompt_template log_dir p force false st) as [b st'] eqn:Hrun.
  apply process_paper_run in Hrun as (evs & Hg & Hrun). simpl.
  rewrite (grows_new_events _ _ _ Hg). by apply paper_run_posting in Hrun.
Qed.

(** C4, as the code has it.  In the processing loop of [main] over the
    selected papers [earlier ++ [last]]:
    - the loop is the loop over [earlier], then [process_paper] on [last]
      with [skip_twitter] equal to the global flag, then the wait;
    - every paper of [earlier] is processed with [skip_twitter = True]: it
      makes no publish call, and when it goes through (returns [True]
      without having been skipped as already processed) its log file holds
      a record with no posted unit and no error;
    - so the publish calls of the batch are those of the last paper, at
      most one;
    - with the global flag set the last paper makes none either and gets
      the same kind of log record;
    - with the flag unset the last paper makes exactly one publish call
      when it goes through. *)
Theorem publish_requested_only_for_last_paper
    e prompt_template log_dir a earlier last st :
  let len := Z.of_nat (length (earlier ++ [last])) in
  let before := process_papers e prompt_template log_dir a len 0 earlier st in
  let run :=
    process_paper e prompt_template log_dir last (a_force_process a)
      (a_skip_twitter a) before.2 in
  let batch := process_papers e prompt_template log_dir a len 0 (earlier ++ [last]) st in
  batch = (before.1 ++ [run.1], emit (EvSleep 5) run.2)
  ∧ (∀ l1 p l2, earlier = l1 ++ p :: l2 →
       let st1 := (process_papers e prompt_template log_dir a len 0 l1 st).2 in
       let silent :=
         process_paper e prompt_template log_dir p (a_force_process a) true st1 in
       (process_papers e prompt_template log_dir a len 0 (l1 ++ [p]) st).2
         = emit (EvSleep 5) silent.2
       ∧ tweet_results (new_events st1 silent.2) = []
       ∧ (silent.1 = true →
          a_force_process a = true ∨ st_processed st1 !! download_id p = None →
          ∃ record,
            st_logs silent.2 !! log_key log_dir (download_id p) = Some record
            ∧ l_tweets record = [] ∧ l_error record = None))
  ∧ tweet_results (new_events st before.2) = []
  ∧ tweet_results (new_events st batch.2) = tweet_results (new_events before.2 run.2)
  ∧ (length (tweet_results (new_events before.2 run.2)) ≤ 1)%nat
  ∧ (a_skip_twitter a = true →
     tweet_results (new_events before.2 run.2) = []
     ∧ (run.1 = true →
        a_force_process a = true ∨ st_processed before.2 !! download_id last = None →
        ∃ record,
          st_logs run.2 !! log_key log_dir (download_id last) = Some record
          ∧ l_tweets record = [] ∧ l_error record = None))
  ∧ (a_skip_twitter a = false →
     run.1 = true →
     a_force_process a = true ∨ st_processed before.2 !! download_id last = None →
     ∃ tweet_id, tweet_results (new_events before.2 run.2) = [inr tweet_id]).
Proof.
  intros len before run batch.
  assert (batch = (before.1 ++ [run.1], emit (EvSleep 5) run.2)) as Hbatch.
  { subst batch run before.
    rewrite (process_papers_snoc e prompt_template log_dir a len 0 earlier last st).
    subst len. rewrite length_app. simpl.
    replace (0 + Z.of_nat (length earlier) =? Z.of_nat (length earlier + 1) - 1)
      with true by (symmetry; apply Z.eqb_eq; lia).
    by rewrite orb_false_r. }
  assert (tweet_results (new_events st before.2) = []) as Hbefore.
  { subst before. apply process_papers_silent.
    subst len. rewrite length_app. simpl. lia. }
  split; [exact Hbatch|]. split; [|split; [exact Hbefore|split]].
  - intros l1 p l2 -> st1 silent.
    pose proof (process_papers_snoc e prompt_template log_dir a len 0 l1 p st) as Hsnoc.
    simpl in Hsnoc.
    replace (0 + Z.of_nat (length l1) =? len - 1) with false in Hsnoc
      by (symmetry; apply Z.eqb_neq; subst len; rewrite !length_app; simpl; lia).
    rewrite orb_true_r in Hsnoc. rewrite Hsnoc. split; [done|].
    apply process_paper_silent.
  - rewrite Hbatch. simpl.
    destruct (process_papers_grows e prompt_template log_dir a len 0 earlier st)
      as [evs1 H1].
    destruct (process_paper_grows e prompt_template log_dir last (a_force_process a)
                (a_skip_twitter a) before.2) as [evs2 H2].
    fold before in H1. fold run in H2.
    rewrite (new_events_split st before.2 (emit (EvSleep 5) run.2) evs1
               (evs2 ++ [EvSleep 5])) by (done || by apply grows_emit_r).
    rewrite tweet_results_app, Hbefore. simpl.
    rewrite (grows_new_events _ _ _ (grows_emit_r _ _ _ (EvSleep 5) H2)).
    rewrite (grows_new_events _ _ _ H2).
    rewrite tweet_results_app. simpl. by rewrite app_nil_r.
  - subst run. destruct (a_skip_twitter a).
    + destruct (process_paper_silent e prompt_template log_dir last
                  (a_force_process a) before.2) as [Hnone Hlog].
      rewrite Hnone. simpl. split; [lia|]. split; [by split|done].
    + destruct (process_paper_posting e prompt_template log_dir last
                  (a_force_process a) before.2) as [Hle Hone].
      split; [exact Hle|]. split; [done|]. intros _. exact Hone.
Qed.

(** The claim of C4 as stated fails: with publish enabled and a summarizer
    that is down, a batch of two papers makes no publish call at all, and
    the first paper, whose post was skipped, gets no log record. *)
Lemma last_paper_may_not_publish :
  let batch :=
    process_papers Scenario.env_api_down Scenario.template Scenario.logs
      (Scenario.cli false) 2 0 [Scenario.paper1; Scenario.paper2] Scenario.st_ready in
  a_skip_twitter (Scenario.cli false) = false
  ∧ batch.1 = [false; false]
  ∧ tweet_results (new_events Scenario.st_ready batch.2) = []
  ∧ st_logs batch.2 !! log_key Scenario.logs (download_id Scenario.paper1) = None.
Proof. vm_compute. done. Qed.

Lemma publish_only_last_witness :
  ∃ tweet_id,
    tweet_results
      (new_events
         (process_papers Scenario.env_ok Scenario.template Scenario.logs
            (Scenario.cli false) 2 0 [Scenario.paper1] Scenario.st_ready).2
         (process_paper Scenario.env_ok Scenario.template Scenario.logs
            Scenario.paper2 false false
            (process_papers Scenario.env_ok Scenario.template Scenario.logs
               (Scenario.cli false) 2 0 [Scenario.paper1] Scenario.st_ready).2).2)
    = [inr tweet_id].
Proof.
  destruct (publish_requested_only_for_last_paper Scenario.env_ok Scenario.template
              Scenario.logs (Scenario.cli false) [Scenario.paper1] Scenario.paper2
              Scenario.st_ready) as (_ & _ & _ & _ & _ & _ & H).
  apply H.
  - reflexivity.
  - vm_compute. reflexivity.
  - right. vm_compute. reflexivity.
Defined.

End Batch.

(** ** Steps of the pipeline seen from the orchestrator *)

Section PipelineSteps.
Import Pdf Downloader.

Lemma marks_app evs1 evs2 : marks (evs1 ++ evs2) = marks evs1 ++ marks evs2.
Proof. apply List.filter_app. Qed.

Lemma pipeline_step_refl st : pipeline_step st st.
Proof. split; [exists []; split; [apply grows_refl|done] | by split]. Qed.

Lemma pipeline_step_trans st1 st2 st3 :
  pipeline_step st1 st2 → pipeline_step st2 st3 → pipeline_step st1 st3.
Proof.
  intros [(evs1 & Hg1 & Hm1) Hk1] [(evs2 & Hg2 & Hm2) Hk2]. split.
  - exists (evs1 ++ evs2). split; [by eapply grows_trans|].
    by rewrite marks_app, Hm1, Hm2.
  - by eapply keeps_stores_trans.
Qed.

Lemma pipeline_step_emit st ev : is_mark ev = false → pipeline_step st (emit ev st).
Proof.
  intros Hev. split; [|by split].
  exists [ev]. split; [apply grows_emit|]. unfold marks. simpl. by rewrite Hev.
Qed.

Lemma pipeline_step_silent st st' :
  st_trace st' = st_trace st → keeps_stores st st' → pipeline_step st st'.
Proof.
  intros Htr Hk. split; [|done].
  exists []. split; [|done]. unfold grows. by rewrite Htr, app_nil_r.
Qed.

Lemma download_shape_marks name ok dl : download_shape name ok dl → marks dl = [].
Proof. intros H. by invert_shape H. Qed.

Lemma retry_shape_marks r api : retry_shape r api → marks api = [].
Proof. intros H. by invert_shape H. Qed.

Lemma paper_run_step e log_dir p force skip st b st' evs :
  paper_run e log_dir p force skip st b st' evs →
  marks evs = [] ∧ keeps_stores st st'.
Proof.
  intros Hrun. inversion Hrun; subst; clear Hrun;
    repeat match goal with
      | H : download_shape _ _ _ |- _ => apply download_shape_marks in H
      | H : retry_shape _ _ |- _ => apply retry_shape_marks in H
      | H : keeps_records _ _ |- _ => destruct H as (_ & _ & H)
      end;
    rewrite ?marks_app; simpl;
    repeat match goal with H : marks _ = [] |- _ => rewrite H end; by split.
Qed.

Lemma process_paper_step e prompt_template log_dir p force skip st :
  pipeline_step st (process_paper e prompt_template log_dir p force skip st).2.
Proof.
  destruct (process_paper e prompt_template log_dir p force skip st) as [b st'] eqn:Hrun.
  apply process_paper_run in Hrun as (evs & Hg & Hrun).
  apply paper_run_step in Hrun as [Hm Hk]. split; [by exists evs|done].
Qed.

Lemma process_papers_step e prompt_template log_dir a len i papers st :
  pipeline_step st (process_papers e prompt_template log_dir a len i papers st).2.
Proof.
  revert i st. induction papers as [|q papers IH]; intros i st; simpl.
  - apply pipeline_step_refl.
  - pose proof (process_paper_step e prompt_template log_dir q (a_force_process a)
                  (a_skip_twitter a || negb (i =? len - 1)) st) as H1.
    destruct (process_paper e prompt_template log_dir q _ _ st) as [b st1].
    specialize (IH (i + 1) (emit (EvSleep 5) st1)).
    destruct (process_papers e prompt_template log_dir a len (i + 1) papers
                (emit (EvSleep 5) st1)) as [bs st2].
    simpl in *.
    eapply pipeline_step_trans; [exact H1|].
    eapply pipeline_step_trans; [|exact IH]. by apply pipeline_step_emit.
Qed.

Lemma is_processed_step arxiv_id processed_ids st :
  pipeline_step st (is_processed arxiv_id processed_ids st).2.
Proof.
  unfold is_processed. case_match; simpl;
    [apply pipeline_step_refl | by apply pipeline_step_emit].
Qed.

Lemma download_pdf_step e p st :
  pipeline_step st (download_pdf e p false st).2.
Proof.
  destruct (download_pdf e p false st) as [[[ok path] arxiv_id] st1] eqn:Hdl.
  apply download_pdf_run in Hdl as (_ & _ & (_ & _ & Hk) & dl & Hg & Hshape).
  apply download_shape_marks in Hshape. split; [by exists dl|done].
Qed.

Lemma copy_from_step e pdf_filename pdf_dirs st :
  pipeline_step st (copy_from e pdf_filename pdf_dirs st).2.
Proof.
  induction pdf_dirs as [|[dir files] rest IH]; simpl.
  - apply pipeline_step_refl.
  - destruct (files !! pdf_filename) as [content|]; [|exact IH].
    destruct (dl_exists pdf_filename st); [apply pipeline_step_refl|].
    destruct (env_copy e (st_trace st) pdf_filename);
      [|by apply pipeline_step_emit].
    destruct (dl_write pdf_filename content st) as [st1|] eqn:Hw;
      [|by apply pipeline_step_emit].
    apply dl_write_inv in Hw as (Htr & _ & _ & Hk). simpl.
    eapply pipeline_step_trans; [by apply pipeline_step_silent|].
    by apply pipeline_step_emit.
Qed.

Lemma select_papers_step e a processed_ids max_process_count papers
    processed_count papers_to_process newly_processed_ids st :
  pipeline_step st
    (select_papers e a processed_ids max_process_count papers processed_count
       papers_to_process newly_processed_ids st).2.
Proof.
  revert processed_count papers_to_process newly_processed_ids st.
  induction papers as [|p rest IH];
    intros processed_count papers_to_process newly_processed_ids st; simpl.
  - apply pipeline_step_refl.
  - destruct (processed_count >=? max_process_count); [apply pipeline_step_refl|].
    pose proof (is_processed_step (extract_arxiv_id p) (Some processed_ids) st) as H1.
    destruct (is_processed (extract_arxiv_id p) (Some processed_ids) st)
      as [processed st1]. simpl in H1.
    destruct (negb processed || a_force_process a);
      [|eapply pipeline_step_trans; [exact H1|apply IH]].
    pose proof (copy_from_step e (extract_arxiv_id p ++ of_ascii ".pdf")
                  (filter (λ d, glob_visible d.1 = true) (map_to_list (st_pdf st1)))
                  st1) as H2.
    unfold copy_pdf_if_exists.
    destruct (copy_from e _ _ st1) as [copied st2].
    simpl in H2.
    destruct copied; simpl;
      [eapply pipeline_step_trans; [exact H1|];
       eapply pipeline_step_trans; [exact H2|apply IH]|].
    pose proof (download_pdf_step e p st2) as H3.
    destruct (download_pdf e p false st2) as [[[success path] arxiv_id] st3].
    simpl in H3.
    destruct success; simpl;
      (eapply pipeline_step_trans; [exact H1|];
       eapply pipeline_step_trans; [exact H2|];
       eapply pipeline_step_trans; [exact H3|apply IH]).
Qed.

Lemma setup_directories_inv st st0 :
  setup_directories st = Some st0 →
  st_trace st0 = st_trace st ∧ keeps_stores st st0.
Proof.
  unfold setup_directories. intros H.
  repeat case_match; simplify_eq; by repeat split.
Qed.

Lemma search_arxiv_step e keywords max_results use_or since_timestamp last_paper_id st :
  pipeline_step st
    (search_arxiv e keywords max_results use_or since_timestamp last_paper_id st).2.
Proof.
  unfold search_arxiv. repeat case_match; simpl; by apply pipeline_step_emit.
Qed.

(** A run of [arxiv_downloader.py]: no event of the orchestrator, the
    watermark file untouched, and no id file written but the output file. *)
Lemma main_step e config a st :
  let run := main e config a st in
  (∃ evs, grows st run.2 evs ∧ marks evs = [])
  ∧ st_timestamps_file run.2 = st_timestamps_file st
  ∧ (∀ f, a_output_processed_ids a ≠ Some f →
       st_id_files run.2 !! f = st_id_files st !! f).
Proof.
  assert (∀ st', pipeline_step st st' →
            (∃ evs, grows st st' evs ∧ marks evs = [])
            ∧ st_timestamps_file st' = st_timestamps_file st
            ∧ (∀ f, a_output_processed_ids a ≠ Some f →
                 st_id_files st' !! f = st_id_files st !! f)) as Hstep.
  { intros st' [Hev [Hi Ht]]. split; [done|]. split; [done|].
    intros f _. by rewrite Hi. }
  intros run. subst run. unfold main.
  destruct (setup_directories st) as [st0|] eqn:Hsetup;
    [|apply Hstep, pipeline_step_refl].
  apply setup_directories_inv in Hsetup as [Htr0 Hk0].
  pose proof (pipeline_step_silent _ _ Htr0 Hk0) as H0. cbv zeta.
  destruct config as [prompt_template|]; [|by apply Hstep].
  pose proof (search_arxiv_step e (a_keywords a) (a_max_results a) (a_use_or a)
                (a_since_timestamp a) (a_last_paper_id a) st0) as H1.
  destruct (search_arxiv e _ _ _ _ _ st0) as [[err|papers] st1]; cbn [snd] in H1.
  { apply Hstep. by eapply pipeline_step_trans. }
  pose proof (pipeline_step_trans _ _ _ H0 H1) as H01.
  destruct papers as [|p papers]; [by apply Hstep|].
  match goal with
  | |- context [select_papers e a ?ids ?m ?ps 0 [] ∅ st1] =>
      pose proof (select_papers_step e a ids m ps 0 [] ∅ st1) as H2;
      destruct (select_papers e a ids m ps 0 [] ∅ st1)
        as [[[processed_count papers_to_process] newly] st2]
  end.
  cbn [snd] in H2.
  pose proof (pipeline_step_trans _ _ _ H01 H2) as H02.
  destruct papers_to_process as [|q papers_to_process]; [by apply Hstep|].
  match goal with
  | |- context [process_papers e prompt_template ?ld a ?len 0 ?ps st2] =>
      pose proof (process_papers_step e prompt_template ld a len 0 ps st2) as H3;
      destruct (process_papers e prompt_template ld a len 0 ps st2)
        as [successes st3]
  end.
  cbn [snd] in H3.
  pose proof (pipeline_step_trans _ _ _ H02 H3) as H03.
  destruct (truthy (a_output_processed_ids a) && bool_decide (newly ≠ ∅)) eqn:Hout;
    [|by apply Hstep].
  destruct (env_open e (st_trace st3) _); [by apply Hstep|].
  destruct (Hstep _ H03) as (Hev & Ht & Hi). cbn [snd].
  split; [done|]. split; [done|].
  intros f Hf. cbn [st_id_files set_id_files].
  rewrite lookup_insert_ne; [by apply Hi|].
  destruct (a_output_processed_ids a) as [[|c f0]|]; simpl in Hout; try done.
  simpl. congruence.
Qed.

End PipelineSteps.

(** ** The orchestrator *)

Section Orchestration.
Import Pdf Downloader Orchestrator.

Lemma setup_pdf_directory_inv e keywords st r st0 :
  setup_pdf_directory e keywords st = (r, st0) →
  st_trace st0 = st_trace st ∧ keeps_stores st st0.
Proof.
  unfold setup_pdf_directory. intros H.
  repeat case_match; simplify_eq; by repeat split.
Qed.

Lemma temp_file_ne search_set_id :
  of_ascii "./temp_processed_ids_" ++ search_set_id ++ of_ascii ".txt"
  ≠ processed_ids_path.
Proof. intros H. vm_compute in H. discriminate H. Qed.

Lemma new_file_ne search_set_id :
  of_ascii "./new_processed_ids_" ++ search_set_id ++ of_ascii ".txt"
  ≠ processed_ids_path.
Proof. intros H. vm_compute in H. discriminate H. Qed.

Lemma write_processed_ids_file_inv e processed_ids search_set_id st file st1 :
  write_processed_ids_file e processed_ids search_set_id st = inr (file, st1) →
  let temp_file :=
    of_ascii "./temp_processed_ids_" ++ search_set_id ++ of_ascii ".txt" in
  st_trace st1 = st_trace st
  ∧ st_timestamps_file st1 = st_timestamps_file st
  ∧ (∀ f, f ≠ temp_file → st_id_files st1 !! f = st_id_files st !! f)
  ∧ (processed_ids ≠ ∅ → file = Some temp_file)
  ∧ (file = None ∨ file = Some temp_file).
Proof.
  unfold write_processed_ids_file. cbv zeta. intros H.
  case_bool_decide as Hids.
  - destruct (env_open e (st_trace st) _); [done|]. injection H as <- <-.
    repeat split; auto. intros f Hf. simpl. by apply lookup_insert_ne.
  - injection H as <- <-. repeat split; auto. done.
Qed.

(** What a call of [run_search_set] does to the trace, to the persisted
    stores and to the shared [timestamps]. *)
Lemma run_search_set_inv e cfg keywords output_dir max_results tweet_enabled
    timestamps processed_ids search_set_id st :
  let run :=
    run_search_set e cfg keywords output_dir max_results tweet_enabled
      timestamps processed_ids search_set_id st in
  (∃ evs, grows st run.2 evs ∧ marks evs = [])
  ∧ st_timestamps_file run.2 = st_timestamps_file st
  ∧ st_id_files run.2 !! processed_ids_path = st_id_files st !! processed_ids_path
  ∧ match run.1.1 with
    | Return true _ =>
        run.1.2 = <[search_set_id := start_watermark e st]> timestamps
    | Return false _ =>
        run.1.2 = timestamps
        ∨ run.1.2 = <[search_set_id := start_watermark e st]> timestamps
    | Raise _ => run.1.2 = timestamps
    end.
Proof.
  intros run. subst run. unfold run_search_set.
  destruct (setup_pdf_directory e keywords st) as [[err|pdf_dir] st0] eqn:Hsetup;
    apply setup_pdf_directory_inv in Hsetup as [Htr0 [Hi0 Ht0]].
  { simpl. rewrite Hi0, Ht0. repeat split; try done.
    exists []. split; [|done]. unfold grows. by rewrite Htr0, app_nil_r. }
  cbv zeta. rewrite Htr0. fold (start_watermark e st).
  set (temp_file := of_ascii "./temp_processed_ids_" ++ search_set_id ++ of_ascii ".txt").
  set (new_file := of_ascii "./new_processed_ids_" ++ search_set_id ++ of_ascii ".txt").
  destruct (write_processed_ids_file e processed_ids search_set_id st0)
    as [err|[file st1]] eqn:Hwrite.
  { simpl. rewrite Hi0, Ht0. repeat split; try done.
    exists []. split; [|done]. unfold grows. by rewrite Htr0, app_nil_r. }
  apply write_processed_ids_file_inv in Hwrite as (Htr1 & Ht1 & Hi1 & _ & Hfile).
  cbv zeta in Hi1, Hfile. fold temp_file in Hi1, Hfile.
  specialize (Hi1 processed_ids_path (λ E, temp_file_ne search_set_id (eq_sym E))).
  match goal with
  | |- context [Downloader.main e ?tmpl ?c st1] =>
      pose proof (main_step e tmpl c st1) as (Hev2 & Ht2 & Hi2);
      destruct (Downloader.main e tmpl c st1) as [result st2]
  end.
  cbn [snd] in Hev2, Ht2, Hi2.
  specialize (Hi2 processed_ids_path).
  assert (st_id_files st2 !! processed_ids_path = st_id_files st1 !! processed_ids_path)
    as Hi2' by (apply Hi2; intros [= E]; by apply new_file_ne in E).
  clear Hi2.
  set (st3 := match file with
              | Some f => set_id_files (delete f (st_id_files st2)) st2
              | None => st2
              end).
  assert (st_trace st3 = st_trace st2
          ∧ st_timestamps_file st3 = st_timestamps_file st2
          ∧ st_id_files st3 !! processed_ids_path = st_id_files st2 !! processed_ids_path)
    as (Htr3 & Ht3 & Hi3).
  { subst st3. destruct Hfile as [->| ->]; simpl; repeat split.
    apply lookup_delete_ne, temp_file_ne. }
  assert (∃ evs, grows st st3 evs ∧ marks evs = []) as Hev3.
  { destruct Hev2 as (evs & Hg & Hm). exists evs. split; [|done].
    unfold grows in *. rewrite Htr3, Hg, Htr1, Htr0. done. }
  assert (st_timestamps_file st3 = st_timestamps_file st) as Ht03 by congruence.
  assert (st_id_files st3 !! processed_ids_path = st_id_files st !! processed_ids_path)
    as Hi03 by (rewrite Hi3, Hi2', Hi1, Hi0; done).
  clearbody st3.
  destruct (Downloader.returncode result =? 0); simpl;
    [|split; [exact Hev3|]; split; [exact Ht03|]; split; [exact Hi03|]; by left].
  assert (∃ ids st4,
            match st_id_files st3 !! new_file with
            | Some lines =>
                (list_to_set lines,
                 set_id_files (delete new_file (st_id_files st3)) st3)
            | None => (∅, st3)
            end = (ids, st4)
            ∧ st_trace st4 = st_trace st3
            ∧ st_timestamps_file st4 = st_timestamps_file st3
            ∧ st_id_files st4 !! processed_ids_path = st_id_files st3 !! processed_ids_path)
    as (ids & st4 & -> & Htr4 & Ht4 & Hi4).
  { destruct (st_id_files st3 !! new_file); eexists _, _;
      (split; [done|]); repeat split.
    simpl. apply lookup_delete_ne, new_file_ne. }
  assert (∃ evs, grows st (emit (EvWebGenerator output_dir
                    (env_web e (st_trace st4)
                       (of_ascii "./logs/" ++ join (of_ascii "_") (map safe_keyword keywords))
                       output_dir)) st4) evs ∧ marks evs = []) as Hev4.
  { destruct Hev3 as (evs & Hg & Hm). eexists (evs ++ [_]). split.
    - unfold grows in *. simpl. rewrite Htr4, Hg. by rewrite app_assoc.
    - rewrite marks_app, Hm. done. }
  destruct (env_web e (st_trace st4) _ output_dir =? 0); simpl;
    (split; [exact Hev4|]); (split; [congruence|]);
    (split; [by rewrite Hi4|]); auto.
Qed.

Lemma started_app evs1 evs2 : started (evs1 ++ evs2) = started evs1 ++ started evs2.
Proof.
  induction evs1 as [|ev evs1 IH]; [done|]. destruct ev; simpl; by rewrite ?IH.
Qed.

Lemma started_marks evs : marks evs = [] → started evs = [].
Proof.
  induction evs as [|ev evs IH]; [done|]. unfold marks in *. simpl.
  destruct ev; simpl; try done; auto.
Qed.

Lemma saves_marks evs : marks evs = [] → count_events is_save evs = 0%nat.
Proof.
  unfold count_events.
  induction evs as [|ev evs IH]; [done|]. unfold marks in *. simpl.
  destruct ev; simpl; try done; auto.
Qed.





Lemma pass_step_refl st : pass_step st st [].
Proof.
  split; [|done]. exists []. split; [apply grows_refl|done].
Qed.

Lemma pass_step_trans st1 st2 st3 l1 l2 :
  pass_step st1 st2 l1 → pass_step st2 st3 l2 → pass_step st1 st3 (l1 ++ l2).
Proof.
  intros [(evs1 & Hg1 & Hs1 & Hc1) [Ht1 Hi1]] [(evs2 & Hg2 & Hs2 & Hc2) [Ht2 Hi2]].
  split; [|split; congruence].
  exists (evs1 ++ evs2). split; [by eapply grows_trans|].
  rewrite started_app, count_events_app, Hs1, Hs2, Hc1, Hc2. done.
Qed.

Lemma pass_step_emit st ev :
  is_save ev = false → pass_step st (emit ev st) (started [ev]).
Proof.
  intros Hev. split; [|done].
  exists [ev]. split; [apply grows_emit|]. split; [done|].
  unfold count_events. simpl. by rewrite Hev.
Qed.

Lemma run_search_set_pass_step e cfg keywords output_dir max_results tweet_enabled
    timestamps processed_ids search_set_id st :
  pass_step st
    (run_search_set e cfg keywords output_dir max_results tweet_enabled
       timestamps processed_ids search_set_id st).2 [].
Proof.
  pose proof (run_search_set_inv e cfg keywords output_dir max_results tweet_enabled
                timestamps processed_ids search_set_id st)
    as ((evs & Hg & Hm) & Ht & Hi & _).
  split; [|done]. exists evs.
  split; [done|]. split; [by apply started_marks | by apply saves_marks].
Qed.

Lemma logged_outcome_pass_step i r st : pass_step st (logged_outcome i r st) [].
Proof.
  destruct r as [msg|[] ids]; simpl;
    [by apply (pass_step_emit st (EvSetError i msg))
    |apply pass_step_refl
    |by apply (pass_step_emit st (EvSetFailed i))].
Qed.




Lemma grows_elem_of st st' evs ev : grows st st' evs → ev ∈ evs → ev ∈ new_events st st'.
Proof. intros Hg Hin. by rewrite (grows_new_events _ _ _ Hg). Qed.





End Orchestration.

(** ** The post text *)

Section PostText.
Import Pdf Downloader Summarizer.

Lemma length_arxiv_url arxiv_id :
  length (Twitter.arxiv_url arxiv_id) = (22 + length arxiv_id)%nat.
Proof. unfold Twitter.arxiv_url. by rewrite length_app. Qed.

Lemma length_post_text_of summary_text :
  length (post_text_of summary_text) =
    (if (130 <? length (greeting ++ summary_text))%nat
     then Nat.min (length (greeting ++ summary_text)) 277 + 3
     else length (greeting ++ summary_text))%nat.
Proof.
  unfold post_text_of. cbv zeta.
  destruct (130 <? length (greeting ++ summary_text))%nat; [|done].
  rewrite length_app, length_take.
  change (length (of_ascii "...")) with 3%nat. lia.
Qed.

Lemma tweet_texts_app evs1 evs2 :
  tweet_texts (evs1 ++ evs2) = tweet_texts evs1 ++ tweet_texts evs2.
Proof.
  induction evs1 as [|ev evs1 IH]; [done|]. destruct ev; simpl; by rewrite ?IH.
Qed.

Lemma tweet_texts_no_tweet evs : count_events is_tweet evs = 0%nat → tweet_texts evs = [].
Proof.
  unfold count_events. induction evs as [|ev evs IH]; [done|].
  destruct ev; simpl; try done; auto.
Qed.

(** C2, as the code has it.  Let [G] be the greeting followed by the
    summary and [T] the post text built from it: [G] itself when it has at
    most 130 characters, otherwise the first 277 characters of [G]
    followed by "...".  The text handed to Twitter is [T] followed by a
    blank line and the URL exactly when the id is not empty and
    [len(T) + 2 + len(url) <= 280]; otherwise it is [T].  The length of
    [T] is that of [G] up to 130, and [min(len(G), 277) + 3] above.  Every
    text [process_paper] hands to Twitter is built this way from the
    stripped answer of the summarizer and the id of the paper. *)
Theorem url_appended_iff_it_fits_after_ellipsis :
  (∀ summary_text arxiv_id : str,
      let G := greeting ++ summary_text in
      let T := post_text_of summary_text in
      let url := Twitter.arxiv_url arxiv_id in
      let final := final_post_text summary_text arxiv_id in
      let fits := arxiv_id ≠ [] ∧ (length T + 2 + length url ≤ 280)%nat in
      (final = T ++ Twitter.blank_line ++ url ↔ fits)
      ∧ (final = T ↔ ¬ fits)
      ∧ T = (if (130 <? length G)%nat then take 277 G ++ of_ascii "..." else G)
      ∧ length T = (if (130 <? length G)%nat
                    then Nat.min (length G) 277 + 3 else length G)%nat
      ∧ length url = (22 + length arxiv_id)%nat)
  ∧ (∀ e prompt_template log_dir p force skip st,
      let run := process_paper e prompt_template log_dir p force skip st in
      tweet_texts (new_events st run.2) = []
      ∨ ∃ content,
          tweet_texts (new_events st run.2)
          = [final_post_text (strip content) (download_id p)]).
Proof.
  split.
  - intros summary_text arxiv_id G T url final fits.
    assert (final = if bool_decide fits then T ++ Twitter.blank_line ++ url else T)
      as Hfinal.
    { subst final fits url. unfold final_post_text, Twitter.final_text. fold T.
      cbv zeta. simpl (default _ _).
      destruct arxiv_id as [|c arxiv_id]; simpl truthy.
      - rewrite bool_decide_eq_false_2; [done|]. by intros [? _].
      - destruct (length T + length (Twitter.arxiv_url (c :: arxiv_id)) + 2 <=? 280)%nat
          eqn:Hfit.
        + apply Nat.leb_le in Hfit. rewrite bool_decide_eq_true_2; [done|].
          split; [done|lia].
        + apply Nat.leb_gt in Hfit. rewrite bool_decide_eq_false_2; [done|].
          intros [_ ?]. lia. }
    assert (T ++ Twitter.blank_line ++ url ≠ T) as Hlonger.
    { intros Heq. apply (f_equal length) in Heq.
      rewrite !length_app in Heq. simpl in Heq. lia. }
    split; [|split; [|split; [done|split]]].
    + rewrite Hfinal. case_bool_decide; [done|]. split; [by intros ?%symmetry|done].
    + rewrite Hfinal. case_bool_decide; [|done]. split; [done|]. by intros [].
    + apply length_post_text_of.
    + apply length_arxiv_url.
  - intros e prompt_template log_dir p force skip st run. subst run.
    destruct (process_paper e prompt_template log_dir p force skip st)
      as [b st'] eqn:Hrun.
    apply process_paper_run in Hrun as (evs & Hg & Hrun). simpl.
    rewrite (grows_new_events _ _ _ Hg).
    inversion Hrun; subst; clear Hrun; use_shape_facts;
      rewrite ?tweet_texts_app;
      repeat match goal with
        | H : _ ∧ _ |- _ => destruct H
        end;
      repeat match goal with
        | H : count_events is_tweet ?l = 0%nat |- _ =>
            rewrite (tweet_texts_no_tweet l H); clear H
        end;
      simpl; eauto.
Qed.

(** The claim of C2 as stated fails: a summary of 232 characters and a
    ten-character id give [len(greeting + summary) + 2 + len(url) = 280],
    yet the text handed to Twitter is the cut text without the URL, in the
    function and in a run of [process_paper]. *)
Lemma url_omitted_although_untruncated_text_fits :
  let summary_text := Scenario.long_answer in
  let arxiv_id := download_id Scenario.paper_short_id in
  let url := Twitter.arxiv_url arxiv_id in
  let run :=
    process_paper Scenario.env_long Scenario.template Scenario.logs
      Scenario.paper_short_id false false Scenario.st_ready in
  (length (greeting ++ summary_text) + 2 + length url ≤ 280)%nat
  ∧ contains (final_post_text summary_text arxiv_id) url = false
  ∧ final_post_text summary_text arxiv_id
      = take 277 (greeting ++ summary_text) ++ of_ascii "..."
  ∧ tweet_texts (new_events Scenario.st_ready run.2)
      = [take 277 (greeting ++ summary_text) ++ of_ascii "..."].
Proof.
  cbv zeta. split; [vm_compute; lia|]. vm_compute. by repeat split.
Qed.

Lemma url_appended_witness :
  final_post_text (strip Scenario.answer) (download_id Scenario.paper1)
  = post_text_of (strip Scenario.answer) ++ Twitter.blank_line
      ++ Twitter.arxiv_url (download_id Scenario.paper1).
Proof.
  apply (proj1 url_appended_iff_it_fits_after_ellipsis).
  split; [discriminate|]. vm_compute. lia.
Defined.

End PostText.

(** ** Where the code falls short of the claims *)

Section Shortfalls.
Import Pdf Downloader Orchestrator.

(** C1.  A pass over one search set whose only paper fails summarization
    three times: no processed marker is written, but the id of the paper
    is in the processed-id file the pass saves; a second pass, with the
    summarizer answering, then finds the same paper and neither queries
    the marker, extracts, summarizes nor publishes it. *)
Theorem failed_summary_is_persisted_as_processed :
  let first :=
    Orchestrator.main Scenario.env_api_down (Some Scenario.config1) Scenario.st_fresh in
  let second := Orchestrator.main Scenario.env_ok (Some Scenario.config1) first in
  let arxiv_id := download_id Scenario.paper1 in
  count_events is_api_call (st_trace first) = 3%nat
  ∧ tweet_results (st_trace first) = []
  ∧ st_processed first !! arxiv_id = None
  ∧ st_id_files first !! processed_ids_path = Some [arxiv_id]
  ∧ arxiv_id ∈ load_processed_ids first
  ∧ count_events is_ledger_query (new_events first second) = 0%nat
  ∧ count_events is_extract (new_events first second) = 0%nat
  ∧ count_events is_api_call (new_events first second) = 0%nat
  ∧ tweet_results (new_events first second) = []
  ∧ st_processed second !! arxiv_id = None.
Proof.
  cbv zeta. repeat split; vm_compute; reflexivity.
Qed.

(** C9.  A run of [arxiv_downloader.py] that selects one paper whose
    summarization fails three times, with [--skip-twitter] unset: the
    pipeline of the paper returns [False] and no publish call is made, yet
    the run reports one processed paper and a Twitter post. *)
Theorem report_ignores_pipeline_outcome :
  let run :=
    Downloader.main Scenario.env_api_down (Some Scenario.template)
      (Scenario.cli false) Scenario.st_fresh in
  run.1 = Completed 1 true [false]
  ∧ tweet_results (st_trace run.2) = []
  ∧ st_processed run.2 = ∅.
Proof. cbv zeta. repeat split; vm_compute; reflexivity. Qed.

(** C10.  When [./dl] is a symbolic link whose target is gone,
    [os.path.exists] is false for it, so it is not unlinked,
    [os.symlink] raises and [./dl] still points to the old target. *)
Theorem dangling_dl_link_is_left_in_place :
  let st := Scenario.st_dangling in
  let r := setup_pdf_directory Scenario.env_ok [of_ascii "quantum"] st in
  dl_islink st = true
  ∧ dl_path_exists st = false
  ∧ r.1 = inl (of_ascii "FileExistsError")
  ∧ st_dl r.2 = Some (DlLink (of_ascii "old_topic")).
Proof. cbv zeta. repeat split; vm_compute; reflexivity. Qed.

(** X21. In every other case, where [./dl] is absent, a real directory, a
    link whose target exists or a link to the directory of the keyword set
    itself, it becomes a link to that directory, which exists. *)
Lemma setup_pdf_directory_relinks e keywords st :
  let pdf_dir := generate_pdf_dir_name e keywords st in
  let r := setup_pdf_directory e keywords st in
  match st_dl st with
  | None | Some (DlDir _) => True
  | Some (DlLink target) => target = pdf_dir ∨ is_Some (st_pdf st !! target)
  | Some DlFile => False
  end →
  r.1 = inr pdf_dir
  ∧ st_dl r.2 = Some (DlLink pdf_dir)
  ∧ is_Some (st_pdf r.2 !! pdf_dir).
Proof.
  intros pdf_dir r. subst r. unfold setup_pdf_directory. fold pdf_dir. cbv zeta.
  unfold dl_path_exists, dl_islink.
  set (st0 := match st_pdf st !! pdf_dir with
              | Some _ => st
              | None => set_pdf (<[pdf_dir := ∅]> (st_pdf st)) st
              end).
  assert (st_dl st0 = st_dl st) as Hdl0 by (subst st0; by case_match).
  assert (is_Some (st_pdf st0 !! pdf_dir)) as Hdir0.
  { subst st0. destruct (st_pdf st !! pdf_dir) eqn:Hdir; [by rewrite Hdir|].
    cbn [st_pdf set_pdf]. by rewrite lookup_insert_eq. }
  assert (∀ target, is_Some (st_pdf st !! target) → is_Some (st_pdf st0 !! target))
    as Hkept.
  { intros target Hsome. subst st0. destruct (st_pdf st !! pdf_dir) eqn:Hdir; [done|].
    cbn [st_pdf set_pdf].
    destruct (decide (pdf_dir = target)) as [->|Hne];
      [by rewrite lookup_insert_eq | by rewrite lookup_insert_ne]. }
  clearbody st0. rewrite Hdl0.
  destruct (st_dl st) as [[target|files'|]|] eqn:Hdl; intros Hcase; try done.
  - rewrite bool_decide_eq_true_2 by (destruct Hcase as [->|?]; auto).
    cbn [st_dl set_dl fst snd st_pdf]. done.
  - rewrite Hdl0. cbn [st_dl set_dl fst snd st_pdf]. done.
Qed.

Lemma setup_pdf_directory_relinks_witness :
  st_dl (setup_pdf_directory Scenario.env_ok [of_ascii "quantum"] Scenario.st_ready).2
  = Some (DlLink (of_ascii "quantum")).
Proof.
  apply (setup_pdf_directory_relinks Scenario.env_ok [of_ascii "quantum"]
           Scenario.st_ready).
  exact I.
Defined.

End Shortfalls.

(** * Further properties of the code *)

(** ** The two ways an id is derived *)

Section Identity.
Import Pdf Downloader.

Lemma rfind_absent c s i acc :
  Forall (λ x, (x =? c)%N = false) s → rfind c s i acc = acc.
Proof.
  intros Hs. revert i acc. induction Hs as [|x s Hx _ IH]; intros i acc; simpl.
  - done.
  - by rewrite Hx, IH.
Qed.

Lemma rfind_last c l1 l2 i acc :
  Forall (λ x, (x =? c)%N = false) l2 →
  rfind c (l1 ++ c :: l2) i acc = Some (i + length l1)%nat.
Proof.
  intros Hl2. revert i acc. induction l1 as [|x l1 IH]; intros i acc; simpl.
  - rewrite N.eqb_refl, rfind_absent by done. by rewrite Nat.add_0_r.
  - rewrite IH. f_equal. lia.
Qed.

Lemma copy_name_is_download_name p :
  extract_arxiv_id p ++ of_ascii ".pdf" = download_name p.
Proof.
  unfold extract_arxiv_id, download_name, endswith. cbv zeta.
  case_bool_decide as Hend; simpl negb; cbv iota; [|done].
  change (length (of_ascii ".pdf")) with 4%nat in Hend.
  rewrite <- Hend. apply take_drop.
Qed.

Lemma splitext_root_pdf stem :
  splitext_root (stem ++ of_ascii ".pdf") =
    if existsb (λ c, negb (c =? 46)%N) stem then stem else stem ++ of_ascii ".pdf".
Proof.
  unfold splitext_root.
  change (of_ascii ".pdf") with (46%N :: of_ascii "pdf").
  rewrite rfind_last by (by repeat constructor).
  simpl (0 + _)%nat. by rewrite take_app_length.
Qed.

(** X1. The file name [copy_pdf_if_exists] looks for is the one
    [download_pdf] writes, and [download_pdf] returns the id
    [extract_arxiv_id] gives whenever that id has a character other than
    a dot; for an id made of dots only (or empty) it returns the id with
    ".pdf" still attached, so the two disagree. *)
Theorem id_resolvers_agree_unless_only_dots p :
  extract_arxiv_id p ++ of_ascii ".pdf" = download_name p
  ∧ (∀ e st, (download_pdf e p false st).1.2 = download_id p)
  ∧ download_id p =
      if existsb (λ c, negb (c =? 46)%N) (extract_arxiv_id p)
      then extract_arxiv_id p
      else extract_arxiv_id p ++ of_ascii ".pdf".
Proof.
  split; [apply copy_name_is_download_name|]. split.
  - intros e st.
    destruct (download_pdf e p false st) as [[[ok path] arxiv_id] st1] eqn:Hdl.
    by apply download_pdf_run in Hdl as (-> & _).
  - unfold download_id. rewrite <- copy_name_is_download_name.
    apply splitext_root_pdf.
Qed.

End Identity.

(** ** Length of what is posted *)

Section PostLength.
Import Pdf Downloader Summarizer.

Lemma length_post_text_le summary_text : (length (post_text_of summary_text) ≤ 280)%nat.
Proof.
  rewrite length_post_text_of.
  destruct (130 <? length (greeting ++ summary_text))%nat eqn:H.
  - lia.
  - apply Nat.ltb_ge in H. lia.
Qed.

Lemma length_final_text_le post_text arxiv_id :
  (length post_text ≤ 280)%nat →
  (length (Twitter.final_text post_text arxiv_id) ≤ 280)%nat.
Proof.
  intros Hle. unfold Twitter.final_text.
  destruct (truthy arxiv_id); [|done]. cbv zeta.
  destruct (length post_text + length (Twitter.arxiv_url (default [] arxiv_id)) + 2
            <=? 280)%nat eqn:Hfit; [|done].
  apply Nat.leb_le in Hfit. rewrite !length_app.
  change (length Twitter.blank_line) with 2%nat. lia.
Qed.

Lemma process_paper_tweet_texts e prompt_template log_dir p force skip st :
  let run := process_paper e prompt_template log_dir p force skip st in
  tweet_texts (new_events st run.2) = []
  ∨ ∃ content,
      tweet_texts (new_events st run.2)
      = [final_post_text (strip content) (download_id p)].
Proof.
  intros run. subst run.
  destruct (process_paper e prompt_template log_dir p force skip st) as [b st'] eqn:Hrun.
  apply process_paper_run in Hrun as (evs & Hg & Hrun). simpl.
  rewrite (grows_new_events _ _ _ Hg).
  inversion Hrun; subst; clear Hrun; use_shape_facts;
    rewrite ?tweet_texts_app;
    repeat match goal with
      | H : _ ∧ _ |- _ => destruct H
      end;
    repeat match goal with
      | H : count_events is_tweet ?l = 0%nat |- _ =>
          rewrite (tweet_texts_no_tweet l H); clear H
      end;
    simpl; eauto.
Qed.

(** X2. Whatever the summarizer answers and whatever the id, the post
    text built by [generate_summary] and the text [post_thread] hands to
    Twitter have at most 280 characters; so has every text a call of
    [process_paper] publishes. *)
Theorem posted_text_within_280 :
  (∀ summary_text arxiv_id,
      (length (post_text_of summary_text) ≤ 280)%nat
      ∧ (length (final_post_text summary_text arxiv_id) ≤ 280)%nat)
  ∧ (∀ e prompt_template log_dir p force skip st,
      let run := process_paper e prompt_template log_dir p force skip st in
      Forall (λ text, (length text ≤ 280)%nat) (tweet_texts (new_events st run.2))).
Proof.
  split.
  - intros summary_text arxiv_id. split; [apply length_post_text_le|].
    apply length_final_text_le, length_post_text_le.
  - intros e prompt_template log_dir p force skip st run.
    destruct (process_paper_tweet_texts e prompt_template log_dir p force skip st)
      as [Hnone|[content Hone]]; fold run in Hnone || fold run in Hone.
    + rewrite Hnone. constructor.
    + rewrite Hone. constructor; [|constructor].
      apply length_final_text_le, length_post_text_le.
Qed.

End PostLength.

(** ** The ledger *)

Section Ledger.
Import Pdf Downloader.

(** X3. Marking and querying the ledger: after [mark_as_processed] the
    id is reported processed, whatever the preloaded set; the answer for
    every other id is unchanged; an id of a non-empty preloaded set is
    reported processed without looking at the disk; and marking the same
    id again replaces the marker (the last title wins). *)
Theorem marked_is_processed e arxiv_id title processed_ids st :
  (is_processed arxiv_id processed_ids (mark_as_processed e arxiv_id title st)).1 = true
  ∧ (∀ other,
       other ≠ arxiv_id →
       (is_processed other processed_ids (mark_as_processed e arxiv_id title st)).1
       = (is_processed other processed_ids st).1)
  ∧ (∀ ids : gset str, arxiv_id ∈ ids → is_processed arxiv_id (Some ids) st = (true, st))
  ∧ (∀ title',
       m_title <$> st_processed
                     (mark_as_processed e arxiv_id title'
                        (mark_as_processed e arxiv_id title st)) !! arxiv_id
       = Some title').
Proof.
  split; [|split; [|split]].
  - unfold is_processed. case_match; [done|]. simpl.
    rewrite lookup_insert_eq. by apply bool_decide_eq_true_2.
  - intros other Hne. unfold is_processed. case_match; [done|]. simpl.
    by rewrite lookup_insert_ne.
  - intros ids Hin. unfold is_processed.
    rewrite (bool_decide_eq_true_2 (ids ≠ ∅)) by set_solver.
    by rewrite (bool_decide_eq_true_2 (arxiv_id ∈ ids)).
  - intros title'. simpl. by rewrite lookup_insert_eq.
Qed.

(** X4. What [process_paper] does to the ledger: when it returns [True]
    the marker of the paper exists afterwards and the markers of all other
    ids are what they were; when it returns [False] no marker has
    changed. *)
Theorem process_paper_ledger_outcome e prompt_template log_dir p force skip st :
  let run := process_paper e prompt_template log_dir p force skip st in
  if run.1
  then is_Some (st_processed run.2 !! download_id p)
       ∧ ∀ other, other ≠ download_id p →
           st_processed run.2 !! other = st_processed st !! other
  else st_processed run.2 = st_processed st.
Proof.
  intros run. subst run.
  destruct (process_paper e prompt_template log_dir p force skip st) as [b st'] eqn:Hrun.
  apply process_paper_run in Hrun as (evs & Hg & Hrun). simpl.
  inversion Hrun; subst; clear Hrun;
    repeat match goal with
      | H : keeps_records _ _ |- _ => destruct H as (H & _)
      end;
    try done.
  - split; [congruence|]. intros other _. congruence.
  - match goal with H : st_processed st' = _ |- _ => rewrite H end.
    split; [by rewrite lookup_insert_eq|].
    intros other Hne. by rewrite lookup_insert_ne.
  - match goal with H : st_processed st' = <[_ := _]> _ |- _ => rewrite H end.
    split; [by rewrite lookup_insert_eq|].
    intros other Hne. by rewrite lookup_insert_ne.
Qed.

Lemma same_dl_refl st : same_dl st st.
Proof. by split. Qed.

Lemma same_dl_trans st1 st2 st3 : same_dl st1 st2 → same_dl st2 st3 → same_dl st1 st3.
Proof. intros [H1 H2] [H3 H4]. split; congruence. Qed.

Lemma same_dl_exists st st' name : same_dl st st' → dl_exists name st' = dl_exists name st.
Proof. intros [Hp Hd]. unfold dl_exists, dl_files. by rewrite Hp, Hd. Qed.

Lemma extract_text_same_dl e name st : same_dl st (extract_text_from_pdf e name st).2.
Proof. unfold extract_text_from_pdf. by repeat case_match. Qed.

Lemma generate_summary_same_dl e text prompt_template title arxiv_id st :
  same_dl st (Summarizer.generate_summary e text prompt_template title arxiv_id st).2.
Proof.
  unfold Summarizer.generate_summary. cbv zeta.
  change (Z.to_nat Summarizer.max_retries) with 3%nat.
  destruct (Summarizer.call_with_retry 3 e _ 0 2 st) as [r st1] eqn:Hloop.
  apply call_with_retry_run in Hloop as (_ & _ & _ & Hp & Hd & _).
  by repeat case_match.
Qed.

Lemma post_thread_same_dl e sm log_dir st : same_dl st (Twitter.post_thread e sm log_dir st).2.
Proof. unfold Twitter.post_thread. by repeat case_match. Qed.

Lemma dl_write_exists name content st st' :
  dl_write name content st = Some st' →
  dl_exists name st' = true
  ∧ ∀ other, dl_exists other st = true → dl_exists other st' = true.
Proof.
  unfold dl_write, dl_exists, dl_files. intros H.
  destruct (st_dl st) as [[target|files|]|] eqn:Hdl; try done.
  - destruct (st_pdf st !! target) as [files|] eqn:Hdir; [|done].
    simplify_eq. simpl. rewrite Hdl, lookup_insert_eq. simpl.
    split; [by rewrite lookup_insert_eq|].
    intros other Hother. apply bool_decide_eq_true in Hother.
    apply bool_decide_eq_true_2.
    destruct (decide (name = other)) as [->|Hne];
      [by rewrite lookup_insert_eq | by rewrite lookup_insert_ne].
  - simplify_eq. simpl.
    split; [by rewrite lookup_insert_eq|].
    intros other Hother. apply bool_decide_eq_true in Hother.
    apply bool_decide_eq_true_2.
    destruct (decide (name = other)) as [->|Hne];
      [by rewrite lookup_insert_eq | by rewrite lookup_insert_ne].
Qed.

Lemma download_pdf_present e p st :
  (download_pdf e p false st).1.1.1 = true →
  dl_exists (download_name p) (download_pdf e p false st).2 = true.
Proof.
  unfold download_pdf. fold (download_name p). cbv zeta.
  destruct (dl_exists (download_name p) st) eqn:Hex; simpl; [done|].
  destruct (env_fetch e _ p) as [content|]; [|done].
  destruct (dl_write _ content _) as [st3|] eqn:Hw; [|done].
  intros _. simpl. by apply dl_write_exists in Hw as [Hw _].
Qed.

Lemma process_paper_after_download e prompt_template log_dir p force skip st :
  let run := process_paper e prompt_template log_dir p force skip st in
  same_dl (download_pdf e p false st).2 run.2
  ∧ (run.1 = true → (download_pdf e p false st).1.1.1 = true).
Proof.
  intros run. subst run. unfold process_paper.
  destruct (download_pdf e p false st) as [[[ok path] arxiv_id] st1].
  destruct ok; cbn [negb fst snd]; cbv iota; [|by split].
  split; [|done].
  assert (same_dl st1 (is_processed arxiv_id None st1).2) as H2 by (by split).
  destruct (is_processed arxiv_id None st1) as [processed st2]. cbn [snd] in H2.
  destruct (processed && negb force); [done|].
  pose proof (extract_text_same_dl e (default [] path) st2) as H3.
  destruct (extract_text_from_pdf e (default [] path) st2) as [[text_path|] st3];
    simpl in H3; [|by eapply same_dl_trans].
  match goal with
  | |- context [Summarizer.generate_summary e ?t ?tmpl ?ti ?id st3] =>
      pose proof (generate_summary_same_dl e t tmpl ti id st3) as H4;
      destruct (Summarizer.generate_summary e t tmpl ti id st3) as [[sm|] st4]
  end; simpl in H4.
  2: { eapply same_dl_trans; [|exact H4]. by eapply same_dl_trans. }
  assert (same_dl st1 st4) as H14.
  { eapply same_dl_trans; [|exact H4]. by eapply same_dl_trans. }
  destruct skip; cbn [negb].
  - cbv zeta. cbn [snd]. destruct H14 as [? ?]. by split.
  - match goal with
    | |- context [Twitter.post_thread e ?s log_dir st4] =>
        pose proof (post_thread_same_dl e s log_dir st4) as H5;
        destruct (Twitter.post_thread e s log_dir st4) as [ok st5]
    end.
    simpl in H5. pose proof (same_dl_trans _ _ _ H14 H5) as [? ?].
    destruct ok; by split.
Qed.

Lemma process_paper_skip e prompt_template log_dir p skip st :
  dl_exists (download_name p) st = true →
  is_Some (st_processed st !! download_id p) →
  process_paper e prompt_template log_dir p false skip st
  = (true, emit (EvLedgerQuery (download_id p) true) st).
Proof.
  intros Hex Hmark. unfold process_paper, download_pdf.
  fold (download_name p). fold (download_id p). cbv zeta.
  rewrite Hex. cbn [andb negb]. cbv iota beta.
  unfold is_processed. rewrite bool_decide_eq_true_2 by done. done.
Qed.

Lemma records_grow_emit st ev : records_grow st (emit ev st).
Proof. by split. Qed.

(** X5. Once [process_paper] has returned [True] for a paper, a call for
    the same paper without [force_process] from any later state in which
    no marker and no file of the download directory has been removed, in
    any environment and with any prompt, log directory and Twitter flag,
    returns [True] after the marker query alone: nothing is fetched,
    extracted, summarized or posted, and no file changes. *)
Theorem processed_paper_is_skipped_next_time
    e e' prompt_template prompt_template' log_dir log_dir' p force skip skip' st later :
  let first := process_paper e prompt_template log_dir p force skip st in
  first.1 = true →
  records_grow first.2 later →
  dl_grows first.2 later →
  process_paper e' prompt_template' log_dir' p false skip' later
  = (true, emit (EvLedgerQuery (download_id p) true) later).
Proof.
  intros first Hok [Hmarkers _] Hfiles. apply process_paper_skip.
  - apply Hfiles.
    destruct (process_paper_after_download e prompt_template log_dir p force skip st)
      as [Hsame Hdl].
    fold first in Hsame, Hdl.
    rewrite (same_dl_exists _ _ _ Hsame). by apply download_pdf_present, Hdl.
  - pose proof (process_paper_ledger_outcome e prompt_template log_dir p force skip st)
      as Hledger.
    cbv zeta in Hledger. fold first in Hledger. rewrite Hok in Hledger.
    destruct Hledger as [Hmark _].
    apply elem_of_dom, Hmarkers, elem_of_dom. exact Hmark.
Qed.

Lemma processed_paper_is_skipped_witness :
  process_paper Scenario.env_api_down Scenario.template Scenario.logs Scenario.paper1
    false false
    (emit (EvSleep 5)
       (process_paper Scenario.env_ok Scenario.template Scenario.logs Scenario.paper1
          false true Scenario.st_ready).2)
  = (true,
     emit (EvLedgerQuery (download_id Scenario.paper1) true)
       (emit (EvSleep 5)
          (process_paper Scenario.env_ok Scenario.template Scenario.logs
             Scenario.paper1 false true Scenario.st_ready).2)).
Proof.
  apply (processed_paper_is_skipped_next_time Scenario.env_ok Scenario.env_api_down
           Scenario.template Scenario.template Scenario.logs Scenario.logs
           Scenario.paper1 false true false Scenario.st_ready).
  - vm_compute. reflexivity.
  - apply records_grow_emit.
  - intros name Hname. exact Hname.
Defined.

End Ledger.

(** ** A run of the downloader *)

Section DownloaderRun.
Import Pdf Downloader.

Lemma dl_grows_refl st : dl_grows st st.
Proof. by intros name. Qed.

Lemma dl_grows_trans st1 st2 st3 : dl_grows st1 st2 → dl_grows st2 st3 → dl_grows st1 st3.
Proof. intros H1 H2 name Hn. by apply H2, H1. Qed.

Lemma same_dl_grows st st' : same_dl st st' → dl_grows st st'.
Proof. intros Hs name. by rewrite (same_dl_exists _ _ _ Hs). Qed.

Lemma records_grow_refl st : records_grow st st.
Proof. by split. Qed.

Lemma records_grow_trans st1 st2 st3 :
  records_grow st1 st2 → records_grow st2 st3 → records_grow st1 st3.
Proof. intros [H1 H2] [H3 H4]. split; set_solver. Qed.

Lemma keeps_records_grow st st' : keeps_records st st' → records_grow st st'.
Proof. intros (Hp & Hl & _). split; by rewrite ?Hp, ?Hl. Qed.

Lemma selection_step_refl st : selection_step st st.
Proof.
  split; [exists []; split; [apply grows_refl|constructor]|].
  split; [apply keeps_records_refl|apply dl_grows_refl].
Qed.

Lemma selection_step_trans st1 st2 st3 :
  selection_step st1 st2 → selection_step st2 st3 → selection_step st1 st3.
Proof.
  intros [(evs1 & Hg1 & Hf1) [Hk1 Hd1]] [(evs2 & Hg2 & Hf2) [Hk2 Hd2]].
  split; [|split].
  - exists (evs1 ++ evs2). split; [by eapply grows_trans|by apply Forall_app].
  - by eapply keeps_records_trans.
  - by eapply dl_grows_trans.
Qed.

Lemma selection_step_emit st ev : is_selection ev = true → selection_step st (emit ev st).
Proof.
  intros Hev. split; [exists [ev]; split; [apply grows_emit|by repeat constructor]|].
  split; [by repeat split|by intros name].
Qed.

Lemma downloader_step_refl st : downloader_step st st.
Proof.
  split; [exists []; split; [apply grows_refl|constructor]|].
  split; [apply records_grow_refl|]. split; [apply dl_grows_refl|by split].
Qed.

Lemma downloader_step_trans st1 st2 st3 :
  downloader_step st1 st2 → downloader_step st2 st3 → downloader_step st1 st3.
Proof.
  intros [(evs1 & Hg1 & Hf1) (Hr1 & Hd1 & Hk1)] [(evs2 & Hg2 & Hf2) (Hr2 & Hd2 & Hk2)].
  split; [|split; [|split]].
  - exists (evs1 ++ evs2). split; [by eapply grows_trans|by apply Forall_app].
  - by eapply records_grow_trans.
  - by eapply dl_grows_trans.
  - by eapply keeps_stores_trans.
Qed.

Lemma downloader_step_emit st ev : is_pipeline ev = true → downloader_step st (emit ev st).
Proof.
  intros Hev. split; [exists [ev]; split; [apply grows_emit|by repeat constructor]|].
  split; [by split|]. split; [by intros name|by split].
Qed.

Lemma selection_downloader_step st st' : selection_step st st' → downloader_step st st'.
Proof.
  intros [(evs & Hg & Hev) [Hk Hd]]. split.
  { exists evs. split; [done|]. eapply Forall_impl; [exact Hev|].
    intros ev. by destruct ev. }
  split; [by apply keeps_records_grow|]. split; [done|]. by destruct Hk as (_ & _ & ?).
Qed.

Lemma download_shape_selection name ok dl :
  download_shape name ok dl → Forall (λ ev, is_selection ev = true) dl.
Proof. intros H. invert_shape H; by repeat constructor. Qed.

Lemma selection_no_tweet evs :
  Forall (λ ev, is_selection ev = true) evs → tweet_results evs = [].
Proof.
  induction 1 as [|ev evs Hev _ IH]; [done|]. by destruct ev.
Qed.

Lemma download_shape_pipeline name ok dl :
  download_shape name ok dl → Forall (λ ev, is_pipeline ev = true) dl.
Proof. intros H. invert_shape H; by repeat constructor. Qed.

Lemma retry_shape_pipeline r api :
  retry_shape r api → Forall (λ ev, is_pipeline ev = true) api.
Proof. intros H. invert_shape H; by repeat constructor. Qed.

Lemma download_pdf_dl_grows e p st : dl_grows st (download_pdf e p false st).2.
Proof.
  unfold download_pdf. cbv zeta.
  destruct (dl_exists _ st && negb false); [apply dl_grows_refl|].
  destruct (env_fetch e _ p) as [content|]; [|by intros name].
  destruct (dl_write _ content _) as [st3|] eqn:Hw; [|by intros name].
  apply dl_write_exists in Hw as [_ Hw]. exact Hw.
Qed.

Lemma download_pdf_selection_step e p st :
  selection_step st (download_pdf e p false st).2.
Proof.
  pose proof (download_pdf_dl_grows e p st) as Hd.
  destruct (download_pdf e p false st) as [[[ok path] arxiv_id] st1] eqn:Hdl.
  apply download_pdf_run in Hdl as (_ & _ & Hk & dl & Hg & Hshape).
  apply download_shape_selection in Hshape. split; [by exists dl|by split].
Qed.

Lemma is_processed_selection_step arxiv_id processed_ids st :
  selection_step st (is_processed arxiv_id processed_ids st).2.
Proof.
  unfold is_processed. case_match; simpl;
    [apply selection_step_refl | by apply selection_step_emit].
Qed.

Lemma dl_write_selection_step name content st st' :
  dl_write name content st = Some st' → selection_step st st'.
Proof.
  intros Hw. pose proof (dl_write_exists _ _ _ _ Hw) as [_ Hd].
  apply dl_write_inv in Hw as [Htr Hk].
  split; [|by split]. exists []. split; [|constructor].
  unfold grows. by rewrite Htr, app_nil_r.
Qed.

Lemma copy_from_selection_step e pdf_filename pdf_dirs st :
  selection_step st (copy_from e pdf_filename pdf_dirs st).2
  ∧ ((copy_from e pdf_filename pdf_dirs st).1 = true →
     dl_exists pdf_filename (copy_from e pdf_filename pdf_dirs st).2 = true).
Proof.
  induction pdf_dirs as [|[dir files] rest IH]; simpl.
  - split; [apply selection_step_refl|done].
  - destruct (files !! pdf_filename) as [content|]; [|exact IH].
    destruct (dl_exists pdf_filename st) eqn:Hex;
      [split; [apply selection_step_refl|done]|].
    destruct (env_copy e (st_trace st) pdf_filename);
      [|split; [by apply selection_step_emit|done]].
    destruct (dl_write pdf_filename content st) as [st1|] eqn:Hw;
      [|split; [by apply selection_step_emit|done]].
    simpl. split.
    + eapply selection_step_trans; [by eapply dl_write_selection_step|].
      by apply selection_step_emit.
    + intros _. by apply dl_write_exists in Hw as [Hw _].
Qed.

Lemma select_papers_selection_step e a processed_ids max_process_count papers
    processed_count papers_to_process newly_processed_ids st :
  selection_step st
    (select_papers e a processed_ids max_process_count papers processed_count
       papers_to_process newly_processed_ids st).2.
Proof.
  revert processed_count papers_to_process newly_processed_ids st.
  induction papers as [|p rest IH];
    intros processed_count papers_to_process newly_processed_ids st; simpl.
  - apply selection_step_refl.
  - destruct (processed_count >=? max_process_count); [apply selection_step_refl|].
    pose proof (is_processed_selection_step (extract_arxiv_id p) (Some processed_ids) st)
      as H1.
    destruct (is_processed (extract_arxiv_id p) (Some processed_ids) st)
      as [processed st1]. simpl in H1.
    destruct (negb processed || a_force_process a);
      [|eapply selection_step_trans; [exact H1|apply IH]].
    pose proof (copy_from_selection_step e (extract_arxiv_id p ++ of_ascii ".pdf")
                  (filter (λ d, glob_visible d.1 = true) (map_to_list (st_pdf st1)))
                  st1) as [H2 _].
    unfold copy_pdf_if_exists.
    destruct (copy_from e _ _ st1) as [copied st2].
    simpl in H2.
    destruct copied; cbn [negb];
      [eapply selection_step_trans; [exact H1|];
       eapply selection_step_trans; [exact H2|apply IH]|].
    pose proof (download_pdf_selection_step e p st2) as H3.
    destruct (download_pdf e p false st2) as [[[success path] arxiv_id] st3].
    simpl in H3.
    destruct success; cbn [negb];
      (eapply selection_step_trans; [exact H1|];
       eapply selection_step_trans; [exact H2|];
       eapply selection_step_trans; [exact H3|apply IH]).
Qed.

Lemma is_processed_false (arxiv_id : str) (processed_ids : gset str) (st : state) :
  (is_processed arxiv_id (Some processed_ids) st).1 = false →
  (arxiv_id ∉ processed_ids) ∧ st_processed st !! arxiv_id = None.
Proof.
  unfold is_processed.
  destruct (bool_decide (processed_ids ≠ ∅) && bool_decide (arxiv_id ∈ processed_ids))
    eqn:Hpre; simpl; [done|].
  intros Hfound. apply bool_decide_eq_false in Hfound. split.
  - intros Hin. rewrite !bool_decide_eq_true_2 in Hpre; [done|done|set_solver].
  - by apply eq_None_not_Some.
Qed.

Lemma select_papers_inv e a processed_ids max_process_count papers
    processed_count papers_to_process newly_processed_ids st :
  ∃ added,
    selection_result e a processed_ids max_process_count papers processed_count
      papers_to_process newly_processed_ids st added.
Proof.
  revert processed_count papers_to_process newly_processed_ids st.
  induction papers as [|p rest IH];
    intros processed_count papers_to_process newly_processed_ids st.
  { exists []. unfold selection_result.
    cbn [select_papers fst snd length fmap list_fmap list_to_set foldr].
    rewrite app_nil_r.
    split; [done|]. split; [simpl; lia|]. split; [set_solver|].
    split; [done|]. split; [simpl; lia|]. by repeat split. }
  assert (∀ st1 : state,
            selection_step st st1 →
            (∃ added, selection_result e a processed_ids max_process_count rest
                        processed_count papers_to_process newly_processed_ids st1 added) →
            ∀ r, r = select_papers e a processed_ids max_process_count rest
                       processed_count papers_to_process newly_processed_ids st1 →
            ∃ added,
              r.1.1.2 = papers_to_process ++ added
              ∧ r.1.1.1 = processed_count + Z.of_nat (length added)
              ∧ r.1.2 = newly_processed_ids ∪ list_to_set (extract_arxiv_id <$> added)
              ∧ added `sublist_of` (p :: rest)
              ∧ (processed_count ≤ max_process_count → r.1.1.1 ≤ max_process_count)
              ∧ (max_process_count ≤ processed_count → added = [])
              ∧ (a_force_process a = false →
                 Forall (λ p, (extract_arxiv_id p ∉ processed_ids)
                              ∧ st_processed st !! extract_arxiv_id p = None) added)
              ∧ Forall (λ p, dl_exists (download_name p) r.2 = true) added) as Hskip.
  { intros st1 [_ [(Hp & _) _]] [added Hres] r ->.
    destruct Hres as (H1 & H2 & H3 & H4 & H5 & H6 & H7 & H8).
    exists added. repeat split; try done; [by apply sublist_cons|].
    intros Hforce. specialize (H7 Hforce). by rewrite Hp in H7. }
  assert (∀ st1 : state,
            selection_step st st1 →
            processed_count < max_process_count →
            dl_exists (download_name p) st1 = true →
            (a_force_process a = false →
             (extract_arxiv_id p ∉ processed_ids)
             ∧ st_processed st !! extract_arxiv_id p = None) →
            ∀ r, r = select_papers e a processed_ids max_process_count rest
                       (processed_count + 1) (papers_to_process ++ [p])
                       ({[extract_arxiv_id p]} ∪ newly_processed_ids) st1 →
            ∃ added,
              r.1.1.2 = papers_to_process ++ added
              ∧ r.1.1.1 = processed_count + Z.of_nat (length added)
              ∧ r.1.2 = newly_processed_ids ∪ list_to_set (extract_arxiv_id <$> added)
              ∧ added `sublist_of` (p :: rest)
              ∧ (processed_count ≤ max_process_count → r.1.1.1 ≤ max_process_count)
              ∧ (max_process_count ≤ processed_count → added = [])
              ∧ (a_force_process a = false →
                 Forall (λ p, (extract_arxiv_id p ∉ processed_ids)
                              ∧ st_processed st !! extract_arxiv_id p = None) added)
              ∧ Forall (λ p, dl_exists (download_name p) r.2 = true) added) as Htake.
  { intros st1 [_ [(Hp & _) _]] Hlt Hfile Hnew r ->.
    destruct (IH (processed_count + 1) (papers_to_process ++ [p])
                ({[extract_arxiv_id p]} ∪ newly_processed_ids) st1)
      as (added & H1 & H2 & H3 & H4 & H5 & H6 & H7 & H8).
    pose proof (select_papers_selection_step e a processed_ids max_process_count rest
                  (processed_count + 1) (papers_to_process ++ [p])
                  ({[extract_arxiv_id p]} ∪ newly_processed_ids) st1) as [_ [_ Hgrow]].
    exists (p :: added). cbv zeta in *.
    split; [by rewrite H1, <- app_assoc|].
    split; [rewrite H2; simpl length; lia|].
    split; [rewrite H3; simpl; set_solver|].
    split; [by apply sublist_skip|].
    split; [intros _; apply H5; lia|].
    split; [intros ?; lia|].
    split.
    - intros Hforce. constructor; [by apply Hnew|].
      specialize (H7 Hforce). by rewrite Hp in H7.
    - constructor; [by apply Hgrow|done]. }
  unfold selection_result. cbn [select_papers].
  destruct (processed_count >=? max_process_count) eqn:Hcap.
  { exists []. cbn [fst snd length fmap list_fmap list_to_set foldr].
    rewrite app_nil_r.
    split; [done|]. split; [simpl; lia|]. split; [set_solver|].
    split; [apply sublist_nil_l|]. split; [simpl; lia|]. by repeat split. }
  assert (processed_count < max_process_count) as Hlt by lia.
  pose proof (is_processed_selection_step (extract_arxiv_id p) (Some processed_ids) st)
    as Hq.
  pose proof (is_processed_false (extract_arxiv_id p) processed_ids st) as Hfalse.
  destruct (is_processed (extract_arxiv_id p) (Some processed_ids) st)
    as [processed st1]. cbn [fst snd] in Hq, Hfalse.
  destruct (negb processed || a_force_process a) eqn:Htest;
    [|by eapply Hskip; [exact Hq|apply IH|]].
  assert (a_force_process a = false →
          (extract_arxiv_id p ∉ processed_ids)
          ∧ st_processed st !! extract_arxiv_id p = None) as Hnew.
  { intros Hforce. rewrite Hforce, orb_false_r in Htest. apply Hfalse.
    by destruct processed. }
  pose proof (copy_from_selection_step e (extract_arxiv_id p ++ of_ascii ".pdf")
                (filter (λ d, glob_visible d.1 = true) (map_to_list (st_pdf st1)))
                st1) as [Hc Hcopied].
  unfold copy_pdf_if_exists.
  destruct (copy_from e _ _ st1) as [copied st2].
  cbn [fst snd] in Hc, Hcopied.
  pose proof (selection_step_trans _ _ _ Hq Hc) as Hqc.
  destruct copied; cbn [negb]; cbv iota.
  { eapply Htake; try done. rewrite <- copy_name_is_download_name. by apply Hcopied. }
  pose proof (download_pdf_selection_step e p st2) as Hd.
  pose proof (download_pdf_present e p st2) as Hfile.
  destruct (download_pdf e p false st2) as [[[success path] arxiv_id] st3].
  cbn [fst snd] in Hd, Hfile.
  pose proof (selection_step_trans _ _ _ Hqc Hd) as Hqd.
  destruct success; cbn [negb]; cbv iota.
  - eapply Htake; try done. by apply Hfile.
  - by eapply Hskip; [exact Hqd|apply IH|].
Qed.

End DownloaderRun.

(** ** The selection loop of [main] *)

Section Selection.
Import Pdf Downloader.

Lemma select_papers_from_start e a processed_ids max_process_count papers st :
  let r := select_papers e a processed_ids max_process_count papers 0 [] ∅ st in
  r.1.1.2 `sublist_of` papers
  ∧ r.1.1.1 = Z.of_nat (length r.1.1.2)
  ∧ Z.of_nat (length r.1.1.2) ≤ Z.max 0 max_process_count
  ∧ r.1.2 = list_to_set (extract_arxiv_id <$> r.1.1.2)
  ∧ Forall (λ p, dl_exists (download_name p) r.2 = true) r.1.1.2.
Proof.
  destruct (select_papers_inv e a processed_ids max_process_count papers 0 [] ∅ st)
    as (added & H1 & H2 & H3 & H4 & H5 & H6 & _ & H8).
  cbv zeta in *. rewrite app_nil_l in H1. rewrite H1, H2, H3.
  split; [done|]. split; [lia|]. split; [|split; [set_solver|done]].
  destruct (Z.le_ge_cases 0 max_process_count) as [Hpos|Hneg].
  - specialize (H5 Hpos). lia.
  - rewrite (H6 Hneg). simpl. lia.
Qed.

(** X6. The papers [main] selects are search results in the order of the
    search, no more than [--max-process] of them (none when the cap is not
    positive); [processed_count] is their number, [newly_processed_ids] are
    their ids, and each has its PDF in the download directory when the
    selection ends. *)
Theorem selection_is_capped_ordered_and_downloaded
    e a processed_ids max_process_count papers st :
  let r := select_papers e a processed_ids max_process_count papers 0 [] ∅ st in
  r.1.1.2 `sublist_of` papers
  ∧ r.1.1.1 = Z.of_nat (length r.1.1.2)
  ∧ Z.of_nat (length r.1.1.2) ≤ Z.max 0 max_process_count
  ∧ r.1.2 = list_to_set (extract_arxiv_id <$> r.1.1.2)
  ∧ Forall (λ p, dl_exists (download_name p) r.2 = true) r.1.1.2.
Proof. apply select_papers_from_start. Qed.

(** X7. Without [--force-process] no selected paper was processed before:
    its id is neither in the set loaded from [--processed-ids-file] nor
    the name of a marker file. *)
Theorem selection_skips_processed_papers
    e a processed_ids max_process_count papers st :
  a_force_process a = false →
  Forall (λ p, (extract_arxiv_id p ∉ processed_ids)
               ∧ st_processed st !! extract_arxiv_id p = None)
    (select_papers e a processed_ids max_process_count papers 0 [] ∅ st).1.1.2.
Proof.
  intros Hforce.
  destruct (select_papers_inv e a processed_ids max_process_count papers 0 [] ∅ st)
    as (added & H1 & _ & _ & _ & _ & _ & H7 & _).
  cbv zeta in *. rewrite app_nil_l in H1. rewrite H1. by apply H7.
Qed.

Lemma selection_skips_processed_witness :
  Forall (λ p, (extract_arxiv_id p ∉ ({[of_ascii "2401.12346v2"]} : gset str))
               ∧ st_processed Scenario.st_ready !! extract_arxiv_id p = None)
    (select_papers Scenario.env_ok (Scenario.cli true) {[of_ascii "2401.12346v2"]} 5
       [Scenario.paper1; Scenario.paper2] 0 [] ∅ Scenario.st_ready).1.1.2.
Proof.
  apply (selection_skips_processed_papers Scenario.env_ok (Scenario.cli true)
           {[of_ascii "2401.12346v2"]} 5 [Scenario.paper1; Scenario.paper2]
           Scenario.st_ready).
  reflexivity.
Defined.

End Selection.

(** ** A whole run of [arxiv_downloader.py] *)

Section DownloaderMain.
Import Pdf Downloader.

Lemma records_grow_insert st st' :
  (st_processed st' = st_processed st
   ∨ ∃ k v, st_processed st' = <[k := v]> (st_processed st)) →
  (st_logs st' = st_logs st ∨ ∃ k v, st_logs st' = <[k := v]> (st_logs st)) →
  records_grow st st'.
Proof.
  intros [Hp|(k & v & Hp)] [Hl|(k' & v' & Hl)]; split; rewrite ?Hp, ?Hl;
    set_solver.
Qed.

Lemma paper_run_downloader e log_dir p force skip st b st' evs :
  paper_run e log_dir p force skip st b st' evs →
  Forall (λ ev, is_pipeline ev = true) evs
  ∧ records_grow st st' ∧ keeps_stores st st'.
Proof.
  intros Hrun. inversion Hrun; subst; clear Hrun;
    repeat match goal with
      | H : download_shape _ _ _ |- _ => apply download_shape_pipeline in H
      | H : retry_shape _ _ |- _ => apply retry_shape_pipeline in H
      end;
    (split; [repeat (apply Forall_app; split); try done; by repeat constructor|]);
    (split;
      [first [by apply keeps_records_grow
             |apply records_grow_insert; eauto]
      |by repeat match goal with
            | H : keeps_records _ _ |- _ => destruct H as (_ & _ & H)
            end]).
Qed.

Lemma process_paper_downloader_step e prompt_template log_dir p force skip st :
  downloader_step st (process_paper e prompt_template log_dir p force skip st).2.
Proof.
  pose proof (process_paper_after_download e prompt_template log_dir p force skip st)
    as [Hsame _].
  pose proof (download_pdf_dl_grows e p st) as Hdl.
  destruct (process_paper e prompt_template log_dir p force skip st) as [b st'] eqn:Hrun.
  apply process_paper_run in Hrun as (evs & Hg & Hrun).
  apply paper_run_downloader in Hrun as (Hev & Hr & Hk).
  cbn [snd] in *.
  split; [by exists evs|]. split; [done|]. split; [|done].
  eapply dl_grows_trans; [exact Hdl|by apply same_dl_grows].
Qed.

Lemma process_papers_downloader_step e prompt_template log_dir a len i papers st :
  downloader_step st (process_papers e prompt_template log_dir a len i papers st).2.
Proof.
  revert i st. induction papers as [|q papers IH]; intros i st; simpl.
  - apply downloader_step_refl.
  - pose proof (process_paper_downloader_step e prompt_template log_dir q
                  (a_force_process a) (a_skip_twitter a || negb (i =? len - 1)) st) as H1.
    destruct (process_paper e prompt_template log_dir q _ _ st) as [b st1].
    specialize (IH (i + 1) (emit (EvSleep 5) st1)).
    destruct (process_papers e prompt_template log_dir a len (i + 1) papers
                (emit (EvSleep 5) st1)) as [bs st2].
    simpl in *.
    eapply downloader_step_trans; [exact H1|].
    eapply downloader_step_trans; [|exact IH]. by apply downloader_step_emit.
Qed.

Lemma process_papers_length e prompt_template log_dir a len i papers st :
  length (process_papers e prompt_template log_dir a len i papers st).1 = length papers.
Proof.
  revert i st. induction papers as [|q papers IH]; intros i st; simpl; [done|].
  destruct (process_paper e prompt_template log_dir q _ _ st) as [b st1].
  specialize (IH (i + 1) (emit (EvSleep 5) st1)).
  destruct (process_papers e prompt_template log_dir a len (i + 1) papers
              (emit (EvSleep 5) st1)) as [bs st2].
  simpl in *. by rewrite IH.
Qed.

Lemma twitter_posted_from_last a len i papers :
  papers ≠ [] → len = i + Z.of_nat (length papers) →
  twitter_posted_from a len i papers = negb (a_skip_twitter a).
Proof.
  revert i. induction papers as [|q papers IH]; intros i Hne Hlen; [done|].
  cbn [twitter_posted_from]. cbv zeta.
  destruct papers as [|q' papers].
  - replace (i =? len - 1) with true
      by (symmetry; apply Z.eqb_eq; simpl in Hlen; lia).
    by destruct (a_skip_twitter a).
  - replace (i =? len - 1) with false
      by (symmetry; apply Z.eqb_neq; simpl length in Hlen; lia).
    rewrite andb_false_r. apply IH; [done|]. simpl length in *. lia.
Qed.

Lemma setup_directories_step st st0 :
  setup_directories st = Some st0 → downloader_step st st0.
Proof.
  unfold setup_directories. intros H.
  split; [exists []; split; [|constructor]|].
  { unfold grows. repeat case_match; simplify_eq; by rewrite app_nil_r. }
  split; [by repeat case_match; simplify_eq|].
  split; [|by repeat case_match; simplify_eq].
  intros name. unfold dl_exists, dl_files.
  repeat case_match; simplify_eq; try done.
Qed.

Lemma search_arxiv_downloader_step
    e keywords max_results use_or since_timestamp last_paper_id st :
  downloader_step st
    (search_arxiv e keywords max_results use_or since_timestamp last_paper_id st).2.
Proof.
  unfold search_arxiv. repeat case_match; simpl; by apply downloader_step_emit.
Qed.

Lemma select_papers_force_download e b a processed_ids max_process_count papers
    processed_count papers_to_process newly_processed_ids st :
  select_papers e (set_force_download b a) processed_ids max_process_count papers
    processed_count papers_to_process newly_processed_ids st
  = select_papers e a processed_ids max_process_count papers
      processed_count papers_to_process newly_processed_ids st.
Proof.
  revert processed_count papers_to_process newly_processed_ids st.
  induction papers as [|p rest IH]; intros; [done|].
  cbn [select_papers]. cbv zeta.
  change (a_force_process (set_force_download b a)) with (a_force_process a).
  destruct (processed_count >=? max_process_count); [done|].
  destruct (is_processed _ _ st) as [processed st1].
  destruct (negb processed || a_force_process a); [|apply IH].
  destruct (copy_pdf_if_exists e _ st1) as [copied st2].
  destruct (negb copied); [|apply IH].
  destruct (download_pdf e p false st2) as [[[success path] arxiv_id] st3].
  destruct (negb success); apply IH.
Qed.

Lemma process_papers_force_download e prompt_template log_dir b a len i papers st :
  process_papers e prompt_template log_dir (set_force_download b a) len i papers st
  = process_papers e prompt_template log_dir a len i papers st.
Proof.
  revert i st. induction papers as [|p rest IH]; intros i st; [done|].
  cbn [process_papers]. cbv zeta.
  change (a_force_process (set_force_download b a)) with (a_force_process a).
  change (a_skip_twitter (set_force_download b a)) with (a_skip_twitter a).
  destruct (process_paper e prompt_template log_dir p _ _ st) as [success st1].
  by rewrite IH.
Qed.

Lemma twitter_posted_force_download b a len i papers :
  twitter_posted_from (set_force_download b a) len i papers
  = twitter_posted_from a len i papers.
Proof.
  revert i. induction papers as [|p rest IH]; intros i; [done|].
  cbn [twitter_posted_from]. cbv zeta.
  change (a_skip_twitter (set_force_download b a)) with (a_skip_twitter a).
  by rewrite IH.
Qed.

Lemma process_papers_tweets e prompt_template log_dir a papers st :
  let evs :=
    new_events st
      (process_papers e prompt_template log_dir a (Z.of_nat (length papers)) 0
         papers st).2 in
  (length (tweet_results evs) ≤ 1)%nat
  ∧ (a_skip_twitter a = true → tweet_results evs = []).
Proof.
  destruct papers as [|last earlier _] using rev_ind.
  { simpl. rewrite (grows_new_events _ _ _ (grows_refl st)). simpl. split; [lia|done]. }
  cbv zeta. rewrite process_papers_snoc. cbv zeta. cbn [snd].
  set (len := Z.of_nat (length (earlier ++ [last]))).
  assert (0 + Z.of_nat (length earlier) = len - 1) as Hlast
    by (subst len; rewrite length_app; simpl; lia).
  replace (0 + Z.of_nat (length earlier) =? len - 1) with true
    by (symmetry; by apply Z.eqb_eq).
  cbn [negb]. rewrite orb_false_r.
  pose proof (process_papers_silent e prompt_template log_dir a len 0 earlier st)
    as Hsilent.
  destruct (process_papers_grows e prompt_template log_dir a len 0 earlier st)
    as [evs1 Hg1].
  rewrite (grows_new_events _ _ _ Hg1) in Hsilent.
  set (before := (process_papers e prompt_template log_dir a len 0 earlier st).2) in *.
  pose proof (process_paper_posting e prompt_template log_dir last (a_force_process a)
                before) as [Hposting _].
  pose proof (process_paper_silent e prompt_template log_dir last (a_force_process a)
                before) as [Hquiet _].
  destruct (process_paper_grows e prompt_template log_dir last (a_force_process a)
              (a_skip_twitter a) before) as [evs2 Hg2].
  cbv zeta in Hposting, Hquiet.
  rewrite (grows_new_events _ _ _ (grows_emit_r _ _ _ (EvSleep 5)
             (grows_trans _ _ _ _ _ Hg1 Hg2))).
  rewrite !tweet_results_app, Hsilent by lia. cbn [tweet_results app].
  rewrite app_nil_r.
  destruct (a_skip_twitter a).
  - rewrite (grows_new_events _ _ _ Hg2) in Hquiet. rewrite Hquiet.
    split; [simpl; lia|done].
  - rewrite (grows_new_events _ _ _ Hg2) in Hposting. by split.
Qed.

(** [main] by cases, with the values of its two loops named. *)
Lemma main_cases e config a st :
  let run := main e config a st in
  match setup_directories st with
  | None => run = (Exit 1, st)
  | Some st0 =>
      match config with
      | None => run = (Exit 1, st0)
      | Some prompt_template =>
          let search :=
            search_arxiv e (a_keywords a) (a_max_results a) (a_use_or a)
              (a_since_timestamp a) (a_last_paper_id a) st0 in
          match search.1 with
          | inl _ => run = (Exit 1, search.2)
          | inr papers =>
              let selection :=
                select_papers e a (read_processed_ids a st0) (max_process_count a)
                  papers 0 [] ∅ search.2 in
              let selected := selection.1.1.2 in
              let len := Z.of_nat (length selected) in
              let batch :=
                process_papers e prompt_template (logs_dir a) a len 0 selected
                  selection.2 in
              let report :=
                Completed selection.1.1.1 (twitter_posted_from a len 0 selected)
                  batch.1 in
              let f := default [] (a_output_processed_ids a) in
              match selected with
              | [] => run = (Exit 0, selection.2)
              | _ :: _ =>
                  if truthy (a_output_processed_ids a) then
                    match env_open e (st_trace batch.2) f with
                    | None =>
                        run = (report,
                               set_id_files
                                 (<[f := elements selection.1.2]> (st_id_files batch.2))
                                 batch.2)
                    | Some _ => run = (Exit 1, batch.2)
                    end
                  else run = (report, batch.2)
              end
          end
      end
  end.
Proof.
  cbv zeta. unfold main.
  destruct (setup_directories st) as [st0|]; [|done].
  destruct config as [prompt_template|]; [|done]. cbv zeta.
  destruct (search_arxiv e _ _ _ _ _ st0) as [[err|papers] st1]; cbn [fst snd]; [done|].
  destruct papers as [|p papers]; [done|].
  pose proof (select_papers_from_start e a (read_processed_ids a st0)
                (max_process_count a) (p :: papers) st1) as (_ & _ & _ & Hids & _).
  destruct (select_papers e a _ _ (p :: papers) 0 [] ∅ st1)
    as [[[n selected] newly] st2].
  cbn [fst snd] in Hids |- *.
  destruct selected as [|q selected]; [done|].
  destruct (process_papers e prompt_template _ a _ 0 (q :: selected) st2)
    as [bs st3].
  cbn [fst snd].
  rewrite (bool_decide_eq_true_2 (newly ≠ ∅)) by (rewrite Hids; set_solver).
  rewrite andb_true_r.
  destruct (truthy (a_output_processed_ids a)); [|done].
  by destruct (env_open e (st_trace st3) _).
Qed.

Lemma main_tweets e config a st :
  let evs := new_events st (main e config a st).2 in
  (length (tweet_results evs) ≤ 1)%nat
  ∧ (a_skip_twitter a = true → tweet_results evs = []).
Proof.
  assert (∀ st' evs, grows st st' evs → tweet_results evs = [] →
            (length (tweet_results (new_events st st')) ≤ 1)%nat
            ∧ (a_skip_twitter a = true → tweet_results (new_events st st') = []))
    as Hquiet.
  { intros st' evs Hg Hev. rewrite (grows_new_events _ _ _ Hg), Hev.
    split; [simpl; lia|done]. }
  pose proof (main_cases e config a st) as Hrun. cbv zeta in Hrun |- *.
  destruct (setup_directories st) as [st0|] eqn:Hsetup;
    [|rewrite Hrun; by eapply Hquiet; [apply grows_refl|]].
  apply setup_directories_inv in Hsetup as [Htr0 _].
  assert (grows st st0 []) as Hg0 by (unfold grows; by rewrite Htr0, app_nil_r).
  destruct config as [prompt_template|]; [|rewrite Hrun; by eapply Hquiet].
  assert (grows st (search_arxiv e (a_keywords a) (a_max_results a) (a_use_or a)
                      (a_since_timestamp a) (a_last_paper_id a) st0).2 [EvSearch])
    as Hg1.
  { unfold search_arxiv, grows. repeat case_match; simpl; by rewrite Htr0. }
  destruct (search_arxiv e _ _ _ _ _ st0) as [[err|papers] st1];
    cbn [fst snd] in Hg1, Hrun; [rewrite Hrun; by eapply Hquiet|].
  pose proof (select_papers_selection_step e a (read_processed_ids a st0)
                (max_process_count a) papers 0 [] ∅ st1) as [(evs2 & Hg2 & Hev2) _].
  apply selection_no_tweet in Hev2.
  pose proof (grows_trans _ _ _ _ _ Hg1 Hg2) as Hg12.
  destruct (select_papers e a _ _ papers 0 [] ∅ st1) as [[[n selected] newly] st2].
  cbn [fst snd] in Hg2, Hg12, Hrun.
  destruct selected as [|q selected].
  { rewrite Hrun. eapply Hquiet; [exact Hg12|]. by rewrite tweet_results_app, Hev2. }
  pose proof (process_papers_tweets e prompt_template (logs_dir a) a (q :: selected) st2)
    as Htweets.
  destruct (process_papers_grows e prompt_template (logs_dir a) a
              (Z.of_nat (length (q :: selected))) 0 (q :: selected) st2) as [evs3 Hg3].
  cbv zeta in Htweets. rewrite (grows_new_events _ _ _ Hg3) in Htweets.
  destruct (process_papers e prompt_template _ a _ 0 (q :: selected) st2)
    as [bs st3].
  cbn [fst snd] in Hg3, Hrun.
  pose proof (grows_trans _ _ _ _ _ Hg12 Hg3) as Hg.
  assert (st_trace (main e (Some prompt_template) a st).2 = st_trace st3) as Htr.
  { destruct (truthy (a_output_processed_ids a)); [|by rewrite Hrun].
    destruct (env_open e (st_trace st3) _); by rewrite Hrun. }
  rewrite (grows_new_events _ _ _ (grows_same_trace _ _ _ _ Htr Hg)).
  by rewrite !tweet_results_app, Hev2.
Qed.

(** X8. When [main] runs to its end, the [processed_count] it logs is the
    number of papers it handed to [process_paper], whatever each call
    returned; it is positive and within the cap; and [twitter_posted] is
    true exactly when [--skip-twitter] is not given. *)
Theorem completed_run_reports_the_selection
    e config a st processed_count twitter_posted successes st' :
  main e config a st
  = (Completed processed_count twitter_posted successes, st') →
  processed_count = Z.of_nat (length successes)
  ∧ 0 < processed_count ≤ (if a_test_mode a then 1 else a_max_process a)
  ∧ twitter_posted = negb (a_skip_twitter a).
Proof.
  pose proof (main_cases e config a st) as Hrun. cbv zeta in Hrun.
  destruct (setup_directories st) as [st0|]; [|by rewrite Hrun].
  destruct config as [prompt_template|]; [|by rewrite Hrun].
  destruct (search_arxiv e _ _ _ _ _ st0) as [[err|papers] st1];
    cbn [fst snd] in Hrun; [by rewrite Hrun|].
  pose proof (select_papers_from_start e a (read_processed_ids a st0)
                (max_process_count a) papers st1) as (_ & Hn & Hcap & _).
  destruct (select_papers e a _ _ papers 0 [] ∅ st1) as [[[n selected] newly] st2].
  cbn [fst snd] in Hn, Hcap, Hrun.
  destruct selected as [|q selected]; [by rewrite Hrun|].
  pose proof (process_papers_length e prompt_template (logs_dir a) a
                (Z.of_nat (length (q :: selected))) 0 (q :: selected) st2) as Hlen.
  destruct (process_papers e prompt_template _ a _ 0 (q :: selected) st2)
    as [bs st3].
  cbn [fst snd] in Hlen, Hrun.
  rewrite (twitter_posted_from_last a _ 0 (q :: selected)) in Hrun
    by first [done|lia].
  assert (main e (Some prompt_template) a st
            = (Completed processed_count twitter_posted successes, st') →
          n = processed_count ∧ negb (a_skip_twitter a) = twitter_posted
          ∧ bs = successes) as Hsame.
  { destruct (truthy (a_output_processed_ids a));
      [destruct (env_open e (st_trace st3) _)|]; rewrite Hrun; intros [= ? ? ?]; done. }
  intros Hdone. destruct (Hsame Hdone) as (<- & <- & <-).
  split; [by rewrite Hlen|].
  unfold max_process_count in Hcap.
  split; [simpl length in *; lia|done].
Qed.

Lemma completed_run_witness :
  (1 : Z) = Z.of_nat (length [false]) ∧ 0 < 1 ≤ 9999 ∧ true = negb false.
Proof.
  apply (completed_run_reports_the_selection Scenario.env_tweet_down
           (Some Scenario.template) (Scenario.cli false) Scenario.st_fresh 1 true
           [false]
           (main Scenario.env_tweet_down (Some Scenario.template) (Scenario.cli false)
              Scenario.st_fresh).2).
  vm_compute. reflexivity.
Defined.

Lemma main_run_inv e config a st :
  let run := main e config a st in
  (∃ evs, grows st run.2 evs ∧ Forall (λ ev, is_pipeline ev = true) evs)
  ∧ records_grow st run.2
  ∧ dl_grows st run.2
  ∧ st_timestamps_file run.2 = st_timestamps_file st
  ∧ (∀ f, a_output_processed_ids a ≠ Some f →
       st_id_files run.2 !! f = st_id_files st !! f).
Proof.
  assert (∀ st', downloader_step st st' →
            (∃ evs, grows st st' evs ∧ Forall (λ ev, is_pipeline ev = true) evs)
            ∧ records_grow st st' ∧ dl_grows st st'
            ∧ st_timestamps_file st' = st_timestamps_file st
            ∧ (∀ f, a_output_processed_ids a ≠ Some f →
                 st_id_files st' !! f = st_id_files st !! f)) as Hstep.
  { intros st' (Hev & Hr & Hd & Hi & Ht). repeat split; try done; try apply Hr.
    intros f _. by rewrite Hi. }
  pose proof (main_cases e config a st) as Hrun. cbv zeta in Hrun |- *.
  destruct (setup_directories st) as [st0|] eqn:Hsetup;
    [|rewrite Hrun; apply Hstep, downloader_step_refl].
  apply setup_directories_step in Hsetup as H0.
  destruct config as [prompt_template|]; [|rewrite Hrun; by apply Hstep].
  pose proof (search_arxiv_downloader_step e (a_keywords a) (a_max_results a)
                (a_use_or a) (a_since_timestamp a) (a_last_paper_id a) st0) as H1.
  destruct (search_arxiv e _ _ _ _ _ st0) as [[err|papers] st1];
    cbn [fst snd] in H1, Hrun.
  { rewrite Hrun. apply Hstep. by eapply downloader_step_trans. }
  pose proof (downloader_step_trans _ _ _ H0 H1) as H01.
  pose proof (select_papers_selection_step e a (read_processed_ids a st0)
                (max_process_count a) papers 0 [] ∅ st1) as H2.
  destruct (select_papers e a _ _ papers 0 [] ∅ st1) as [[[n selected] newly] st2].
  cbn [fst snd] in H2, Hrun. apply selection_downloader_step in H2.
  pose proof (downloader_step_trans _ _ _ H01 H2) as H02.
  destruct selected as [|q selected]; [rewrite Hrun; by apply Hstep|].
  pose proof (process_papers_downloader_step e prompt_template (logs_dir a) a
                (Z.of_nat (length (q :: selected))) 0 (q :: selected) st2) as H3.
  destruct (process_papers e prompt_template _ a _ 0 (q :: selected) st2)
    as [bs st3].
  cbn [fst snd] in H3, Hrun.
  pose proof (downloader_step_trans _ _ _ H02 H3) as H03.
  destruct (truthy (a_output_processed_ids a)) eqn:Hout;
    [|rewrite Hrun; by apply Hstep].
  destruct (env_open e (st_trace st3) _); [rewrite Hrun; by apply Hstep|].
  rewrite Hrun. destruct (Hstep _ H03) as (Hev & Hr & Hd & Ht & Hi). cbn [snd].
  split; [done|]. split; [done|]. split; [done|]. split; [done|].
  intros f Hf. cbn [st_id_files set_id_files].
  rewrite lookup_insert_ne; [by apply Hi|].
  destruct (a_output_processed_ids a) as [[|c f0]|]; simpl in Hout; try done.
  simpl. congruence.
Qed.

(** X9. A run of [arxiv_downloader.py] emits only events of the pipeline,
    and when it ends every marker, every publish log and every file of the
    download directory that existed before still exists; the watermark
    file is untouched, and no id file is written but the one named by
    [--output-processed-ids]. *)
Theorem run_loses_no_record e config a st :
  let run := main e config a st in
  (∃ evs, grows st run.2 evs ∧ Forall (λ ev, is_pipeline ev = true) evs)
  ∧ records_grow st run.2
  ∧ dl_grows st run.2
  ∧ st_timestamps_file run.2 = st_timestamps_file st
  ∧ (∀ f, a_output_processed_ids a ≠ Some f →
       st_id_files run.2 !! f = st_id_files st !! f).
Proof. apply main_run_inv. Qed.

(** X10. The exit status of [arxiv_downloader.py] is 1 when the download
    directory cannot be set up, when [config.yaml] does not load and when
    the search raises.  Once the search has returned, the status is 1
    exactly when papers were selected, [--output-processed-ids] names a
    file and opening that file raises after the last paper; in every other
    case it is 0: no failure of a download, an extraction, a summary or a
    post changes it. *)
Theorem returncode_ignores_paper_failures e config a st :
  let run := main e config a st in
  match setup_directories st with
  | None => returncode run.1 = 1
  | Some st0 =>
      match config with
      | None => returncode run.1 = 1
      | Some prompt_template =>
          let search :=
            search_arxiv e (a_keywords a) (a_max_results a) (a_use_or a)
              (a_since_timestamp a) (a_last_paper_id a) st0 in
          match search.1 with
          | inl _ => returncode run.1 = 1
          | inr papers =>
              let selection :=
                select_papers e a (read_processed_ids a st0) (max_process_count a)
                  papers 0 [] ∅ search.2 in
              let selected := selection.1.1.2 in
              let batch :=
                process_papers e prompt_template (logs_dir a) a
                  (Z.of_nat (length selected)) 0 selected selection.2 in
              let write_fails :=
                bool_decide (selected ≠ [])
                && truthy (a_output_processed_ids a)
                && bool_decide
                     (is_Some (env_open e (st_trace batch.2)
                                 (default [] (a_output_processed_ids a)))) in
              st_trace run.2 = st_trace batch.2
              ∧ returncode run.1 = if write_fails then 1 else 0
          end
      end
  end.
Proof.
  pose proof (main_cases e config a st) as Hrun. cbv zeta in Hrun |- *.
  destruct (setup_directories st) as [st0|]; [|by rewrite Hrun].
  destruct config as [prompt_template|]; [|by rewrite Hrun].
  destruct (search_arxiv e _ _ _ _ _ st0) as [[err|papers] st1];
    cbn [fst snd] in Hrun |- *; [by rewrite Hrun|].
  destruct (select_papers e a _ _ papers 0 [] ∅ st1) as [[[n selected] newly] st2].
  cbn [fst snd] in Hrun |- *.
  destruct selected as [|q selected]; [by rewrite Hrun|].
  destruct (process_papers e prompt_template _ a _ 0 (q :: selected) st2)
    as [bs st3].
  cbn [fst snd] in Hrun |- *.
  rewrite (bool_decide_eq_true_2 (q :: selected ≠ [])) by done. cbn [andb].
  destruct (truthy (a_output_processed_ids a)); [|by rewrite Hrun].
  cbn [andb].
  destruct (env_open e (st_trace st3) _) as [msg|]; rewrite Hrun; cbn [fst snd].
  - by rewrite bool_decide_eq_true_2.
  - rewrite bool_decide_eq_false_2; [done|]. by intros [? ?].
Qed.

(** X11. [--force-download] changes nothing: a run with the flag is the
    run without it, so a PDF already in the download directory is never
    fetched again. *)
Theorem force_download_flag_is_ignored e config b a st :
  main e config (set_force_download b a) st = main e config a st.
Proof.
  unfold main.
  destruct (setup_directories st) as [st0|]; [|done].
  destruct config as [prompt_template|]; [|done].
  cbv zeta.
  change (a_keywords (set_force_download b a)) with (a_keywords a).
  change (a_max_results (set_force_download b a)) with (a_max_results a).
  change (a_use_or (set_force_download b a)) with (a_use_or a).
  change (a_since_timestamp (set_force_download b a)) with (a_since_timestamp a).
  change (a_last_paper_id (set_force_download b a)) with (a_last_paper_id a).
  change (max_process_count (set_force_download b a)) with (max_process_count a).
  change (logs_dir (set_force_download b a)) with (logs_dir a).
  change (read_processed_ids (set_force_download b a) st0)
    with (read_processed_ids a st0).
  change (a_output_processed_ids (set_force_download b a))
    with (a_output_processed_ids a).
  destruct (search_arxiv e _ _ _ _ _ st0) as [[err|papers] st1]; [done|].
  destruct papers as [|p papers]; [done|].
  rewrite select_papers_force_download.
  destruct (select_papers e a _ _ (p :: papers) 0 [] ∅ st1)
    as [[[n selected] newly] st2].
  destruct selected as [|q selected]; [done|].
  rewrite process_papers_force_download, twitter_posted_force_download.
  done.
Qed.

(** X12. A run that reaches its end with a non-empty
    [--output-processed-ids] has written that file, and its lines are,
    without repetition, the ids of exactly the papers the selection handed
    to the loop over [process_paper]: one for each value of [success]
    whatever that value is, so failed papers are listed too; each of these
    papers has its PDF in the download directory. *)
Theorem output_ids_are_the_selected_papers
    e config a st processed_count twitter_posted successes st' f :
  main e config a st
  = (Completed processed_count twitter_posted successes, st') →
  a_output_processed_ids a = Some f →
  f ≠ [] →
  ∃ st0 prompt_template papers st1,
    setup_directories st = Some st0
    ∧ config = Some prompt_template
    ∧ search_arxiv e (a_keywords a) (a_max_results a) (a_use_or a)
        (a_since_timestamp a) (a_last_paper_id a) st0 = (inr papers, st1)
    ∧ let selection :=
        select_papers e a (read_processed_ids a st0) (max_process_count a)
          papers 0 [] ∅ st1 in
      let selected := selection.1.1.2 in
      let batch :=
        process_papers e prompt_template (logs_dir a) a
          (Z.of_nat (length selected)) 0 selected selection.2 in
      successes = batch.1
      ∧ length successes = length selected
      ∧ ∃ ids,
          st_id_files st' !! f = Some ids
          ∧ NoDup ids
          ∧ (∀ arxiv_id, arxiv_id ∈ ids ↔ arxiv_id ∈ extract_arxiv_id <$> selected)
          ∧ Forall (λ p, dl_exists (download_name p) st' = true) selected.
Proof.
  intros Hdone Hout Hf.
  pose proof (main_cases e config a st) as Hrun. cbv zeta in Hrun.
  rewrite Hdone, Hout in Hrun.
  assert (truthy (Some f) = true) as Htruthy by (by destruct f).
  rewrite Htruthy in Hrun. cbn [default from_option id] in Hrun.
  destruct (setup_directories st) as [st0|]; [|done].
  destruct config as [prompt_template|]; [|done].
  destruct (search_arxiv e (a_keywords a) (a_max_results a) (a_use_or a)
              (a_since_timestamp a) (a_last_paper_id a) st0)
    as [[err|papers] st1] eqn:Hsearch; cbn [fst snd] in Hrun; [done|].
  exists st0, prompt_template, papers, st1.
  split; [done|]. split; [done|]. split; [done|]. cbv zeta.
  pose proof (select_papers_from_start e a (read_processed_ids a st0)
                (max_process_count a) papers st1) as (_ & _ & _ & Hids & Hfiles).
  destruct (select_papers e a _ _ papers 0 [] ∅ st1) as [[[n selected] newly] st2].
  cbn [fst snd] in Hids, Hfiles, Hrun |- *.
  destruct selected as [|q selected]; [done|].
  pose proof (process_papers_length e prompt_template (logs_dir a) a
                (Z.of_nat (length (q :: selected))) 0 (q :: selected) st2) as Hlen.
  pose proof (process_papers_downloader_step e prompt_template (logs_dir a) a
                (Z.of_nat (length (q :: selected))) 0 (q :: selected) st2)
    as (_ & _ & Hdl & _).
  destruct (process_papers e prompt_template _ a _ 0 (q :: selected) st2)
    as [bs st3].
  cbn [fst snd] in Hlen, Hdl, Hrun |- *.
  destruct (env_open e (st_trace st3) f); [done|].
  injection Hrun as _ _ -> ->.
  split; [done|]. split; [done|].
  exists (elements newly).
  split; [simpl; by rewrite lookup_insert_eq|].
  split; [apply NoDup_elements|].
  split; [intros arxiv_id; rewrite elem_of_elements, Hids; set_solver|].
  eapply Forall_impl; [exact Hfiles|]. intros x Hx. by apply Hdl.
Qed.

Lemma output_ids_witness :
  ∃ st0 prompt_template papers st1,
    setup_directories Scenario.st_fresh = Some st0
    ∧ Some Scenario.template = Some prompt_template
    ∧ search_arxiv Scenario.env_api_down
        (a_keywords (Scenario.cli_out false)) (a_max_results (Scenario.cli_out false))
        (a_use_or (Scenario.cli_out false)) (a_since_timestamp (Scenario.cli_out false))
        (a_last_paper_id (Scenario.cli_out false)) st0 = (inr papers, st1)
    ∧ let selection :=
        select_papers Scenario.env_api_down (Scenario.cli_out false)
          (read_processed_ids (Scenario.cli_out false) st0)
          (max_process_count (Scenario.cli_out false)) papers 0 [] ∅ st1 in
      let selected := selection.1.1.2 in
      let batch :=
        process_papers Scenario.env_api_down prompt_template
          (logs_dir (Scenario.cli_out false)) (Scenario.cli_out false)
          (Z.of_nat (length selected)) 0 selected selection.2 in
      [false] = batch.1
      ∧ length [false] = length selected
      ∧ ∃ ids,
          st_id_files
            (main Scenario.env_api_down (Some Scenario.template)
               (Scenario.cli_out false) Scenario.st_fresh).2
            !! of_ascii "new_ids.txt" = Some ids
          ∧ NoDup ids
          ∧ (∀ arxiv_id, arxiv_id ∈ ids ↔ arxiv_id ∈ extract_arxiv_id <$> selected)
          ∧ Forall (λ p, dl_exists (download_name p)
                           (main Scenario.env_api_down (Some Scenario.template)
                              (Scenario.cli_out false) Scenario.st_fresh).2 = true)
              selected.
Proof.
  apply (output_ids_are_the_selected_papers Scenario.env_api_down
           (Some Scenario.template) (Scenario.cli_out false) Scenario.st_fresh 1 true
           [false]
           (main Scenario.env_api_down (Some Scenario.template)
              (Scenario.cli_out false) Scenario.st_fresh).2 (of_ascii "new_ids.txt")).
  - vm_compute. reflexivity.
  - reflexivity.
  - discriminate.
Defined.

(** X19. A run of [arxiv_downloader.py] hands at most one text to
    Twitter, whatever the number of papers, and none with
    [--skip-twitter]. *)
Theorem run_posts_at_most_once e config a st :
  let evs := new_events st (main e config a st).2 in
  (length (tweet_results evs) ≤ 1)%nat
  ∧ (a_skip_twitter a = true → tweet_results evs = []).
Proof. apply main_tweets. Qed.

End DownloaderMain.

(** ** The files a paper leaves behind *)

Section Artifacts.
Import Pdf Downloader.

Lemma extract_text_files e name st text_path st' :
  extract_text_from_pdf e name st = (Some text_path, st') →
  text_path = splitext_root name ++ of_ascii ".txt"
  ∧ is_Some (st_text st' !! text_path)
  ∧ st_summary st' = st_summary st.
Proof.
  unfold extract_text_from_pdf. cbv zeta. intros H.
  destruct (dl_files st ≫= _) as [content|]; [|done].
  destruct (env_extract e _ content) as [text|]; [|done].
  injection H as <- <-. split; [done|]. split; [|done].
  cbn [st_text set_text]. by rewrite lookup_insert_eq.
Qed.

Lemma generate_summary_files e text prompt_template title arxiv_id st sm st' :
  Summarizer.generate_summary e text prompt_template title (Some arxiv_id) st
  = (Some sm, st') →
  truthy (Some arxiv_id) = true →
  st_text st' = st_text st
  ∧ st_summary st' !! (arxiv_id ++ of_ascii "_summary.json") = Some sm
  ∧ s_arxiv_id sm = Some arxiv_id
  ∧ s_title sm = title.
Proof.
  unfold Summarizer.generate_summary. cbv zeta. intros H Hid. rewrite Hid in H.
  change (Z.to_nat Summarizer.max_retries) with 3%nat in H.
  destruct (Summarizer.call_with_retry 3 e _ 0 2 st) as [r st1] eqn:Hloop.
  apply call_with_retry_run in Hloop as (_ & _ & _ & _ & _ & Htext & _).
  destruct r as [[content|]| | |]; try done.
  injection H as <- <-. cbn [st_text st_summary set_summary default s_arxiv_id s_title].
  by rewrite lookup_insert_eq.
Qed.

Lemma post_thread_files e sm log_dir st :
  st_text (Twitter.post_thread e sm log_dir st).2 = st_text st
  ∧ st_summary (Twitter.post_thread e sm log_dir st).2 = st_summary st.
Proof. unfold Twitter.post_thread. by repeat case_match. Qed.

Lemma process_paper_files e prompt_template log_dir p force skip st :
  let run := process_paper e prompt_template log_dir p force skip st in
  bool_decide (is_Some (st_processed st !! download_id p)) && negb force = false →
  run.1 = true →
  is_Some (st_text run.2 !! (download_id p ++ of_ascii ".txt"))
  ∧ ∃ sm, st_summary run.2 !! (download_id p ++ of_ascii "_summary.json") = Some sm
          ∧ s_arxiv_id sm = Some (download_id p)
          ∧ s_title sm = p_title p.
Proof.
  intros run Hnew. subst run. unfold process_paper.
  destruct (download_pdf e p false st) as [[[ok path] arxiv_id] st1] eqn:Hdl.
  apply download_pdf_run in Hdl as (-> & Hpath & Hk1 & _).
  destruct ok; simpl; [|done].
  rewrite (Hpath eq_refl). simpl (default _ _).
  destruct Hk1 as (Hp1 & _). rewrite Hp1, Hnew.
  destruct (extract_text_from_pdf e (download_name p) _) as [[text_path|] st3] eqn:Hex;
    [|done].
  apply extract_text_files in Hex as (-> & Htext3 & _).
  fold (download_id p) in Htext3 |- *.
  destruct (Summarizer.generate_summary e _ prompt_template (p_title p)
              (Some (download_id p)) st3) as [[sm|] st4] eqn:Hsum; [|done].
  pose proof Hsum as Hpost.
  apply generate_summary_run in Hpost as (_ & _ & _ & _ & _ & content & _ & _ & Hpost).
  apply generate_summary_files in Hsum as (Htext4 & Hsum4 & Hid & Htitle);
    [|apply truthy_download_id].
  simpl. rewrite Hpost. simpl.
  destruct skip; simpl.
  - intros _. rewrite Htext4. split; [done|]. by exists sm.
  - match goal with
    | |- context [Twitter.post_thread e ?s log_dir st4] =>
        pose proof (post_thread_files e s log_dir st4) as [Htext5 Hsum5];
        destruct (Twitter.post_thread e s log_dir st4) as [ok st5]
    end.
    cbn [snd] in Htext5, Hsum5.
    destruct ok; simpl; [|done].
    intros _. rewrite Htext5, Hsum5, Htext4. split; [done|]. by exists sm.
Qed.

(** X13. When [process_paper] returns [True] for a paper that had no marker
    (or with [force_process]), everything the later stages and the page
    generator read exists under the one id of the paper: the PDF in the
    download directory, the extracted text, the summary, a publish log
    without error (holding one posted unit, or none when posting was
    skipped) and the marker. *)
Theorem successful_run_leaves_every_file
    e prompt_template log_dir p force skip st :
  let run := process_paper e prompt_template log_dir p force skip st in
  let arxiv_id := download_id p in
  run.1 = true →
  force = true ∨ st_processed st !! arxiv_id = None →
  dl_exists (download_name p) run.2 = true
  ∧ is_Some (st_text run.2 !! (arxiv_id ++ of_ascii ".txt"))
  ∧ (∃ sm, st_summary run.2 !! (arxiv_id ++ of_ascii "_summary.json") = Some sm
           ∧ s_arxiv_id sm = Some arxiv_id ∧ s_title sm = p_title p)
  ∧ (∃ record, st_logs run.2 !! log_key log_dir arxiv_id = Some record
               ∧ l_error record = None
               ∧ length (l_tweets record) = if skip then 0%nat else 1%nat)
  ∧ is_Some (st_processed run.2 !! arxiv_id).
Proof.
  intros run arxiv_id Hok Hnew. subst arxiv_id.
  assert (bool_decide (is_Some (st_processed st !! download_id p)) && negb force = false)
    as Hcond.
  { destruct Hnew as [->|Hnone]; [apply andb_false_r|].
    rewrite bool_decide_eq_false_2; [done|]. rewrite Hnone. by intros [? ?]. }
  pose proof (process_paper_files e prompt_template log_dir p force skip st Hcond Hok)
    as [Htext Hsum].
  pose proof (process_paper_after_download e prompt_template log_dir p force skip st)
    as [Hsame Hdl].
  split.
  { rewrite (same_dl_exists _ _ _ Hsame). by apply download_pdf_present, Hdl. }
  split; [done|]. split; [done|].
  subst run.
  destruct (process_paper e prompt_template log_dir p force skip st) as [b st'] eqn:Hrun.
  cbn [fst snd] in *. subst b.
  apply process_paper_run in Hrun as (evs & _ & Hrun).
  inversion Hrun; subst; clear Hrun.
  - exfalso. rewrite bool_decide_eq_true_2 in Hcond by done. done.
  - match goal with
    | Hm : st_processed st' = _, Hl : st_logs st' = _, Ht : l_tweets _ = _ |- _ =>
        rewrite Hm, Hl, !lookup_insert_eq; split; [|done];
        eexists; split; [done|]; split; [done|]; by rewrite Ht
    end.
  - match goal with
    | Hm : st_processed st' = _, Hl : st_logs st' = _, Ht : l_tweets _ = _ |- _ =>
        rewrite Hm, Hl, !lookup_insert_eq; split; [|done];
        eexists; split; [done|]; split; [done|]; by rewrite Ht
    end.
Qed.

Lemma successful_run_witness :
  dl_exists (download_name Scenario.paper1)
    (process_paper Scenario.env_ok Scenario.template Scenario.logs Scenario.paper1
       false false Scenario.st_ready).2 = true.
Proof.
  apply (successful_run_leaves_every_file Scenario.env_ok Scenario.template
           Scenario.logs Scenario.paper1 false false Scenario.st_ready).
  - vm_compute. reflexivity.
  - right. vm_compute. reflexivity.
Defined.

End Artifacts.

(** ** One keyword set of the orchestrator *)

Section SearchSet.
Import Pdf Downloader Orchestrator.

Lemma temp_file_ne_new search_set_id :
  of_ascii "./temp_processed_ids_" ++ search_set_id ++ of_ascii ".txt"
  ≠ of_ascii "./new_processed_ids_" ++ search_set_id ++ of_ascii ".txt".
Proof. intros H. vm_compute in H. discriminate H. Qed.

Lemma web_runs_app evs1 evs2 : web_runs (evs1 ++ evs2) = web_runs evs1 ++ web_runs evs2.
Proof.
  induction evs1 as [|ev evs1 IH]; [done|].
  destruct ev; simpl; by rewrite ?IH.
Qed.

Lemma web_runs_pipeline evs :
  Forall (λ ev, is_pipeline ev = true) evs → web_runs evs = [].
Proof.
  induction 1 as [|ev evs Hev _ IH]; [done|]. by destruct ev.
Qed.

(** [run_search_set] by cases, with its subprocess named. *)
Lemma run_search_set_outcome e cfg keywords output_dir max_results tweet_enabled
    timestamps processed_ids search_set_id st :
  let run :=
    run_search_set e cfg keywords output_dir max_results tweet_enabled
      timestamps processed_ids search_set_id st in
  let temp_file :=
    of_ascii "./temp_processed_ids_" ++ search_set_id ++ of_ascii ".txt" in
  let new_file :=
    of_ascii "./new_processed_ids_" ++ search_set_id ++ of_ascii ".txt" in
  let log_dir :=
    of_ascii "./logs/" ++ join (of_ascii "_") (map safe_keyword keywords) in
  let setup := setup_pdf_directory e keywords st in
  (∀ f, f ≠ temp_file → f ≠ new_file → st_id_files run.2 !! f = st_id_files st !! f)
  ∧ match setup.1 with
    | inl err => run = (Raise err, timestamps, setup.2) ∧ new_events st run.2 = []
    | inr _ =>
        match write_processed_ids_file e processed_ids search_set_id setup.2 with
        | inl err => run = (Raise err, timestamps, setup.2) ∧ new_events st run.2 = []
        | inr (file, st1) =>
            let downloader :=
              Downloader.main e (Some (c_prompt_template cfg))
                (cmd keywords max_results tweet_enabled timestamps search_set_id file)
                st1 in
            (processed_ids ≠ ∅ → st_id_files run.2 !! temp_file = None)
            ∧ if Downloader.returncode downloader.1 =? 0 then
                let rc := env_web e (st_trace downloader.2) log_dir output_dir in
                ∃ ids,
                  run.1 = (Return (rc =? 0) ids,
                           <[search_set_id := start_watermark e st]> timestamps)
                  ∧ new_events st run.2
                    = new_events st1 downloader.2 ++ [EvWebGenerator output_dir rc]
                  ∧ st_id_files run.2 !! new_file = None
              else
                run.1 = (Return false ∅, timestamps)
                ∧ new_events st run.2 = new_events st1 downloader.2
        end
    end.
Proof.
  intros run temp_file new_file log_dir setup. subst run setup.
  unfold run_search_set.
  destruct (setup_pdf_directory e keywords st) as [[err|pdf_dir] st0] eqn:Hsetup;
    apply setup_pdf_directory_inv in Hsetup as [Htr0 [Hi0 Ht0]]; cbn [fst snd].
  { split; [intros f _ _; by rewrite Hi0|]. split; [done|].
    apply grows_new_events. unfold grows. by rewrite Htr0, app_nil_r. }
  cbv zeta. rewrite Htr0. fold (start_watermark e st). fold temp_file new_file log_dir.
  destruct (write_processed_ids_file e processed_ids search_set_id st0)
    as [err|[file st1]] eqn:Hwrite.
  { cbn [fst snd]. split; [intros f _ _; by rewrite Hi0|]. split; [done|].
    apply grows_new_events. unfold grows. by rewrite Htr0, app_nil_r. }
  apply write_processed_ids_file_inv in Hwrite as (Htr1 & _ & Hi1 & Hfile & Hcases).
  cbv zeta in Hi1, Hfile, Hcases. fold temp_file in Hi1, Hfile, Hcases.
  pose proof (main_run_inv e (Some (c_prompt_template cfg))
                (cmd keywords max_results tweet_enabled timestamps search_set_id file)
                st1) as ((evs & Hg2 & _) & _ & _ & _ & Hi2).
  cbv zeta in Hg2, Hi2.
  change (a_output_processed_ids
            (cmd keywords max_results tweet_enabled timestamps search_set_id file))
    with (Some new_file) in Hi2.
  destruct (Downloader.main e (Some (c_prompt_template cfg)) _ st1)
    as [result st2].
  cbn [fst snd] in Hg2, Hi2 |- *.
  rewrite (grows_new_events _ _ _ Hg2).
  set (st3 := match file with
              | Some f => set_id_files (delete f (st_id_files st2)) st2
              | None => st2
              end).
  assert (∀ f, f ≠ temp_file → f ≠ new_file →
            st_id_files st2 !! f = st_id_files st !! f) as Hi02.
  { intros f Hf1 Hf2. rewrite Hi2 by congruence. rewrite Hi1 by done. by rewrite Hi0. }
  assert (st_trace st3 = st_trace st2
          ∧ (∀ f, f ≠ temp_file → f ≠ new_file →
               st_id_files st3 !! f = st_id_files st !! f)
          ∧ (processed_ids ≠ ∅ → st_id_files st3 !! temp_file = None))
    as (Htr3 & Hi3 & Htemp3).
  { subst st3. destruct Hcases as [->| ->]; cbn [st_trace st_id_files set_id_files].
    - split; [done|]. split; [done|]. intros Hne. by specialize (Hfile Hne).
    - split; [done|]. split; [|intros _; apply lookup_delete_eq].
      intros f Hf1 Hf2. rewrite lookup_delete_ne by done. by apply Hi02. }
  assert (grows st st3 evs) as Hg3.
  { unfold grows in *. rewrite Htr3, Hg2, Htr1, Htr0. done. }
  clearbody st3.
  destruct (Downloader.returncode result =? 0); cbn [negb]; cbv iota.
  2: { cbn [fst snd]. split; [exact Hi3|]. split; [exact Htemp3|].
       split; [done|]. by apply grows_new_events. }
  assert (∃ ids st4,
            match st_id_files st3 !! new_file with
            | Some lines =>
                (list_to_set lines,
                 set_id_files (delete new_file (st_id_files st3)) st3)
            | None => (∅, st3)
            end = (ids, st4)
            ∧ st_trace st4 = st_trace st3
            ∧ (∀ f, f ≠ new_file → st_id_files st4 !! f = st_id_files st3 !! f)
            ∧ st_id_files st4 !! new_file = None)
    as (ids & st4 & -> & Htr4 & Hi4 & Hnew4).
  { destruct (st_id_files st3 !! new_file) eqn:Hread; eexists _, _;
      (split; [done|]); cbn [st_trace st_id_files set_id_files].
    - split; [done|]. split; [|apply lookup_delete_eq].
      intros f Hf. by apply lookup_delete_ne.
    - by repeat split. }
  cbv zeta. rewrite Htr4, Htr3.
  set (rc := env_web e (st_trace st2) log_dir output_dir).
  assert (grows st (emit (EvWebGenerator output_dir rc) st4)
            (evs ++ [EvWebGenerator output_dir rc])) as Hg4.
  { unfold grows in *. cbn [st_trace emit]. rewrite Htr4, Hg3. by rewrite app_assoc. }
  assert ((∀ f, f ≠ temp_file → f ≠ new_file →
             st_id_files (emit (EvWebGenerator output_dir rc) st4) !! f
             = st_id_files st !! f)
          ∧ (processed_ids ≠ ∅ →
             st_id_files (emit (EvWebGenerator output_dir rc) st4) !! temp_file = None))
    as [Hframe Htemp].
  { cbn [st_id_files emit].
    split; [intros f Hf1 Hf2; rewrite Hi4 by done; by apply Hi3|].
    intros Hne. rewrite Hi4 by apply temp_file_ne_new. by apply Htemp3. }
  destruct (rc =? 0) eqn:Hrc; cbn [negb fst snd]; cbv iota;
    (split; [exact Hframe|]); (split; [exact Htemp|]); exists ids;
    (split; [done|]); (split; [by apply grows_new_events|done]).
Qed.

Lemma of_downloader_pipeline e config cmd st1 :
  Forall (λ ev, is_pipeline ev = true)
    (new_events st1 (Downloader.main e config cmd st1).2).
Proof.
  pose proof (main_run_inv e config cmd st1) as ((evs & Hg & Hev) & _).
  by rewrite (grows_new_events _ _ _ Hg).
Qed.

(** X14. [run_search_set] and its two subprocesses.  When
    [setup_pdf_directory] or the write of the temporary id file raises,
    the call raises and nothing has run.  Otherwise the downloader is run
    once, and its events hold no run of the page generator.  When the
    downloader exits with 0 the page generator is run once, as the last
    step; the watermark of the keyword set moves to the start of the run,
    whether or not the generator succeeds, and the result is [True]
    exactly when the generator returned 0.  When the downloader exits with
    another status the generator is not run, the result is
    [(False, set())] and the watermark stays. *)
Theorem generator_and_watermark_follow_the_downloader
    e cfg keywords output_dir max_results tweet_enabled timestamps processed_ids
    search_set_id st :
  let run :=
    run_search_set e cfg keywords output_dir max_results tweet_enabled
      timestamps processed_ids search_set_id st in
  let evs := new_events st run.2 in
  let log_dir :=
    of_ascii "./logs/" ++ join (of_ascii "_") (map safe_keyword keywords) in
  let setup := setup_pdf_directory e keywords st in
  match setup.1 with
  | inl err => run.1 = (Raise err, timestamps) ∧ evs = []
  | inr _ =>
      match write_processed_ids_file e processed_ids search_set_id setup.2 with
      | inl err => run.1 = (Raise err, timestamps) ∧ evs = []
      | inr (file, st1) =>
          let downloader :=
            Downloader.main e (Some (c_prompt_template cfg))
              (cmd keywords max_results tweet_enabled timestamps search_set_id file)
              st1 in
          let downloader_events := new_events st1 downloader.2 in
          web_runs downloader_events = []
          ∧ if Downloader.returncode downloader.1 =? 0 then
              let rc := env_web e (st_trace downloader.2) log_dir output_dir in
              evs = downloader_events ++ [EvWebGenerator output_dir rc]
              ∧ web_runs evs = [rc]
              ∧ (∃ ids, run.1.1 = Return (rc =? 0) ids)
              ∧ run.1.2 = <[search_set_id := start_watermark e st]> timestamps
            else
              evs = downloader_events
              ∧ web_runs evs = []
              ∧ run.1 = (Return false ∅, timestamps)
      end
  end.
Proof.
  intros run evs log_dir setup. subst evs.
  pose proof (run_search_set_outcome e cfg keywords output_dir max_results
                tweet_enabled timestamps processed_ids search_set_id st) as [_ Hrun].
  cbv zeta in Hrun. fold run setup log_dir in Hrun.
  destruct (setup.1) as [err|pdf_dir].
  { destruct Hrun as [-> ->]. done. }
  destruct (write_processed_ids_file e processed_ids search_set_id setup.2)
    as [err|[file st1]].
  { destruct Hrun as [-> ->]. done. }
  cbv zeta.
  pose proof (web_runs_pipeline _
                (of_downloader_pipeline e (Some (c_prompt_template cfg))
                   (cmd keywords max_results tweet_enabled timestamps search_set_id
                      file) st1)) as Hquiet.
  split; [exact Hquiet|].
  destruct Hrun as [_ Hrun].
  destruct (Downloader.returncode _ =? 0).
  - destruct Hrun as (ids & Hres & -> & _).
    split; [done|]. split; [by rewrite web_runs_app, Hquiet|].
    rewrite (surjective_pairing run.1) in Hres. injection Hres as -> ->.
    split; [by exists ids|done].
  - destruct Hrun as (Hres & ->). by rewrite Hquiet.
Qed.

(** X15. [run_search_set] touches no id file but its two scratch files:
    every other file, the persistent id list among them, is as before.
    When it returns, the file it wrote for [--processed-ids-file] is gone,
    and after a run of the page generator so is the file the downloader
    wrote for [--output-processed-ids]. *)
Theorem search_set_leaves_no_scratch_file
    e cfg keywords output_dir max_results tweet_enabled timestamps processed_ids
    search_set_id st :
  let run :=
    run_search_set e cfg keywords output_dir max_results tweet_enabled
      timestamps processed_ids search_set_id st in
  let temp_file :=
    of_ascii "./temp_processed_ids_" ++ search_set_id ++ of_ascii ".txt" in
  let new_file :=
    of_ascii "./new_processed_ids_" ++ search_set_id ++ of_ascii ".txt" in
  (∀ f, f ≠ temp_file → f ≠ new_file → st_id_files run.2 !! f = st_id_files st !! f)
  ∧ st_id_files run.2 !! processed_ids_path = st_id_files st !! processed_ids_path
  ∧ ∀ success ids,
      run.1.1 = Return success ids →
      (processed_ids ≠ ∅ → st_id_files run.2 !! temp_file = None)
      ∧ (web_runs (new_events st run.2) ≠ [] → st_id_files run.2 !! new_file = None).
Proof.
  intros run temp_file new_file.
  pose proof (run_search_set_outcome e cfg keywords output_dir max_results
                tweet_enabled timestamps processed_ids search_set_id st) as [Hframe Hrun].
  cbv zeta in Hframe, Hrun. fold run temp_file new_file in Hframe, Hrun.
  split; [exact Hframe|].
  split.
  { apply Hframe; intros E; symmetry in E;
      [by apply temp_file_ne in E|by apply new_file_ne in E]. }
  intros success ids Hres.
  destruct ((setup_pdf_directory e keywords st).1) as [err|pdf_dir].
  { destruct Hrun as [Hraise _]. rewrite Hraise in Hres. done. }
  destruct (write_processed_ids_file e processed_ids search_set_id _)
    as [err|[file st1]].
  { destruct Hrun as [Hraise _]. rewrite Hraise in Hres. done. }
  cbv zeta in Hrun. destruct Hrun as [Htemp Hrun].
  split; [exact Htemp|].
  destruct (Downloader.returncode _ =? 0).
  - by destruct Hrun as (ids' & _ & _ & Hnew).
  - destruct Hrun as (_ & ->).
    by rewrite (web_runs_pipeline _ (of_downloader_pipeline _ _ _ _)).
Qed.

(** X20. One call of [run_search_set] hands at most one text to Twitter,
    and none for a keyword set with [tweet_enabled] false. *)
Theorem search_set_posts_at_most_once
    e cfg keywords output_dir max_results tweet_enabled timestamps processed_ids
    search_set_id st :
  let run :=
    run_search_set e cfg keywords output_dir max_results tweet_enabled
      timestamps processed_ids search_set_id st in
  let evs := new_events st run.2 in
  (length (tweet_results evs) ≤ 1)%nat
  ∧ (tweet_enabled = false → tweet_results evs = []).
Proof.
  intros run evs. subst evs.
  pose proof (run_search_set_outcome e cfg keywords output_dir max_results
                tweet_enabled timestamps processed_ids search_set_id st) as [_ Hrun].
  cbv zeta in Hrun. fold run in Hrun.
  destruct ((setup_pdf_directory e keywords st).1) as [err|pdf_dir].
  { destruct Hrun as [_ ->]. simpl. split; [lia|done]. }
  destruct (write_processed_ids_file e processed_ids search_set_id _)
    as [err|[file st1]].
  { destruct Hrun as [_ ->]. simpl. split; [lia|done]. }
  destruct Hrun as [_ Hrun].
  destruct (main_tweets e (Some (c_prompt_template cfg))
              (cmd keywords max_results tweet_enabled timestamps search_set_id file)
              st1) as [Hone Hnone].
  cbv zeta in Hone, Hnone.
  change (a_skip_twitter
            (cmd keywords max_results tweet_enabled timestamps search_set_id file))
    with (negb tweet_enabled) in Hnone.
  assert (tweet_results (new_events st run.2)
          = tweet_results
              (new_events st1
                 (Downloader.main e (Some (c_prompt_template cfg))
                    (cmd keywords max_results tweet_enabled timestamps search_set_id
                       file) st1).2)) as ->.
  { destruct (Downloader.returncode _ =? 0).
    - destruct Hrun as (ids & _ & -> & _).
      rewrite tweet_results_app. cbn [tweet_results]. by rewrite app_nil_r.
    - by destruct Hrun as (_ & ->). }
  split; [exact Hone|]. intros ->. by apply Hnone.
Qed.

End SearchSet.

(** ** The id filter of the search *)

Section SearchFilter.
Import Pdf Downloader.

Lemma str_gtb_irrefl s : str_gtb s s = false.
Proof.
  induction s as [|c s IH]; [done|]. simpl. by rewrite N.ltb_irrefl.
Qed.

Lemma str_gtb_extension s c t : str_gtb (s ++ c :: t) s = true.
Proof.
  induction s as [|x s IH]; [done|]. simpl. by rewrite N.ltb_irrefl.
Qed.

(** X16. The id filter of [search_arxiv]: with a non-empty
    [last_paper_id] the result is the client's list, in its order,
    restricted to the papers whose id is greater than the bound as
    strings; the paper with the bound itself is dropped and any id that
    extends the bound (a later version) is kept.  The search is the only
    event. *)
Theorem id_filter_is_strict_and_keeps_order
    e keywords max_results use_or since_timestamp last_paper_id st results :
  env_search e (st_trace st) keywords max_results use_or since_timestamp = inr results →
  last_paper_id ≠ [] →
  let run :=
    search_arxiv e keywords max_results use_or since_timestamp (Some last_paper_id) st in
  run.2 = emit EvSearch st
  ∧ ∃ kept,
      run.1 = inr kept
      ∧ kept `sublist_of` results
      ∧ (∀ p, p ∈ kept ↔ p ∈ results ∧ str_gtb (extract_arxiv_id p) last_paper_id = true)
      ∧ (∀ p, extract_arxiv_id p = last_paper_id → p ∉ kept)
      ∧ (∀ p c t, p ∈ results → extract_arxiv_id p = last_paper_id ++ c :: t → p ∈ kept).
Proof.
  intros Hsearch Hne run. subst run. unfold search_arxiv. rewrite Hsearch.
  destruct last_paper_id as [|c0 bound]; [done|].
  cbn [truthy default fst snd]. split; [done|].
  eexists. split; [done|].
  split; [apply sublist_filter|].
  split; [intros p; by rewrite list_elem_of_filter, (comm and)|].
  split.
  - intros p Hid. rewrite list_elem_of_filter, Hid, str_gtb_irrefl. by intros [? _].
  - intros p c t Hin Hid. rewrite list_elem_of_filter, Hid. split; [|done].
    apply str_gtb_extension.
Qed.

Lemma id_filter_witness :
  (search_arxiv Scenario.env_ok [of_ascii "quantum"] 200 false None
     (Some (of_ascii "2401.12345")) Scenario.st_fresh).2
  = emit EvSearch Scenario.st_fresh.
Proof.
  apply (id_filter_is_strict_and_keeps_order Scenario.env_ok [of_ascii "quantum"] 200
           false None (of_ascii "2401.12345") Scenario.st_fresh [Scenario.paper1]).
  - reflexivity.
  - discriminate.
Defined.

End SearchFilter.

(** ** Where the downloads go *)

Section KeywordDirectory.
Import Pdf Downloader Orchestrator.

Lemma setup_pdf_directory_ok e keywords st pdf_dir :
  (setup_pdf_directory e keywords st).1 = inr pdf_dir →
  pdf_dir = generate_pdf_dir_name e keywords st
  ∧ st_dl (setup_pdf_directory e keywords st).2 = Some (DlLink pdf_dir)
  ∧ is_Some (st_pdf (setup_pdf_directory e keywords st).2 !! pdf_dir)
  ∧ ∀ dir, is_Some (st_pdf st !! dir) →
           st_pdf (setup_pdf_directory e keywords st).2 !! dir = st_pdf st !! dir.
Proof.
  unfold setup_pdf_directory. cbv zeta.
  set (pdf_dir0 := generate_pdf_dir_name e keywords st).
  set (st0 := match st_pdf st !! pdf_dir0 with
              | Some _ => st
              | None => set_pdf (<[pdf_dir0 := ∅]> (st_pdf st)) st
              end).
  assert (st_dl st0 = st_dl st) as Hdl0 by (subst st0; by case_match).
  assert (is_Some (st_pdf st0 !! pdf_dir0)) as Hdir0.
  { subst st0. destruct (st_pdf st !! pdf_dir0) eqn:Hdir; [by rewrite Hdir|].
    cbn [st_pdf set_pdf]. by rewrite lookup_insert_eq. }
  assert (∀ dir, is_Some (st_pdf st !! dir) → st_pdf st0 !! dir = st_pdf st !! dir)
    as Hkept.
  { intros dir Hsome. subst st0. destruct (st_pdf st !! pdf_dir0) eqn:Hdir; [done|].
    cbn [st_pdf set_pdf]. apply lookup_insert_ne. intros <-.
    rewrite Hdir in Hsome. by destruct Hsome. }
  clearbody st0.
  destruct (dl_path_exists st0); [destruct (dl_islink st0)|].
  - cbn [st_dl set_dl fst snd st_pdf]. intros [= <-]. by repeat split.
  - destruct (st_dl st0) as [[target|files|]|]; cbn [st_dl set_dl fst snd st_pdf];
      try done; intros [= <-]; by repeat split.
  - destruct (st_dl st0) as [[target|files|]|]; cbn [st_dl set_dl fst snd st_pdf];
      try done. intros [= <-]. by repeat split.
Qed.

Lemma download_pdf_keeps_link e p st target :
  st_dl st = Some (DlLink target) →
  st_dl (download_pdf e p false st).2 = Some (DlLink target).
Proof.
  intros Hdl. unfold download_pdf. cbv zeta.
  destruct (dl_exists _ st && negb false); [done|].
  destruct (env_fetch e _ p) as [content|]; [|done].
  unfold dl_write. cbn [st_dl emit st_pdf]. rewrite Hdl.
  by destruct (st_pdf st !! target).
Qed.

Lemma copy_from_finds e pdf_filename pdf_dirs st dir files :
  (dir, files) ∈ pdf_dirs →
  is_Some (files !! pdf_filename) →
  let copy := copy_from e pdf_filename pdf_dirs st in
  (copy.1 = true ∧ dl_exists pdf_filename copy.2 = true)
  ∨ (copy.1 = false ∧ new_events st copy.2 = [EvCopy pdf_filename false]).
Proof.
  intros Hin Hsome. cbv zeta.
  induction pdf_dirs as [|[dir' files'] rest IH]; [by apply elem_of_nil in Hin|].
  cbn [copy_from].
  destruct (files' !! pdf_filename) as [content|] eqn:Hfile.
  - destruct (dl_exists pdf_filename st) eqn:Hex; [by left|].
    destruct (env_copy e (st_trace st) pdf_filename);
      [|right; split; [done|]; apply grows_new_events, grows_emit].
    destruct (dl_write pdf_filename content st) as [st1|] eqn:Hw;
      [|right; split; [done|]; apply grows_new_events, grows_emit].
    left. split; [done|]. by apply dl_write_exists in Hw as [Hw _].
  - apply IH. apply elem_of_cons in Hin as [[= -> ->]|Hin]; [|done].
    rewrite Hfile in Hsome. by destruct Hsome.
Qed.

(** X17. After [setup_pdf_directory] has succeeded for a keyword set,
    [./dl] is a link to the directory of the set, a PDF that [download_pdf]
    then delivers is a file of that directory under [./pdf], and the
    directories that existed under [./pdf] keep their names.  When the
    name of the directory has no separator and no leading dot, so that
    [glob('./pdf/*')] lists it, [copy_pdf_if_exists] finds the PDF from any
    later state in which the directory still holds it: it returns [True]
    with the PDF in the download directory, unless the copy itself
    fails. *)
Theorem downloads_land_in_the_keyword_directory e e' keywords p st pdf_dir :
  let setup := setup_pdf_directory e keywords st in
  let run := download_pdf e' p false setup.2 in
  setup.1 = inr pdf_dir →
  run.1.1.1 = true →
  pdf_dir = generate_pdf_dir_name e keywords st
  ∧ st_dl run.2 = Some (DlLink pdf_dir)
  ∧ (∃ files, st_pdf run.2 !! pdf_dir = Some files ∧ is_Some (files !! download_name p))
  ∧ (∀ dir, is_Some (st_pdf st !! dir) → is_Some (st_pdf setup.2 !! dir))
  ∧ (glob_visible pdf_dir = true →
     ∀ e'' later files,
       st_pdf later !! pdf_dir = Some files →
       is_Some (files !! download_name p) →
       let copy := copy_pdf_if_exists e'' (extract_arxiv_id p) later in
       (copy.1 = true ∧ dl_exists (download_name p) copy.2 = true)
       ∨ (copy.1 = false
          ∧ new_events later copy.2 = [EvCopy (download_name p) false])).
Proof.
  intros setup run Hsetup Hok.
  apply setup_pdf_directory_ok in Hsetup as (Hname & Hlink & Hdir & Hkept).
  fold setup in Hlink, Hdir, Hkept.
  pose proof (download_pdf_keeps_link e' p setup.2 pdf_dir Hlink) as Hlink'.
  pose proof (download_pdf_present e' p setup.2 Hok) as Hfile.
  fold run in Hlink', Hfile.
  split; [done|]. split; [done|]. split; [|split].
  - unfold dl_exists, dl_files in Hfile. rewrite Hlink' in Hfile.
    apply bool_decide_eq_true in Hfile.
    destruct (st_pdf run.2 !! pdf_dir) as [files|]; [|by destruct Hfile].
    by exists files.
  - intros dir Hsome. by rewrite Hkept.
  - intros Hvisible e'' later files Hdir' Hpdf. cbv zeta.
    unfold copy_pdf_if_exists. rewrite copy_name_is_download_name.
    apply (copy_from_finds e'' (download_name p) _ later pdf_dir files); [|done].
    apply list_elem_of_filter. split; [done|]. by apply elem_of_map_to_list.
Qed.

Lemma downloads_land_witness :
  of_ascii "quantum"
  = generate_pdf_dir_name Scenario.env_ok [of_ascii "quantum"] Scenario.st_fresh.
Proof.
  apply (downloads_land_in_the_keyword_directory Scenario.env_ok Scenario.env_ok
           [of_ascii "quantum"] Scenario.paper1 Scenario.st_fresh (of_ascii "quantum")).
  - vm_compute. reflexivity.
  - vm_compute. reflexivity.
Defined.

End KeywordDirectory.

(** ** The shape of the post text *)

Section PostShape.

(** X18. The post text [generate_summary] builds always begins with the
    greeting.  A text of at most 130 characters is kept whole; a longer
    one always gets the ellipsis, and up to 277 characters nothing of it
    is cut, so that it grows by three; beyond that it is cut to 277
    characters and is 280 long. *)
Theorem post_text_shape summary_text :
  let full := Summarizer.greeting ++ summary_text in
  let post := Summarizer.post_text_of summary_text in
  take 14 post = Summarizer.greeting
  ∧ ((length full ≤ 130)%nat → post = full)
  ∧ ((130 < length full ≤ 277)%nat → post = full ++ of_ascii "...")
  ∧ ((277 < length full)%nat →
     post = take 277 full ++ of_ascii "..." ∧ length post = 280%nat).
Proof.
  intros full post. subst post. unfold Summarizer.post_text_of. cbv zeta. fold full.
  assert (take 14 full = Summarizer.greeting) as Hgreet.
  { subst full. by rewrite (take_app_length' Summarizer.greeting). }
  split.
  - destruct (130 <? length full)%nat eqn:Hlong; [|done].
    apply Nat.ltb_lt in Hlong.
    rewrite take_app_le by (rewrite length_take; lia).
    rewrite take_take. by replace (14 `min` 277)%nat with 14%nat by lia.
  - split; [|split].
    + intros Hle. by replace (130 <? length full)%nat with false
        by (symmetry; apply Nat.ltb_ge; lia).
    + intros [Hlo Hhi]. replace (130 <? length full)%nat with true
        by (symmetry; apply Nat.ltb_lt; lia).
      by rewrite take_ge by lia.
    + intros Hlo. replace (130 <? length full)%nat with true
        by (symmetry; apply Nat.ltb_lt; lia).
      split; [done|]. rewrite length_app, length_take.
      change (length (of_ascii "...")) with 3%nat. lia.
Qed.

End PostShape.

(** ** Reusing a PDF of another keyword set *)

Section Reuse.
Import Pdf Downloader.

Lemma copy_from_outcome e pdf_filename pdf_dirs st :
  let run := copy_from e pdf_filename pdf_dirs st in
  (run.1 = true →
   ∃ dir files, (dir, files) ∈ pdf_dirs ∧ is_Some (files !! pdf_filename))
  ∧ ((∀ dir files, (dir, files) ∈ pdf_dirs → files !! pdf_filename = None) →
     run = (false, st))
  ∧ (dl_exists pdf_filename st = true → run.2 = st)
  ∧ (run.2 = st ∨ ∃ ok, new_events st run.2 = [EvCopy pdf_filename ok] ∧ run.1 = ok).
Proof.
  induction pdf_dirs as [|[dir files] rest IH]; cbv zeta; cbn [copy_from].
  { split; [done|]. split; [done|]. split; [done|]. by left. }
  destruct (files !! pdf_filename) as [content|] eqn:Hfile.
  - split.
    { intros _. exists dir, files. split; [by left|]. by rewrite Hfile. }
    split.
    { intros Hnone. specialize (Hnone dir files (list_elem_of_here _ _)). congruence. }
    destruct (dl_exists pdf_filename st) eqn:Hex; [split; [done|by left]|].
    split; [done|]. right.
    destruct (env_copy e (st_trace st) pdf_filename);
      [|exists false; split; [|done]; apply grows_new_events, grows_emit].
    destruct (dl_write pdf_filename content st) as [st1|] eqn:Hw;
      [|exists false; split; [|done]; apply grows_new_events, grows_emit].
    exists true. split; [|done]. apply grows_new_events.
    apply dl_write_inv in Hw as [Htr _]. unfold grows. cbn [snd st_trace emit].
    by rewrite Htr.
  - cbv zeta in IH. destruct IH as (H1 & H2 & H3 & H4).
    split.
    { intros Hok. destruct (H1 Hok) as (dir' & files' & Hin & Hsome).
      exists dir', files'. split; [by right|done]. }
    split; [|done].
    intros Hnone. apply H2. intros dir' files' Hin. apply (Hnone dir' files'). by right.
Qed.

(** X22. [copy_pdf_if_exists] returns [True] only when some directory
    under [./pdf] holds the PDF, and the PDF is then in the download
    directory; when no directory holds it the call returns [False] and
    changes nothing; a PDF already in the download directory is never
    written again; and the call makes at most one copy and no request to
    arXiv. *)
Theorem copy_reuses_only_what_exists e arxiv_id st :
  let run := copy_pdf_if_exists e arxiv_id st in
  let pdf_filename := arxiv_id ++ of_ascii ".pdf" in
  (run.1 = true →
   dl_exists pdf_filename run.2 = true
   ∧ ∃ dir files, st_pdf st !! dir = Some files ∧ is_Some (files !! pdf_filename))
  ∧ ((∀ dir files, st_pdf st !! dir = Some files → files !! pdf_filename = None) →
     run = (false, st))
  ∧ (dl_exists pdf_filename st = true → run.2 = st)
  ∧ (length (new_events st run.2) ≤ 1)%nat
  ∧ count_events is_fetch (new_events st run.2) = 0%nat.
Proof.
  intros run pdf_filename. subst run. unfold copy_pdf_if_exists. fold pdf_filename.
  pose proof (copy_from_outcome e pdf_filename
                (filter (λ d, glob_visible d.1 = true) (map_to_list (st_pdf st))) st)
    as (H1 & H2 & H3 & H4).
  pose proof (copy_from_selection_step e pdf_filename
                (filter (λ d, glob_visible d.1 = true) (map_to_list (st_pdf st))) st)
    as [_ Hfile].
  cbv zeta in H1, H2, H3, H4.
  split.
  { intros Hok. split; [by apply Hfile|].
    destruct (H1 Hok) as (dir & files & Hin & Hsome).
    apply list_elem_of_filter in Hin as [_ Hin].
    exists dir, files. split; [by apply elem_of_map_to_list|done]. }
  split.
  { intros Hnone. apply H2. intros dir files Hin.
    apply list_elem_of_filter in Hin as [_ Hin].
    apply (Hnone dir files). by apply elem_of_map_to_list. }
  split; [done|].
  destruct H4 as [->|(ok & -> & _)].
  - rewrite (grows_new_events _ _ _ (grows_refl st)). simpl. split; [lia|done].
  - simpl. split; [lia|done].
Qed.

End Reuse.

(** ** A wait that [time.sleep] refuses *)

Section NegativeWait.
Import Pdf Downloader Orchestrator.

(** X23. With a negative [wait_between_sets] and a configuration whose
    first set has keywords and an output directory and is not the last,
    the pass ends in the [ValueError] of [time.sleep] after that first
    set: no other set is started, nothing is saved, and the watermark file
    and the list of processed ids are what they were. *)
Theorem negative_wait_aborts_the_pass e cfg st ss rest :
  c_wait_between_sets cfg < 0 →
  c_search_sets cfg = ss :: rest →
  rest ≠ [] →
  valid_set ss = true →
  let st' := Orchestrator.main e (Some cfg) st in
  started (new_events st st') = [0%nat]
  ∧ count_events is_save (new_events st st') = 0%nat
  ∧ st_timestamps_file st' = st_timestamps_file st
  ∧ st_id_files st' !! processed_ids_path = st_id_files st !! processed_ids_path.
Proof.
  intros Hwait Hsets Hrest Hvalid st'. subst st'.
  unfold Orchestrator.main. rewrite Hsets. cbv zeta.
  unfold valid_set in Hvalid. apply negb_true_iff in Hvalid.
  cbn [run_sets]. rewrite Hvalid.
  replace (Z.of_nat 0 <? Z.of_nat (length (ss :: rest)) - 1) with true
    by (symmetry; apply Z.ltb_lt; destruct rest; [done|simpl length; lia]).
  replace (c_wait_between_sets cfg <? 0) with true by (symmetry; by apply Z.ltb_lt).
  pose proof (pass_step_emit st (EvSetStart 0) eq_refl) as H0.
  pose proof (run_search_set_pass_step e cfg (ss_keywords ss) (ss_output_dir ss)
                (ss_max_results ss) (ss_tweet_enabled ss) (load_timestamps st)
                (load_processed_ids st) (join (of_ascii "_") (ss_keywords ss))
                (emit (EvSetStart 0) st)) as H1.
  destruct (run_search_set e cfg _ _ _ _ (load_timestamps st) (load_processed_ids st) _
              (emit (EvSetStart 0) st)) as [[r ts] st1].
  cbn [fst snd] in H1.
  pose proof (logged_outcome_pass_step 0 r st1) as H2.
  pose proof (pass_step_trans _ _ _ _ _ (pass_step_trans _ _ _ _ _ H0 H1) H2)
    as [(evs & Hg & Hstarted & Hsaves) [Ht Hi]].
  assert (started (new_events st (logged_outcome 0 r st1)) = [0%nat]
          ∧ count_events is_save (new_events st (logged_outcome 0 r st1)) = 0%nat
          ∧ st_timestamps_file (logged_outcome 0 r st1) = st_timestamps_file st
          ∧ st_id_files (logged_outcome 0 r st1) !! processed_ids_path
            = st_id_files st !! processed_ids_path) as Hend.
  { rewrite (grows_new_events _ _ _ Hg). by repeat split. }
  by destruct r as [msg|[] ids].
Qed.

Lemma negative_wait_witness :
  started
    (new_events Scenario.st_fresh
       (Orchestrator.main Scenario.env_ok (Some Scenario.config_negative_wait)
          Scenario.st_fresh)) = [0%nat].
Proof.
  apply (negative_wait_aborts_the_pass Scenario.env_ok Scenario.config_negative_wait
           Scenario.st_fresh Scenario.set_quantum [Scenario.set_lattice]).
  - reflexivity.
  - reflexivity.
  - discriminate.
  - reflexivity.
Defined.

End NegativeWait.
